(** * RunSync foot-scan analyzer: the measurement engine and the bilateral
      comparison, embedded from the JavaScript sources.

    Source functions embedded here:
    - [MeasurementEngine] (src/unnamed/part_000): [detectUnit],
      [validateMeasurements], [measureFootLength], [measureFootWidth],
      [measureFootHeight], [calculateRatios], [analyzeFootType],
      [performFallbackMeasurement], [performPreciseMeasurements],
      [getMeasurements];
    - [DualFootAnalyzer.analyzeFootType] and [UIController.updateComparisonData]
      (src/claude_ask/js/scene-manager.js);
    - [ReportGenerator.addComparisonSection]
      (src/dual_foot_QR/js/report-generator.js).

    Numbers.  A JavaScript number is an IEEE-754 double.  Two models of it
    are used.
    - [Double]: the primitive binary64 numbers, with the IEEE operations,
      the two zeros, the infinities and NaN.  The estimators, the fallback,
      the classifier and the bilateral comparison are embedded on it, and
      the theorems about the numbers they return are stated there: the
      thresholds, the ratios and the mean are the doubles the code
      computes.
    - [num]: an exact rational, or one of NaN, +Infinity, -Infinity, with
      the IEEE rules for the special values (0/0 is NaN, every comparison
      with NaN is false, ...) and exact arithmetic on finite values.  It
      carries the orchestration (which path a call takes, what it stores
      and dispatches) and the properties stated in exact arithmetic.

    Objects.  A property that may be absent is an [option]; the engine
    instance is passed in and out of [performPreciseMeasurements], together
    with the list of events it dispatches.  The method is declared [async]
    but awaits nothing, so a call is one uninterrupted step.  Console
    output is left out.

    three.js (r128).  [Vector3], [Box3], [BufferAttribute] and
    [BufferGeometry.computeBoundingBox] are modelled after the library the
    sources import; the rotation of the displayed model is kept as a
    function on vertices. *)

From Stdlib Require Import Floats.
From Stdlib Require Import QArith Qcanon Qcabs Qround Qabs ZArith.
From Stdlib Require Import List String Bool Lia Lqa.
From Stdlib Require Import Sorting.Permutation Sorting.Sorted.
Import ListNotations.
Set Warnings "-inexact-float".

(* ================================================================== *)
(** * JavaScript numbers *)
(* ================================================================== *)

Module JS.

Inductive num : Type :=
| Fin (q : Qc)
| PInf
| NInf
| NaN.

(** Decimal literals of the sources, as canonical rationals. *)
Definition dec (q : Q) : num := Fin (Q2Qc q).

Definition zero : num := dec 0.

Definition Qcltb (a b : Qc) : bool :=
  match (a ?= b)%Qc with Lt => true | _ => false end.

Definition Qcleb (a b : Qc) : bool :=
  match (a ?= b)%Qc with Gt => false | _ => true end.

Definition Qceqb (a b : Qc) : bool :=
  match (a ?= b)%Qc with Eq => true | _ => false end.

(** [a < b] *)
Definition lt (a b : num) : bool :=
  match a, b with
  | NaN, _ | _, NaN => false
  | Fin p, Fin q => Qcltb p q
  | NInf, NInf => false
  | NInf, _ => true
  | _, NInf => false
  | PInf, _ => false
  | Fin _, PInf => true
  end.

(** [a <= b] *)
Definition le (a b : num) : bool :=
  match a, b with
  | NaN, _ | _, NaN => false
  | Fin p, Fin q => Qcleb p q
  | NInf, _ => true
  | _, PInf => true
  | _, NInf => false
  | PInf, Fin _ => false
  end.

(** [a > b] and [a >= b] *)
Definition gt (a b : num) : bool := lt b a.
Definition ge (a b : num) : bool := le b a.

Definition neg (a : num) : num :=
  match a with
  | Fin p => Fin (- p)
  | PInf => NInf
  | NInf => PInf
  | NaN => NaN
  end.

(** [a + b] *)
Definition add (a b : num) : num :=
  match a, b with
  | NaN, _ | _, NaN => NaN
  | Fin p, Fin q => Fin (p + q)
  | PInf, NInf | NInf, PInf => NaN
  | PInf, _ | _, PInf => PInf
  | NInf, _ | _, NInf => NInf
  end.

(** [a - b] *)
Definition sub (a b : num) : num := add a (neg b).

(** The infinity with the sign of [s * t], NaN when one of them is zero. *)
Definition signed_inf (s : comparison) (positive : bool) : num :=
  match s with
  | Eq => NaN
  | Gt => if positive then PInf else NInf
  | Lt => if positive then NInf else PInf
  end.

(** [a * b] *)
Definition mul (a b : num) : num :=
  match a, b with
  | NaN, _ | _, NaN => NaN
  | Fin p, Fin q => Fin (p * q)
  | Fin p, PInf | PInf, Fin p => signed_inf (p ?= 0)%Qc true
  | Fin p, NInf | NInf, Fin p => signed_inf (p ?= 0)%Qc false
  | PInf, PInf | NInf, NInf => PInf
  | PInf, NInf | NInf, PInf => NInf
  end.

(** [a / b].  A zero divisor is taken as +0. *)
Definition div (a b : num) : num :=
  match a, b with
  | NaN, _ | _, NaN => NaN
  | Fin p, Fin q =>
      if Qceqb q 0 then signed_inf (p ?= 0)%Qc true else Fin (p / q)
  | Fin _, (PInf | NInf) => zero
  | (PInf | NInf), (PInf | NInf) => NaN
  | PInf, Fin q => if Qcltb q 0 then NInf else PInf
  | NInf, Fin q => if Qcltb q 0 then PInf else NInf
  end.

(** [Math.abs] *)
Definition abs (a : num) : num :=
  match a with
  | Fin p => Fin (if Qcltb p 0 then - p else p)
  | PInf | NInf => PInf
  | NaN => NaN
  end.

(** [Math.max] and [Math.min] of two arguments: NaN as soon as one is NaN. *)
Definition max (a b : num) : num :=
  match a, b with
  | NaN, _ | _, NaN => NaN
  | _, _ => if lt a b then b else a
  end.

Definition min (a b : num) : num :=
  match a, b with
  | NaN, _ | _, NaN => NaN
  | _, _ => if lt b a then b else a
  end.

Definition max3 (a b c : num) : num := max (max a b) c.

Definition half : Qc := Q2Qc (1 # 2).

(** [Math.round]: the integer [floor (x + 1/2)]. *)
Definition round (a : num) : num :=
  match a with
  | Fin p => Fin (Q2Qc (inject_Z (Qfloor (p + half)%Qc)))
  | _ => a
  end.

(** Truthiness of a number: [!a] holds for 0 and NaN only. *)
Definition truthy (a : num) : bool :=
  match a with
  | Fin p => negb (Qceqb p 0)
  | PInf | NInf => true
  | NaN => false
  end.

Definition is_nan (a : num) : bool :=
  match a with NaN => true | _ => false end.

Definition finite (a : num) : Prop :=
  match a with Fin _ => True | _ => False end.

End JS.

Import JS.

Declare Scope js_scope.
Delimit Scope js_scope with js.
Bind Scope js_scope with num.
Infix "+" := add : js_scope.
Infix "-" := sub : js_scope.
Infix "*" := mul : js_scope.
Infix "/" := div : js_scope.
Infix "<?" := lt : js_scope.
Infix "<=?" := le : js_scope.
Infix ">?" := gt : js_scope.
Infix ">=?" := ge : js_scope.
Notation "'#' q" := (dec q%Q) (at level 1, q at level 0, format "'#' q") : js_scope.

Open Scope string_scope.
Open Scope js_scope.

(* ================================================================== *)
(** * MeasurementEngine: unit detection and validation *)
(* ================================================================== *)

Record UnitData : Type := mkUnitData {
  multiplier : num;
  unit_label : string;      (* the [unit] property *)
  unit_confidence : string  (* the [confidence] property *)
}.

(** The confidence labels of the source.  Their leading word gives the
    level: 높음 is high, 중간 is medium, 낮음 is low. *)
Definition conf_high_meter : string := "높음 (미터 단위 감지)".
Definition conf_medium_meter : string := "중간 (미터 단위 추정)".
Definition conf_medium_cm : string := "중간 (cm 단위 추정)".
Definition conf_high_mm : string := "높음 (mm 단위 감지)".
Definition conf_low_abnormal : string := "낮음 (비정상적 크기)".

(** [detectUnit(maxDim)] *)
Definition detectUnit (maxDim : num) : UnitData :=
  if maxDim <? #0.5 then
    mkUnitData #1000 "mm" conf_high_meter
  else if (maxDim >=? #0.5) && (maxDim <? #5) then
    mkUnitData #1000 "mm" conf_medium_meter
  else if (maxDim >=? #5) && (maxDim <? #50) then
    mkUnitData #10 "mm" conf_medium_cm
  else if (maxDim >=? #50) && (maxDim <=? #500) then
    mkUnitData #1 "mm" conf_high_mm
  else
    mkUnitData #0.1 "mm" conf_low_abnormal.

(** [validateMeasurements(length, width, height)] *)
Definition MIN_LENGTH : num := #50.
Definition MAX_LENGTH : num := #500.
Definition MIN_WIDTH : num := #20.
Definition MAX_WIDTH : num := #200.
Definition MIN_HEIGHT : num := #10.
Definition MAX_HEIGHT : num := #150.

Definition validateMeasurements (length width height : num) : bool :=
  let validLength := (length >=? MIN_LENGTH) && (length <=? MAX_LENGTH) in
  let validWidth := (width >=? MIN_WIDTH) && (width <=? MAX_WIDTH) in
  let validHeight := (height >=? MIN_HEIGHT) && (height <=? MAX_HEIGHT) in
  validLength && validWidth && validHeight.

(* ================================================================== *)
(** * three.js values used by the engine (r128) *)
(* ================================================================== *)

Module Vector3.
Record t : Type := mk { x : num; y : num; z : num }.

(** [a.min(b)], [a.max(b)], [a.subVectors(a, b)]: component by component. *)
Definition min (a b : t) : t := mk (JS.min (x a) (x b)) (JS.min (y a) (y b)) (JS.min (z a) (z b)).
Definition max (a b : t) : t := mk (JS.max (x a) (x b)) (JS.max (y a) (y b)) (JS.max (z a) (z b)).
Definition subVectors (a b : t) : t := mk (x a - x b) (y a - y b) (z a - z b).
End Vector3.

Module Box3.
Record t : Type := mk { min : Vector3.t; max : Vector3.t }.

(** [new Box3()] and [makeEmpty()]: min at +Infinity, max at -Infinity. *)
Definition empty : t :=
  mk (Vector3.mk PInf PInf PInf) (Vector3.mk NInf NInf NInf).

Definition expandByPoint (b : t) (p : Vector3.t) : t :=
  mk (Vector3.min (min b) p) (Vector3.max (max b) p).

(** [setFromPoints(points)]: start empty, expand by each point in turn. *)
Definition setFromPoints (points : list Vector3.t) : t :=
  fold_left expandByPoint points empty.

Definition isEmpty (b : t) : bool :=
  (Vector3.x (max b) <? Vector3.x (min b))
  || (Vector3.y (max b) <? Vector3.y (min b))
  || (Vector3.z (max b) <? Vector3.z (min b)).

(** [getSize(target)]: the zero vector for an empty box, max - min otherwise. *)
Definition getSize (b : t) : Vector3.t :=
  if isEmpty b then Vector3.mk zero zero zero
  else Vector3.subVectors (max b) (min b).
End Box3.

(* ================================================================== *)
(** * Arrays of numbers *)
(* ================================================================== *)

(** [l[i]].  A read past the end gives [undefined], which every later
    arithmetic step or comparison treats as NaN. *)
Definition idx (l : list num) (i : nat) : num := nth i l NaN.

(** [Array.prototype.sort(compareFn)].  A comparator result of NaN counts
    as +0.  When the comparisons order the values, as those of
    [(a, b) => a - b] do on an array without NaN, the result is the stable
    sorted copy, in which [a] goes behind [b] exactly when
    [compareFn(a, b) > 0]; on other arrays the order depends on the
    algorithm of the engine.  The model is the stable insertion, from the
    right end of the array; the theorems use it on arrays without NaN. *)
Section Sort.
Variable compareFn : num -> num -> num.

Fixpoint sort_insert (a : num) (l : list num) : list num :=
  match l with
  | [] => [a]
  | b :: t => if compareFn a b >? zero then b :: sort_insert a t else a :: l
  end.

Definition sort (l : list num) : list num := fold_right sort_insert [] l.
End Sort.

(** The comparator [(a, b) => a - b] of the sources. *)
Definition ascending (a b : num) : num := a - b.

(* ================================================================== *)
(** * MeasurementEngine: the three landmark estimators *)
(* ================================================================== *)

(** [!vertices || vertices.length === 0]; [None] is a missing argument. *)
Definition no_vertices (vertices : option (list Vector3.t)) : bool :=
  match vertices with
  | None => true
  | Some vs => (List.length vs =? 0)%nat
  end.

Definition given (vertices : option (list Vector3.t)) : list Vector3.t :=
  match vertices with Some vs => vs | None => [] end.

(** The [try] blocks of the three estimators cannot raise on a list of
    vertices with numeric components, so their [catch] handlers (which
    return the same bounding-box extent as the guard) do not appear. *)

(** [measureFootLength(vertices, bbox)] *)
Definition measureFootLength (vertices : option (list Vector3.t)) (bbox : option Box3.t) : num :=
  if no_vertices vertices then
    match bbox with Some b => Vector3.z (Box3.getSize b) | None => zero end
  else
    let vertices := given vertices in
    let yValues := sort ascending (map Vector3.y vertices) in
    let minY := idx yValues 0 in
    let maxY := idx yValues (List.length yValues - 1) in
    let footSoleThreshold := minY + (maxY - minY) * #0.15 in
    let footSoleVertices := filter (fun v => Vector3.y v <=? footSoleThreshold) vertices in
    if (List.length footSoleVertices =? 0)%nat then
      let zValues := sort ascending (map Vector3.z vertices) in
      idx zValues (List.length zValues - 1) - idx zValues 0
    else
      let zValues := sort ascending (map Vector3.z footSoleVertices) in
      let heelZ := idx zValues 0 in
      let toeZ := idx zValues (List.length zValues - 1) in
      let length := toeZ - heelZ in
      abs length.

(** [measureFootWidth(vertices, bbox)] *)
Definition measureFootWidth (vertices : option (list Vector3.t)) (bbox : option Box3.t) : num :=
  if no_vertices vertices then
    match bbox with Some b => Vector3.x (Box3.getSize b) | None => zero end
  else
    let vertices := given vertices in
    let zValues := sort ascending (map Vector3.z vertices) in
    let minZ := idx zValues 0 in
    let maxZ := idx zValues (List.length zValues - 1) in
    let footLength := maxZ - minZ in
    let ballStartZ := minZ + footLength * #0.6 in
    let ballEndZ := minZ + footLength * #0.75 in
    let yValues := sort ascending (map Vector3.y vertices) in
    let minY := idx yValues 0 in
    let maxY := idx yValues (List.length yValues - 1) in
    let footSoleThreshold := minY + (maxY - minY) * #0.2 in
    let ballVertices :=
      filter (fun v => (Vector3.z v >=? ballStartZ) && (Vector3.z v <=? ballEndZ)
                       && (Vector3.y v <=? footSoleThreshold)) vertices in
    if (List.length ballVertices =? 0)%nat then
      let xValues := sort ascending (map Vector3.x vertices) in
      idx xValues (List.length xValues - 1) - idx xValues 0
    else
      let xValues := sort ascending (map Vector3.x ballVertices) in
      let leftX := idx xValues 0 in
      let rightX := idx xValues (List.length xValues - 1) in
      let width := rightX - leftX in
      abs width.

(** [measureFootHeight(vertices, bbox)] *)
Definition measureFootHeight (vertices : option (list Vector3.t)) (bbox : option Box3.t) : num :=
  if no_vertices vertices then
    match bbox with Some b => Vector3.y (Box3.getSize b) | None => zero end
  else
    let vertices := given vertices in
    let yValues := sort ascending (map Vector3.y vertices) in
    let soleY := idx yValues 0 in
    let zValues := sort ascending (map Vector3.z vertices) in
    let minZ := idx zValues 0 in
    let maxZ := idx zValues (List.length zValues - 1) in
    let footLength := maxZ - minZ in
    let instepStartZ := minZ + footLength * #0.3 in
    let instepEndZ := minZ + footLength * #0.7 in
    let instepVertices :=
      filter (fun v => (Vector3.z v >=? instepStartZ) && (Vector3.z v <=? instepEndZ)) vertices in
    if (List.length instepVertices =? 0)%nat then
      idx yValues (List.length yValues - 1) - soleY
    else
      let instepYValues := sort ascending (map Vector3.y instepVertices) in
      let instepTopY := idx instepYValues (List.length instepYValues - 1) in
      let height := instepTopY - soleY in
      abs height.

(* ================================================================== *)
(** * MeasurementEngine: ratios and shape classification *)
(* ================================================================== *)

Module Measurements.
(** The measurement record stored in [footMeasurements] and returned by
    the engine. *)
Record t : Type := mk {
  length : num;
  width : num;
  height : num;
  unit : string;
  confidence : string;
  originalVertices : list Vector3.t;
  boundingBox : Box3.t;
  vertexCount : nat
}.
End Measurements.

(** [calculateRatios(length, width, height)].  A ratio is kept as the number
    that the source formats with [toFixed]; [None] is the string 'N/A'. *)
Record Ratios : Type := mkRatios {
  lengthWidth : option num;
  heightLength : option num
}.

Definition calculateRatios (length width height : num) : Ratios :=
  let lwRatio := if truthy length && truthy width then Some (length / width) else None in
  let hlRatio := if truthy height && truthy length then Some (height / length * #100) else None in
  mkRatios lwRatio hlRatio.

Record Analysis : Type := mkAnalysis {
  footType : string;
  archType : string;
  description : string
}.

Definition analysis_pending : Analysis :=
  mkAnalysis "Analysis Pending" "Analysis Pending"
             "Insufficient data for comprehensive analysis".

Definition describe_long : string :=
  "Elongated foot shape with longer toes and narrow profile".
Definition describe_wide : string :=
  "Broader foot shape with wider forefoot area".
Definition describe_normal : string :=
  "Well-balanced foot proportions with standard dimensions".

(** [MeasurementEngine.analyzeFootType(length, width, height)] *)
Definition analyzeFootType (length width height : num) : Analysis :=
  if negb (truthy length) || negb (truthy width) || negb (truthy height) then
    analysis_pending
  else
    let lwRatio := length / width in
    let hlRatio := height / length in
    let '(footType, description) :=
      if lwRatio >? #2.6 then ("Long Foot Type", describe_long)
      else if lwRatio <? #2.2 then ("Wide Foot Type", describe_wide)
      else ("Normal Foot Type", describe_normal) in
    let archType :=
      if hlRatio >? #0.25 then "High Arch"
      else if hlRatio <? #0.18 then "Low Arch / Flat Foot"
      else "Normal Arch" in
    mkAnalysis footType archType description.

Module DualFootAnalyzer.
(** [DualFootAnalyzer.analyzeFootType(measurements)] of scene-manager.js:
    the same classifier on a measurement object, which may be missing. *)
Definition analyzeFootType (measurements : option Measurements.t) : Analysis :=
  match measurements with
  | None => analysis_pending
  | Some m =>
      if negb (truthy (Measurements.length m)) || negb (truthy (Measurements.width m))
         || negb (truthy (Measurements.height m)) then
        analysis_pending
      else
        let lwRatio := Measurements.length m / Measurements.width m in
        let hlRatio := Measurements.height m / Measurements.length m in
        let '(footType, description) :=
          if lwRatio >? #2.6 then ("Long Foot Type", describe_long)
          else if lwRatio <? #2.2 then ("Wide Foot Type", describe_wide)
          else ("Normal Foot Type", describe_normal) in
        let archType :=
          if hlRatio >? #0.25 then "High Arch"
          else if hlRatio <? #0.18 then "Low Arch / Flat Foot"
          else "Normal Arch" in
        mkAnalysis footType archType description
  end.
End DualFootAnalyzer.

(* ================================================================== *)
(** * Geometry handed to the engine *)
(* ================================================================== *)

Module BufferAttribute.
(** A three.js buffer attribute of item size 3: the flat array and the
    stored vertex count. *)
Record t : Type := mk { array : list num; count : nat }.

Definition getX (a : t) (i : nat) : num := idx (array a) (i * 3).
Definition getY (a : t) (i : nat) : num := idx (array a) (i * 3 + 1).
Definition getZ (a : t) (i : nat) : num := idx (array a) (i * 3 + 2).
End BufferAttribute.

Record Attributes : Type := mkAttributes {
  position : option BufferAttribute.t
}.

Record BufferGeometry : Type := mkGeometry {
  attributes : option Attributes
}.

(** The displayed model; only the rotation that [makeRotationFromEuler]
    and [applyMatrix4] apply to a vertex is kept. *)
Record Object3D : Type := mkObject3D {
  applyRotation : Vector3.t -> Vector3.t
}.

(** [Box3.setFromBufferAttribute(attribute)]: a scan with [<] and [>]. *)
Definition scanVertex (b : Box3.t) (p : Vector3.t) : Box3.t :=
  let lo := Box3.min b in
  let hi := Box3.max b in
  Box3.mk
    (Vector3.mk (if Vector3.x p <? Vector3.x lo then Vector3.x p else Vector3.x lo)
                (if Vector3.y p <? Vector3.y lo then Vector3.y p else Vector3.y lo)
                (if Vector3.z p <? Vector3.z lo then Vector3.z p else Vector3.z lo))
    (Vector3.mk (if Vector3.x p >? Vector3.x hi then Vector3.x p else Vector3.x hi)
                (if Vector3.y p >? Vector3.y hi then Vector3.y p else Vector3.y hi)
                (if Vector3.z p >? Vector3.z hi then Vector3.z p else Vector3.z hi)).

Definition vertexAt (a : BufferAttribute.t) (i : nat) : Vector3.t :=
  Vector3.mk (BufferAttribute.getX a i) (BufferAttribute.getY a i) (BufferAttribute.getZ a i).

Definition setFromBufferAttribute (a : BufferAttribute.t) : Box3.t :=
  fold_left (fun b i => scanVertex b (vertexAt a i)) (seq 0 (BufferAttribute.count a)) Box3.empty.

(** [BufferGeometry.computeBoundingBox()], for a geometry without morph
    targets: the box of the position attribute, the empty box without one.
    The box is also cached on the geometry, which nothing here reads back. *)
Definition computeBoundingBox (a : Attributes) : Box3.t :=
  match position a with
  | Some p => setFromBufferAttribute p
  | None => Box3.empty
  end.

(* ================================================================== *)
(** * Exceptions, events and the engine state *)
(* ================================================================== *)

Inductive exn : Type :=
| TypeError
| Error (message : string).

Inductive completion (A : Type) : Type :=
| Normal (a : A)
| Throw (e : exn).
Arguments Normal {A} a.
Arguments Throw {A} e.

Inductive EventType : Type :=
| measurementStarted
| measurementProgress
| measurementComplete.

(** The [detail] of a dispatched event. *)
Inductive Detail : Type :=
| Status (status : string)
| Completed (measurements : Measurements.t) (ratios : Ratios) (analysis : Analysis)
            (status : string) (confidence : string).

Record CustomEvent : Type := mkEvent {
  type : EventType;
  detail : Detail
}.

(** The engine instance: [footMeasurements] is [None] while it holds the
    empty object of the constructor. *)
Record Engine : Type := mkEngine {
  footMeasurements : option Measurements.t
}.

Definition newEngine : Engine := mkEngine None.

(** [getMeasurements()] *)
Definition getMeasurements (this : Engine) : option Measurements.t :=
  footMeasurements this.

(* ================================================================== *)
(** * MeasurementEngine: fallback and orchestration *)
(* ================================================================== *)

Record FallbackResult : Type := mkFallback {
  fb_measurements : Measurements.t;
  fb_ratios : Ratios;
  fb_analysis : Analysis
}.

Definition conf_fallback_mode : string := "낮음 (폴백 모드)".

(** [performFallbackMeasurement(geometry, currentModel)].  Reading a
    property of a missing object raises a TypeError. *)
Definition performFallbackMeasurement (geometry : option BufferGeometry)
    (currentModel : option Object3D) : completion FallbackResult :=
  match geometry with
  | None => Throw TypeError
  | Some g =>
    match attributes g with
    | None => Throw TypeError
    | Some attrs =>
      let bbox := computeBoundingBox attrs in
      let size := Box3.getSize bbox in
      let maxDim := max3 (Vector3.x size) (Vector3.y size) (Vector3.z size) in
      let '(unitMultiplier, unit) :=
        if maxDim <? #1 then (#1000, "mm")
        else if maxDim >? #500 then (#1, "mm")
        else (#1, "mm") in
      let footLength := Vector3.z size * unitMultiplier in
      let footWidth := Vector3.x size * unitMultiplier in
      let footHeight := Vector3.y size * unitMultiplier in
      match position attrs with
      | None => Throw TypeError
      | Some p =>
        let measurements :=
          Measurements.mk (max footLength #50) (max footWidth #30) (max footHeight #20)
                          unit conf_fallback_mode [] bbox (BufferAttribute.count p) in
        let ratios := calculateRatios (Measurements.length measurements)
                        (Measurements.width measurements) (Measurements.height measurements) in
        let analysis := analyzeFootType (Measurements.length measurements)
                          (Measurements.width measurements) (Measurements.height measurements) in
        Normal (mkFallback measurements ratios analysis)
      end
    end
  end.

(** The vertices read off the flat position array, three numbers at a
    time.  A read past the end gives [undefined], for which the
    constructor of [Vector3] takes its default 0. *)
Fixpoint extractVertices (positions : list num) : list Vector3.t :=
  match positions with
  | [] => []
  | a :: b :: c :: rest => Vector3.mk a b c :: extractVertices rest
  | [a; b] => [Vector3.mk a b zero]
  | [a] => [Vector3.mk a zero zero]
  end.

(** What a call leaves behind: the value returned (or the exception that
    escapes), the engine afterwards, and the events dispatched, in order. *)
Record Run : Type := mkRun {
  returned : completion (option Measurements.t);
  engine : Engine;
  dispatched : list CustomEvent
}.

Definition status_invalid : string := "오류: 유효하지 않은 3D 데이터".
Definition status_analyzing : string := "발 구조 분석 중...".
Definition status_measuring : string := "정밀 측정 수행 중...".
Definition status_verified : string := "측정 완료 - 정밀도 검증됨".
Definition status_fallback : string := "기본 측정 완료 (폴백 모드)".
Definition conf_fallback : string := "낮음 (폴백)".

(** The [try] block of [performPreciseMeasurements]: the engine after it,
    the events it dispatched before leaving, and how it left. *)
Definition measureTry (this : Engine) (p : BufferAttribute.t) (currentModel : option Object3D)
    : Engine * list CustomEvent * completion Measurements.t :=
  let positions := BufferAttribute.array p in
  let vertexCount := BufferAttribute.count p in
  if (vertexCount =? 0)%nat || (List.length positions =? 0)%nat then
    (this, [], Throw (Error "빈 geometry 데이터"))
  else
    let originalVertices := extractVertices positions in
    let originalVertices :=
      match currentModel with
      | Some model => map (applyRotation model) originalVertices
      | None => originalVertices
      end in
    let bbox := Box3.setFromPoints originalVertices in
    let size := Box3.getSize bbox in
    let maxDim := max3 (Vector3.x size) (Vector3.y size) (Vector3.z size) in
    let unitData := detectUnit maxDim in
    let progress := mkEvent measurementProgress (Status status_measuring) in
    let footLength := measureFootLength (Some originalVertices) (Some bbox) * multiplier unitData in
    let footWidth := measureFootWidth (Some originalVertices) (Some bbox) * multiplier unitData in
    let footHeight := measureFootHeight (Some originalVertices) (Some bbox) * multiplier unitData in
    if negb (validateMeasurements footLength footWidth footHeight) then
      (this, [progress], Throw (Error "측정값 검증 실패"))
    else
      let stored :=
        Measurements.mk footLength footWidth footHeight (unit_label unitData)
                        (unit_confidence unitData) originalVertices bbox vertexCount in
      let this := mkEngine (Some stored) in
      let ratios := calculateRatios footLength footWidth footHeight in
      let analysis := analyzeFootType footLength footWidth footHeight in
      let complete :=
        mkEvent measurementComplete
                (Completed stored ratios analysis status_verified (unit_confidence unitData)) in
      (this, [progress; complete], Normal stored).

(** [performPreciseMeasurements(geometry, currentModel)].  The geometry is
    a three.js [BufferGeometry]: its position attribute, when there is
    one, is a [BufferAttribute] with its [array] and its [count], so the
    reads of [position.count] and [position.array.length] for the console
    between the guard and the first dispatch succeed.  A caller that
    passes some other object under [attributes.position] is outside this
    model. *)
Definition performPreciseMeasurements (this : Engine) (geometry : option BufferGeometry)
    (currentModel : option Object3D) : Run :=
  match geometry with
  | Some (mkGeometry (Some (mkAttributes (Some p)))) =>
    let started := mkEvent measurementStarted (Status status_analyzing) in
    match measureTry this p currentModel with
    | (this, events, Normal stored) =>
        mkRun (Normal (Some stored)) this (started :: events)
    | (this, events, Throw _) =>
        match performFallbackMeasurement geometry currentModel with
        | Throw e => mkRun (Throw e) this (started :: events)
        | Normal fallbackResult =>
            let complete :=
              mkEvent measurementComplete
                      (Completed (fb_measurements fallbackResult) (fb_ratios fallbackResult)
                                 (fb_analysis fallbackResult) status_fallback conf_fallback) in
            mkRun (Normal (Some (fb_measurements fallbackResult))) this
                  (started :: events ++ [complete])
        end
    end
  | _ =>
    mkRun (Normal None) this [mkEvent measurementStarted (Status status_invalid)]
  end.

(* ================================================================== *)
(** * Bilateral comparison *)
(* ================================================================== *)

Record Comparison : Type := mkComparison {
  lengthDiff : num;
  widthDiff : num;
  heightDiff : num;
  lengthSymmetry : num;
  widthSymmetry : num;
  heightSymmetry : num;
  overallSymmetry : num
}.

Module UIController.
(** The numbers computed by [updateComparisonData()] of scene-manager.js
    from the stored left and right measurements (the DOM updates that
    display them are left out). *)
Definition updateComparisonData (left right : Measurements.t) : Comparison :=
  let lengthDiff := abs (Measurements.length left - Measurements.length right) in
  let widthDiff := abs (Measurements.width left - Measurements.width right) in
  let heightDiff := abs (Measurements.height left - Measurements.height right) in
  let maxLength := max (Measurements.length left) (Measurements.length right) in
  let maxWidth := max (Measurements.width left) (Measurements.width right) in
  let maxHeight := max (Measurements.height left) (Measurements.height right) in
  let lengthSymmetry := (#1 - lengthDiff / maxLength) * #100 in
  let widthSymmetry := (#1 - widthDiff / maxWidth) * #100 in
  let heightSymmetry := (#1 - heightDiff / maxHeight) * #100 in
  let overallSymmetry := round ((lengthSymmetry + widthSymmetry + heightSymmetry) / #3) in
  mkComparison lengthDiff widthDiff heightDiff
               lengthSymmetry widthSymmetry heightSymmetry overallSymmetry.
End UIController.

Module ReportGenerator.
(** The numbers computed by [addComparisonSection(doc, leftMeasurements,
    rightMeasurements, yPos)] of report-generator.js (the PDF text calls
    are left out). *)
Definition addComparisonSection (leftMeasurements rightMeasurements : Measurements.t)
    : Comparison :=
  let lengthDiff := abs (Measurements.length leftMeasurements - Measurements.length rightMeasurements) in
  let widthDiff := abs (Measurements.width leftMeasurements - Measurements.width rightMeasurements) in
  let heightDiff := abs (Measurements.height leftMeasurements - Measurements.height rightMeasurements) in
  let maxLength := max (Measurements.length leftMeasurements) (Measurements.length rightMeasurements) in
  let maxWidth := max (Measurements.width leftMeasurements) (Measurements.width rightMeasurements) in
  let maxHeight := max (Measurements.height leftMeasurements) (Measurements.height rightMeasurements) in
  let lengthSymmetry := (#1 - lengthDiff / maxLength) * #100 in
  let widthSymmetry := (#1 - widthDiff / maxWidth) * #100 in
  let heightSymmetry := (#1 - heightDiff / maxHeight) * #100 in
  let overallSymmetry := round ((lengthSymmetry + widthSymmetry + heightSymmetry) / #3) in
  mkComparison lengthDiff widthDiff heightDiff
               lengthSymmetry widthSymmetry heightSymmetry overallSymmetry.
End ReportGenerator.

(* ================================================================== *)
(** * Vocabulary of the specification *)
(* ================================================================== *)

(** Smallest and largest element of a list of numbers. *)
Definition minOf (l : list num) : num := fold_right min PInf l.
Definition maxOf (l : list num) : num := fold_right max NInf l.

(** The extent of a set of values: its maximum minus its minimum. *)
Definition extent (l : list num) : num := maxOf l - minOf l.

Definition notNaN (a : num) : Prop := is_nan a = false.

(** Every coordinate of every vertex is a number (possibly infinite). *)
Definition numeric (vs : list Vector3.t) : Prop :=
  Forall (fun v => notNaN (Vector3.x v) /\ notNaN (Vector3.y v) /\ notNaN (Vector3.z v)) vs.

Definition xs (vs : list Vector3.t) : list num := map Vector3.x vs.
Definition ys (vs : list Vector3.t) : list num := map Vector3.y vs.
Definition zs (vs : list Vector3.t) : list num := map Vector3.z vs.

(** The vertices at or below [minY + (maxY - minY) * ratio]. *)
Definition soleThreshold (ratio : num) (vs : list Vector3.t) : num :=
  minOf (ys vs) + (maxOf (ys vs) - minOf (ys vs)) * ratio.

Definition atSole (ratio : num) (vs : list Vector3.t) (v : Vector3.t) : bool :=
  Vector3.y v <=? soleThreshold ratio vs.

(** The vertices whose z lies in [minZ + lo * footLength, minZ + hi * footLength],
    footLength being the full Z range. *)
Definition inZBand (lo hi : num) (vs : list Vector3.t) (v : Vector3.t) : bool :=
  let footLength := extent (zs vs) in
  (minOf (zs vs) + footLength * lo <=? Vector3.z v)
  && (Vector3.z v <=? minOf (zs vs) + footLength * hi).

Definition soleVertices (vs : list Vector3.t) : list Vector3.t :=
  filter (atSole #0.15 vs) vs.

Definition ballVertices (vs : list Vector3.t) : list Vector3.t :=
  filter (fun v => inZBand #0.6 #0.75 vs v && atSole #0.2 vs v) vs.

Definition instepVertices (vs : list Vector3.t) : list Vector3.t :=
  filter (inZBand #0.3 #0.7 vs) vs.

(** The level a confidence label announces with its first word. *)
Inductive Level : Type := High | Medium | Low.

Definition confidenceLevel (label : string) : option Level :=
  if String.prefix "높음" label then Some High
  else if String.prefix "중간" label then Some Medium
  else if String.prefix "낮음" label then Some Low
  else None.

(** The order of numbers as a relation. *)
Definition leR (a b : num) : Prop := (a <=? b) = true.

(** [m] is a least (greatest) element of [l]. *)
Definition is_min (m : num) (l : list num) : Prop :=
  In m l /\ Forall (fun a => (m <=? a) = true) l.
Definition is_max (m : num) (l : list num) : Prop :=
  In m l /\ Forall (fun a => (a <=? m) = true) l.

(** The position attribute a geometry exposes, if any: what the guard
    [!geometry || !geometry.attributes || !geometry.attributes.position]
    looks for. *)
Definition position_of (geometry : option BufferGeometry) : option BufferAttribute.t :=
  match geometry with
  | Some g => match attributes g with Some a => position a | None => None end
  | None => None
  end.

(** The record the fallback builds from an empty bounding box. *)
Definition floorRecord (vertexCount : nat) : Measurements.t :=
  Measurements.mk #50 #30 #20 "mm" conf_fallback_mode [] Box3.empty vertexCount.

(** The larger of two rationals. *)
Definition Qcmax (a b : Qc) : Qc := if Qcltb a b then b else a.

(** One axis of a bounding box scanned from finite values: still at its
    initial bounds, or a pair of finite bounds in order. *)
Definition axis_ok (lo hi : num) : Prop :=
  (lo = PInf /\ hi = NInf)
  \/ (exists a b : Qc, lo = Fin a /\ hi = Fin b /\ (a <= b)%Qc).

Definition box_ok (b : Box3.t) : Prop :=
  axis_ok (Vector3.x (Box3.min b)) (Vector3.x (Box3.max b))
  /\ axis_ok (Vector3.y (Box3.min b)) (Vector3.y (Box3.max b))
  /\ axis_ok (Vector3.z (Box3.min b)) (Vector3.z (Box3.max b)).

(** A finite number that is not negative. *)
Definition nonneg (a : num) : Prop := exists q : Qc, a = Fin q /\ (0 <= q)%Qc.

(** What reading an array of finite numbers gives: an element, or NaN past
    the end. *)
Definition readable (a : num) : Prop := finite a \/ a = NaN.

(** The geometry with position attribute [p]. *)
Definition geometryOf (p : BufferAttribute.t) : BufferGeometry :=
  mkGeometry (Some (mkAttributes (Some p))).

(* ================================================================== *)
(** * Sample inputs *)
(* ================================================================== *)

Definition vertex (a b c : Q) : Vector3.t := Vector3.mk (dec a) (dec b) (dec c).

(** Five points of a 100 x 60 x 260 foot-like cloud, in millimetres. *)
Definition footSample : list Vector3.t :=
  [vertex 0 0 0; vertex 50 0 260; vertex 0 0 170; vertex 100 0 180; vertex 50 60 130].

(** Two points: no vertex lies in the ball band or in the instep band. *)
Definition twoPoints : list Vector3.t := [vertex 0 0 0; vertex 5 2 10].

(** Two points at infinite height: the sole threshold is NaN and no vertex
    passes the sole filter. *)
Definition infiniteY : list Vector3.t :=
  [Vector3.mk #0 PInf #1; Vector3.mk #0 PInf #3].

(** A degenerate geometry: the same vertex twice. *)
Definition degenerate : BufferAttribute.t :=
  BufferAttribute.mk [#1; #2; #3; #1; #2; #3] 2.

(** A position attribute with an empty buffer. *)
Definition emptyBuffer : BufferAttribute.t := BufferAttribute.mk [] 0.

(** A single vertex at the origin: every extent is 0, validation fails. *)
Definition originOnly : BufferAttribute.t := BufferAttribute.mk [#0; #0; #0] 1.

(** The five points of [footSample] as a position buffer. *)
Definition footBuffer : BufferAttribute.t :=
  BufferAttribute.mk
    [#0; #0; #0;  #50; #0; #260;  #0; #0; #170;  #100; #0; #180;  #50; #60; #130] 5.

(** A record with the given three dimensions, as a comparison reads it. *)
Definition dims (l w h : Q) : Measurements.t :=
  Measurements.mk (dec l) (dec w) (dec h) "mm" conf_high_mm [] Box3.empty 0.

(* ================================================================== *)
(** * MeasurementEngine: measurement lines *)
(* ================================================================== *)

(** [Box3.getCenter(target)]: the zero vector for an empty box, the middle
    of min and max otherwise. *)
Definition getCenter (b : Box3.t) : Vector3.t :=
  if Box3.isEmpty b then Vector3.mk zero zero zero
  else Vector3.mk
         ((Vector3.x (Box3.min b) + Vector3.x (Box3.max b)) * #0.5)
         ((Vector3.y (Box3.min b) + Vector3.y (Box3.max b)) * #0.5)
         ((Vector3.z (Box3.min b) + Vector3.z (Box3.max b)) * #0.5).

Module Line.
(** A measurement line: the two end points of its geometry, the colour and
    opacity of its material, its visibility, and [userData.className] and
    [userData.type]. *)
Record t : Type := mk {
  start : Vector3.t;
  finish : Vector3.t;
  color : Z;
  opacity : num;
  visible : bool;
  className : string;
  type : option string
}.

Definition setType (l : t) (ty : string) : t :=
  mk (start l) (finish l) (color l) (opacity l) (visible l) (className l) (Some ty).

Definition setVisible (v : bool) (l : t) : t :=
  mk (start l) (finish l) (color l) (opacity l) v (className l) (type l).
End Line.

(** [createLine(start, end, color)]; a new three.js object is visible. *)
Definition createLine (start finish : Vector3.t) (color : Z) : Line.t :=
  Line.mk start finish color #0.8 true "measurement-line" None.

(** [createMeasurementLines(vertices, scene)]: the new value of
    [measurementLines], which is also returned (adding the lines to the
    scene and removing the old ones from it is left out). *)
Definition createMeasurementLines (vertices : option (list Vector3.t)) : list Line.t :=
  if no_vertices vertices then []
  else
    let vertices := given vertices in
    let bbox := Box3.setFromPoints vertices in
    let size := Box3.getSize bbox in
    let center := getCenter bbox in
    let offset := max3 (Vector3.x size) (Vector3.y size) (Vector3.z size) * #0.1 in
    let lengthLine :=
      createLine
        (Vector3.mk (Vector3.x center) (Vector3.y (Box3.min bbox) - offset) (Vector3.z (Box3.min bbox)))
        (Vector3.mk (Vector3.x center) (Vector3.y (Box3.min bbox) - offset) (Vector3.z (Box3.max bbox)))
        0xff0000 in
    let widthLine :=
      createLine
        (Vector3.mk (Vector3.x (Box3.min bbox)) (Vector3.y (Box3.min bbox) - offset / #2) (Vector3.z center))
        (Vector3.mk (Vector3.x (Box3.max bbox)) (Vector3.y (Box3.min bbox) - offset / #2) (Vector3.z center))
        0xffff00 in
    let heightLine :=
      createLine
        (Vector3.mk (Vector3.x center + offset) (Vector3.y (Box3.min bbox)) (Vector3.z center))
        (Vector3.mk (Vector3.x center + offset) (Vector3.y (Box3.max bbox)) (Vector3.z center))
        0xff00ff in
    [Line.setType lengthLine "length"; Line.setType widthLine "width";
     Line.setType heightLine "height"].

(** [toggleMeasurementLines()]: the lines afterwards and the value
    returned. *)
Definition toggleMeasurementLines (measurementLines : list Line.t) : list Line.t * bool :=
  match measurementLines with
  | [] => (measurementLines, false)
  | first :: _ =>
      let isVisible := Line.visible first in
      (map (Line.setVisible (negb isVisible)) measurementLines, negb isVisible)
  end.

(* ================================================================== *)
(** * ReportGenerator: analysis, recommendations and the compact record *)
(* ================================================================== *)

Module Report.

(** [ReportGenerator.getFootTypeAnalysis(measurements)] of
    report-generator.js. *)
Definition getFootTypeAnalysis (measurements : Measurements.t) : Analysis :=
  if negb (truthy (Measurements.length measurements))
     || negb (truthy (Measurements.width measurements))
     || negb (truthy (Measurements.height measurements)) then
    analysis_pending
  else
    let lwRatio := Measurements.length measurements / Measurements.width measurements in
    let hlRatio := Measurements.height measurements / Measurements.length measurements in
    let '(footType, description) :=
      if lwRatio >? #2.6 then ("Long Foot Type", describe_long)
      else if lwRatio <? #2.2 then ("Wide Foot Type", describe_wide)
      else ("Normal Foot Type", describe_normal) in
    let archType :=
      if hlRatio >? #0.25 then "High Arch"
      else if hlRatio <? #0.18 then "Low Arch / Flat Foot"
      else "Normal Arch" in
    mkAnalysis footType archType description.

(** The assessment text chosen at the end of [addComparisonSection] from
    the overall symmetry score. *)
Definition symmetryEvaluation (overallSymmetry : num) : string :=
  if overallSymmetry >=? #90 then "Excellent bilateral symmetry"
  else if overallSymmetry >=? #80 then "Good bilateral symmetry with minor differences"
  else if overallSymmetry >=? #70 then "Moderate asymmetry observed"
  else "Significant asymmetry - professional consultation recommended".

Definition rec_length_difference : string :=
  "Significant length difference detected - consider custom insoles for length compensation".
Definition rec_width_asymmetry : string :=
  "Width asymmetry observed - wide-fitting shoes recommended for comfort".
Definition rec_height_difference : string :=
  "Height difference noted - arch support may help balance foot function".
Definition rec_long : list string :=
  ["Both feet show elongated shape - choose shoes with spacious toe boxes";
   "Regular or wide width fittings recommended for optimal comfort"].
Definition rec_wide : list string :=
  ["Both feet exhibit wider shape - wide-fitting shoes essential";
   "Avoid shoes with narrow or pointed toe designs"].
Definition rec_normal : list string :=
  ["Both feet show normal proportions - standard width shoes suitable";
   "Most regular shoe designs should accommodate both feet well"].
Definition rec_high_arch : list string :=
  ["High arch structure detected in both feet - strong arch support recommended";
   "Choose shoes with excellent shock absorption capabilities";
   "Look for shoes with good lateral stability features"].
Definition rec_low_arch : list string :=
  ["Lower arch profile observed - motion control shoes may benefit both feet";
   "Firm heel counters recommended for enhanced stability";
   "Avoid excessive cushioning that may compromise support"].
Definition rec_normal_arch : list string :=
  ["Normal arch height in both feet - regular athletic shoes appropriate";
   "Moderate cushioning and stability features recommended"].
Definition rec_excellent_symmetry : string :=
  "Excellent bilateral symmetry - standard shoe fitting approach suitable".
Definition rec_consultation : list string :=
  ["Consider professional fitting consultation due to bilateral differences";
   "Custom orthotics may provide optimal support for both feet"].
Definition rec_general : list string :=
  ["Regular foot exercises recommended to maintain flexibility and strength";
   "Monitor both feet for any changes during regular self-examinations"].

(** [getDualFootRecommendations(leftMeasurements, rightMeasurements)]: the
    pushes of the source, in their order. *)
Definition getDualFootRecommendations (leftMeasurements rightMeasurements : Measurements.t)
    : list string :=
  let leftLWRatio := Measurements.length leftMeasurements / Measurements.width leftMeasurements in
  let leftHLRatio := Measurements.height leftMeasurements / Measurements.length leftMeasurements in
  let rightLWRatio := Measurements.length rightMeasurements / Measurements.width rightMeasurements in
  let rightHLRatio := Measurements.height rightMeasurements / Measurements.length rightMeasurements in
  let avgLWRatio := (leftLWRatio + rightLWRatio) / #2 in
  let avgHLRatio := (leftHLRatio + rightHLRatio) / #2 in
  let lengthDiff := abs (Measurements.length leftMeasurements - Measurements.length rightMeasurements) in
  let widthDiff := abs (Measurements.width leftMeasurements - Measurements.width rightMeasurements) in
  let heightDiff := abs (Measurements.height leftMeasurements - Measurements.height rightMeasurements) in
  let maxLengthDiff := max3 lengthDiff widthDiff heightDiff in
  (if lengthDiff >? #5 then [rec_length_difference] else [])
  ++ (if widthDiff >? #3 then [rec_width_asymmetry] else [])
  ++ (if heightDiff >? #4 then [rec_height_difference] else [])
  ++ (if avgLWRatio >? #2.6 then rec_long
      else if avgLWRatio <? #2.2 then rec_wide
      else rec_normal)
  ++ (if avgHLRatio >? #0.25 then rec_high_arch
      else if avgHLRatio <? #0.18 then rec_low_arch
      else rec_normal_arch)
  ++ (if maxLengthDiff <? #2 then [rec_excellent_symmetry]
      else if maxLengthDiff >? #5 then rec_consultation
      else [])
  ++ rec_general.

(** The three dimensions of one foot inside the combined record. *)
Record Dims : Type := mkDims {
  d_length : num;
  d_width : num;
  d_height : num
}.

(** The record handed to [generateQRCode]: average dimensions, and the two
    feet when the caller supplies them. *)
Record Combined : Type := mkCombined {
  c_length : num;
  c_width : num;
  c_height : num;
  c_unit : string;
  c_confidence : string;
  leftFoot : option Dims;
  rightFoot : option Dims
}.

(** A JavaScript string whose characters matter: its sequence of UTF-16
    code units.  The texts the code only tests for emptiness or copies
    stay Rocq strings. *)
Definition jsstring : Type := list N.

(** The code units of a text of ASCII characters. *)
Definition ascii_text (s : string) : jsstring :=
  map Ascii.N_of_ascii (list_ascii_of_string s).

(** [s.substring(indexStart, indexEnd)]: the code units from the smaller
    to the larger of the two indices, each of them clamped to the
    length. *)
Definition substring (s : jsstring) (indexStart indexEnd : nat) : jsstring :=
  let from := Nat.min (Nat.min indexStart indexEnd) (List.length s) in
  let to := Nat.min (Nat.max indexStart indexEnd) (List.length s) in
  firstn (to - from) (skipn from s).

(** The compact record encoded in the QR code: [m] holds the average
    dimensions and the unit, [lf] and [rf] the dimensions of each foot. *)
Module M.
Record t : Type := mk { l : num; w : num; h : num; u : string }.
End M.

Module Foot.
Record t : Type := mk { l : num; w : num; h : num }.
End Foot.

Record Compact : Type := mkCompact {
  f : jsstring;
  d : jsstring;
  m : M.t;
  type : string;
  lf : option Foot.t;
  rf : option Foot.t;
  t : option string;
  a : option string
}.

(** [Math.round(x * 10) / 10] *)
Definition round1 (x : num) : num := round (x * #10) / #10.

Definition compactDims (foot : Dims) : Foot.t :=
  Foot.mk (round1 (d_length foot)) (round1 (d_width foot)) (round1 (d_height foot)).

(** [createCompactReportData(measurements, fileName)]; [now] is the text of
    [new Date().toISOString()]. *)
Definition createCompactReportData (now : jsstring) (measurements : Combined)
    (fileName : jsstring) : Compact :=
  let both :=
    match leftFoot measurements, rightFoot measurements with
    | Some lfoot, Some rfoot => Some (compactDims lfoot, compactDims rfoot)
    | _, _ => None
    end in
  let codes :=
    if truthy (c_length measurements) && truthy (c_width measurements) then
      let lwRatio := c_length measurements / c_width measurements in
      let hlRatio := c_height measurements / c_length measurements in
      Some (if lwRatio >? #2.6 then "L" else if lwRatio <? #2.2 then "W" else "N",
            if hlRatio >? #0.25 then "H" else if hlRatio <? #0.18 then "F" else "N")
    else None in
  mkCompact
    (substring fileName 0 30)
    (substring now 0 10)
    (M.mk
       (if truthy (c_length measurements) then round1 (c_length measurements) else zero)
       (if truthy (c_width measurements) then round1 (c_width measurements) else zero)
       (if truthy (c_height measurements) then round1 (c_height measurements) else zero)
       (if (c_unit measurements =? "")%string then "mm" else c_unit measurements))
    "dual"
    (option_map fst both) (option_map snd both)
    (option_map fst codes) (option_map snd codes).

End Report.

(* ================================================================== *)
(** * scene-manager.js: combined data, tags, scores, steps, visibility *)
(* ================================================================== *)

Module Analyzer.
(** [DualFootAnalyzer.createCombinedFootData()], from the stored left and
    right measurements. *)
Definition createCombinedFootData (leftMeasurements rightMeasurements : Measurements.t)
    : Report.Combined :=
  let avgLength := (Measurements.length leftMeasurements + Measurements.length rightMeasurements) / #2 in
  let avgWidth := (Measurements.width leftMeasurements + Measurements.width rightMeasurements) / #2 in
  let avgHeight := (Measurements.height leftMeasurements + Measurements.height rightMeasurements) / #2 in
  Report.mkCombined avgLength avgWidth avgHeight
    (Measurements.unit leftMeasurements) "Dual Foot Analysis"
    (Some (Report.mkDims (Measurements.length leftMeasurements)
             (Measurements.width leftMeasurements) (Measurements.height leftMeasurements)))
    (Some (Report.mkDims (Measurements.length rightMeasurements)
             (Measurements.width rightMeasurements) (Measurements.height rightMeasurements))).
End Analyzer.

Module Dashboard.

Record Tag : Type := mkTag { text : string; class : string }.

Definition tag_optimal : Tag := mkTag "최적" "optimal".
Definition tag_normal : Tag := mkTag "정상" "normal".
Definition tag_low : Tag := mkTag "낮음" "low".
Definition tag_high : Tag := mkTag "높음" "high".
Definition tag_check : Tag := mkTag "확인필요" "low".

(** The closure [getTagInfo(value, normalRange, optimalRange)] of
    [UIController.updateMeasurementDisplay]; every call passes a normal
    range, the optimal range is optional. *)
Definition getTagInfo (value : num) (normalRange : num * num)
    (optimalRange : option (num * num)) : Tag :=
  if match optimalRange with
     | Some (lo, hi) => (value >=? lo) && (value <=? hi)
     | None => false
     end then tag_optimal
  else if (value >=? fst normalRange) && (value <=? snd normalRange) then tag_normal
  else if value <? fst normalRange then tag_low
  else if value >? snd normalRange then tag_high
  else tag_check.

(** The tag shown for the arch ratio of a record. *)
Definition archRatioTag (measurements : Measurements.t) : Tag :=
  let hlRatio := Measurements.height measurements / Measurements.length measurements in
  getTagInfo hlRatio (#0.18, #0.25) None.

(** [String.prototype.includes] *)
Fixpoint includes (s sub : string) : bool :=
  String.prefix sub s
  || match s with
     | EmptyString => false
     | String _ rest => includes rest sub
     end.

(** [UIController.calculateFootScore(analysis)] *)
Definition calculateFootScore (analysis : Analysis) : num :=
  let score := #80 in
  let score :=
    if includes (footType analysis) "Normal" then score + #10
    else if includes (footType analysis) "Wide" then score + #5
    else if includes (footType analysis) "Long" then score + #5
    else score in
  let score :=
    if includes (archType analysis) "Normal" then score + #10
    else if includes (archType analysis) "High" then score + #5
    else if includes (archType analysis) "Low" then score - #5
    else score in
  min #100 (max #0 score).

Definition summary_healthy : string :=
  "양발 모두 전반적으로 균형이 잘 잡혀있고 건강한 상태입니다.".
Definition summary_fair : string :=
  "양발 상태가 양호하나 일부 개선이 필요한 부분이 있습니다.".
Definition summary_attention : string :=
  "양발에 주의가 필요한 부분들이 관찰됩니다. 맞춤형 관리를 권장합니다.".

(** The overall score and the summary text of
    [UIController.updateAIAnalysis(leftAnalysis, rightAnalysis)]. *)
Definition updateAIAnalysis (leftAnalysis rightAnalysis : Analysis) : num * string :=
  let leftScore := calculateFootScore leftAnalysis in
  let rightScore := calculateFootScore rightAnalysis in
  let overallScore := round ((leftScore + rightScore) / #2) in
  let summaryText :=
    if overallScore >=? #85 then summary_healthy
    else if overallScore >=? #70 then summary_fair
    else summary_attention in
  (overallScore, summaryText).

Definition comparison_excellent : string :=
  "양발의 대칭성이 매우 우수합니다. 균형잡힌 발 구조를 가지고 있습니다.".
Definition comparison_good : string :=
  "양발의 대칭성이 양호합니다. 약간의 차이는 있지만 정상 범위입니다.".
Definition comparison_moderate : string :=
  "양발 간 약간의 차이가 관찰됩니다. 주의 깊은 관찰이 필요합니다.".
Definition comparison_significant : string :=
  "양발 간 상당한 차이가 관찰됩니다. 전문의 상담을 권장합니다.".

(** The summary text chosen at the end of [updateComparisonData] from the
    overall symmetry score. *)
Definition comparisonSummary (overallSymmetry : num) : string :=
  if overallSymmetry >=? #90 then comparison_excellent
  else if overallSymmetry >=? #80 then comparison_good
  else if overallSymmetry >=? #70 then comparison_moderate
  else comparison_significant.

(** [a === b] on numbers: NaN equals nothing. *)
Definition strictEq (a b : num) : bool :=
  match a, b with
  | Fin p, Fin q => Qceqb p q
  | PInf, PInf | NInf, NInf => true
  | _, _ => false
  end.

(** The step and the tab of the dashboard. *)
Record Steps : Type := mkSteps { currentStep : num; activeTab : string }.

(** [UIController.changeStep(targetStep)] with the tab switch it triggers
    (the class changes on the page are left out). *)
Definition changeStep (this : Steps) (targetStep : num) : Steps :=
  if (targetStep <? #1) || (targetStep >? #3) then this
  else
    let tab := activeTab this in
    let tab := if strictEq targetStep #1 then "measurement" else tab in
    let tab := if strictEq targetStep #2 then "comparison" else tab in
    let tab := if strictEq targetStep #3 then "report" else tab in
    mkSteps targetStep tab.

End Dashboard.

Module SceneManager.
(** A displayed foot model; only its visibility is kept. *)
Record FootModel : Type := mkFootModel { visible : bool }.

Record t : Type := mk {
  footVisibility : string;
  leftFootModel : option FootModel;
  rightFootModel : option FootModel
}.

(** [applyFootVisibility()] *)
Definition applyFootVisibility (this : t) : t :=
  match leftFootModel this, rightFootModel this with
  | Some _, Some _ =>
      if (footVisibility this =? "left")%string then
        mk (footVisibility this) (Some (mkFootModel true)) (Some (mkFootModel false))
      else if (footVisibility this =? "right")%string then
        mk (footVisibility this) (Some (mkFootModel false)) (Some (mkFootModel true))
      else
        mk (footVisibility this) (Some (mkFootModel true)) (Some (mkFootModel true))
  | _, _ => this
  end.

(** [setFootVisibility(visibilityMode)] *)
Definition setFootVisibility (this : t) (visibilityMode : string) : t :=
  applyFootVisibility (mk visibilityMode (leftFootModel this) (rightFootModel this)).
End SceneManager.

(* ================================================================== *)
(** * Vocabulary of the further properties *)
(* ================================================================== *)

(** The payload of a complete event that announces record [r]. *)
Definition announces (r : Measurements.t) (e : CustomEvent) : Prop :=
  exists status confidence : string,
    e = mkEvent measurementComplete
          (Completed r
             (calculateRatios (Measurements.length r) (Measurements.width r)
                (Measurements.height r))
             (analyzeFootType (Measurements.length r) (Measurements.width r)
                (Measurements.height r))
             status confidence).

(** Every coordinate of every vertex is finite. *)
Definition finiteVertices (vs : list Vector3.t) : Prop :=
  Forall (fun v => finite (Vector3.x v) /\ finite (Vector3.y v) /\ finite (Vector3.z v)) vs.

(** [r] occurs in the list of recommendations. *)
Definition mentions (r : string) (recommendations : list string) : bool :=
  existsb (String.eqb r) recommendations.

(** Every analysis the classifier can return. *)
Definition classifier_outputs : list Analysis :=
  analysis_pending
  :: flat_map
       (fun shape : string * string =>
          map (fun arch => mkAnalysis (fst shape) arch (snd shape))
              ["High Arch"; "Low Arch / Flat Foot"; "Normal Arch"])
       [("Long Foot Type", describe_long); ("Wide Foot Type", describe_wide);
        ("Normal Foot Type", describe_normal)].

(** The shape and arch advice that go with a classification. *)
Definition shapeAdvice (footType : string) : list string :=
  if (footType =? "Long Foot Type")%string then Report.rec_long
  else if (footType =? "Wide Foot Type")%string then Report.rec_wide
  else Report.rec_normal.

Definition archAdvice (archType : string) : list string :=
  if (archType =? "High Arch")%string then Report.rec_high_arch
  else if (archType =? "Low Arch / Flat Foot")%string then Report.rec_low_arch
  else Report.rec_normal_arch.

(** The letter codes that go with a classification. *)
Definition shapeCode (footType : string) : string :=
  if (footType =? "Long Foot Type")%string then "L"
  else if (footType =? "Wide Foot Type")%string then "W"
  else "N".

Definition archCode (archType : string) : string :=
  if (archType =? "High Arch")%string then "H"
  else if (archType =? "Low Arch / Flat Foot")%string then "F"
  else "N".

(** The tag that goes with a classified arch. *)
Definition archTag (archType : string) : Dashboard.Tag :=
  if (archType =? "High Arch")%string then Dashboard.tag_high
  else if (archType =? "Low Arch / Flat Foot")%string then Dashboard.tag_low
  else Dashboard.tag_normal.

(** [r] is a multiple of one tenth within one twentieth of [q]. *)
Definition tenth_near (q r : Qc) : Prop :=
  (exists n : Z, (r * Q2Qc 10)%Qc = Q2Qc (inject_Z n))
  /\ (q - Q2Qc 0.05 <= r)%Qc /\ (r <= q + Q2Qc 0.05)%Qc.

(** [e] encodes [x] to one decimal, when [x] is finite. *)
Definition tenth_of (x e : num) : Prop :=
  forall q : Qc, x = Fin q -> exists r : Qc, e = Fin r /\ tenth_near q r.

(** The compact dimensions [e] encode those of the foot [foot]. *)
Definition encoded (foot : Report.Dims) (e : Report.Foot.t) : Prop :=
  tenth_of (Report.d_length foot) (Report.Foot.l e)
  /\ tenth_of (Report.d_width foot) (Report.Foot.w e)
  /\ tenth_of (Report.d_height foot) (Report.Foot.h e).

(** [s] begins with [p]. *)
Definition begins (p s : Report.jsstring) : Prop := exists rest, s = (p ++ rest)%list.

(** The three dimensions of a record are finite. *)
Definition finiteDims (m : Measurements.t) : Prop :=
  finite (Measurements.length m) /\ finite (Measurements.width m)
  /\ finite (Measurements.height m).

(** The combined record of the sample feet of [loadSampleData]. *)
Definition sampleCombined : Report.Combined :=
  Analyzer.createCombinedFootData (dims 254.3 98.7 67.2) (dims 256.1 99.2 68.1).

(** A time stamp and two file names: the first name has 43 code units,
    the second is the 18 code units of a Korean name, 46 bytes in UTF-8. *)
Definition sampleStamp : Report.jsstring := Report.ascii_text "2026-11-01T10:00:00.000Z".
Definition sampleName : Report.jsstring :=
  Report.ascii_text "sample_left_foot.ply, sample_right_foot.ply".
Definition koreanName : Report.jsstring :=
  [50724; 47480; 51901; 48156; 49828; 52884; 45936; 51060; 53552; 52572; 51333;
   49688; 51221; 48376; 46; 112; 108; 121]%N.

(** A combined record that carries the two feet. *)
Definition sampleBoth : Report.Combined :=
  Report.mkCombined #255.2 #98.95 #67.65 "" ""
    (Some (Report.mkDims #254.3 #98.7 #67.2)) (Some (Report.mkDims #256.1 #99.2 #68.1)).

(** A step of the dashboard: a number from 1 to 3. *)
Definition validStep (s : num) : Prop := (#1 <=? s) = true /\ (s <=? #3) = true.

(* ================================================================== *)
(** * The engine on IEEE-754 doubles *)
(* ================================================================== *)

(** The functions whose result depends on how a double is rounded are
    embedded a second time, on the primitive binary64 numbers: [+], [-],
    [*], [/], [<], [<=] and [Math.abs] are the IEEE operations, a decimal
    literal of the sources is the double nearest to it, and NaN, the
    infinities and the two zeros are the values of the format. *)

(** ** The order of the format *)

(** The place of a number in the order of the doubles: the class (the
    infinities, the negative, zero, the positive), then the exponent and
    the mantissa. *)
Definition SFrank (a : spec_float) : Z * Z * Z :=
  match a with
  | S754_nan => (0, 0, 0)%Z
  | S754_zero _ => (0, 0, 0)%Z
  | S754_infinity s => (if s then (-2)%Z else 2%Z, 0%Z, 0%Z)
  | S754_finite s m e => if s then ((-1)%Z, (- e)%Z, (- Zpos m)%Z) else (1%Z, e, Zpos m)
  end.

Definition lex_lt (p q : Z * Z * Z) : Prop :=
  let '(a, b, c) := p in
  let '(a', b', c') := q in
  (a < a' \/ (a = a' /\ (b < b' \/ (b = b' /\ c < c'))))%Z.

Definition SFnot_nan (a : spec_float) : Prop :=
  match a with S754_nan => False | _ => True end.

(** A number with sign [s] that is not zero: what rounding a non-zero
    value gives when nothing underflows. *)
Definition SFsigned (s : bool) (a : spec_float) : Prop :=
  (exists m e, a = S754_finite s m e) \/ a = S754_infinity s.

Module Double.
Local Open Scope float_scope.
Local Abbreviation abs := PrimFloat.abs.
Local Abbreviation is_nan := PrimFloat.is_nan.

(** [a > b] and [a >= b] *)
Definition gt (a b : float) : bool := b <? a.
Definition ge (a b : float) : bool := b <=? a.

Infix ">?" := gt (at level 70) : float_scope.
Infix ">=?" := ge (at level 70) : float_scope.

(** [Math.max] and [Math.min] of two arguments: NaN as soon as one is NaN,
    and +0 counts as larger than -0. *)
Definition max (a b : float) : float :=
  if is_nan a || is_nan b then nan
  else if a <? b then b
  else if b <? a then a
  else if get_sign a then b else a.

Definition min (a b : float) : float :=
  if is_nan a || is_nan b then nan
  else if a <? b then a
  else if b <? a then b
  else if get_sign a then a else b.

(** [Math.max(a, b, c)] *)
Definition max3 (a b c : float) : float := max (max a b) c.

(** [Math.round]: the integer nearest to the exact value, the larger one
    at a tie; a value between -0.5 and 0 gives -0.  A double whose
    exponent is not negative is an integer already. *)
Definition round (a : float) : float :=
  match Prim2SF a with
  | S754_finite s m e =>
      if (0 <=? e)%Z then a
      else
        match Z.shiftr (2 * cond_Zopp s (Zpos m) + 2 ^ (- e)) (- e + 1) with
        | Z0 => if s then (-0) else 0
        | Zpos n => of_uint63 (Uint63.of_Z (Zpos n))
        | Zneg n => - of_uint63 (Uint63.of_Z (Zpos n))
        end
  | _ => a
  end.

(** Truthiness of a number: [!a] holds for +0, -0 and NaN only. *)
Definition truthy (a : float) : bool := negb (is_nan a || (a =? 0)).

Definition notNaN (a : float) : Prop := is_nan a = false.

Definition finite (a : float) : Prop := is_finite a = true.

(** *** three.js values (r128) *)

Module Vector3.
Record t : Type := mk { x : float; y : float; z : float }.

Definition min (a b : t) : t :=
  mk (Double.min (x a) (x b)) (Double.min (y a) (y b)) (Double.min (z a) (z b)).
Definition max (a b : t) : t :=
  mk (Double.max (x a) (x b)) (Double.max (y a) (y b)) (Double.max (z a) (z b)).
Definition subVectors (a b : t) : t := mk (x a - x b) (y a - y b) (z a - z b).
End Vector3.

Module Box3.
Record t : Type := mk { min : Vector3.t; max : Vector3.t }.

Definition empty : t :=
  mk (Vector3.mk infinity infinity infinity)
     (Vector3.mk neg_infinity neg_infinity neg_infinity).

Definition expandByPoint (b : t) (p : Vector3.t) : t :=
  mk (Vector3.min (min b) p) (Vector3.max (max b) p).

Definition setFromPoints (points : list Vector3.t) : t :=
  fold_left expandByPoint points empty.

Definition isEmpty (b : t) : bool :=
  (Vector3.x (max b) <? Vector3.x (min b))
  || (Vector3.y (max b) <? Vector3.y (min b))
  || (Vector3.z (max b) <? Vector3.z (min b)).

Definition getSize (b : t) : Vector3.t :=
  if isEmpty b then Vector3.mk 0 0 0
  else Vector3.subVectors (max b) (min b).
End Box3.

(** *** Arrays of numbers *)

(** [l[i]]: a read past the end gives [undefined], which arithmetic and
    comparisons treat as NaN. *)
Definition idx (l : list float) (i : nat) : float := nth i l nan.

(** [Array.prototype.sort(compareFn)].  A comparator result of NaN counts
    as +0.  When the comparisons order the values, the result is the
    stable sorted copy, in which [a] goes behind [b] exactly when
    [compareFn(a, b) > 0]: those of [(a, b) => a - b] do so on an array
    without NaN, and on an array whose values other than NaN are all
    equal, where every comparison answers "equal" and the array stays as
    it is.  On other arrays the order depends on the algorithm of the
    engine.  The model is the stable insertion, from the right end of the
    array; the theorems use it only where the comparisons order the
    values. *)
Section Sort.
Variable compareFn : float -> float -> float.

Fixpoint sort_insert (a : float) (l : list float) : list float :=
  match l with
  | [] => [a]
  | b :: t => if compareFn a b >? 0 then b :: sort_insert a t else a :: l
  end.

Definition sort (l : list float) : list float := fold_right sort_insert [] l.
End Sort.

(** The comparator [(a, b) => a - b] of the sources. *)
Definition ascending (a b : float) : float := a - b.

(** *** MeasurementEngine: the three landmark estimators *)

Definition no_vertices (vertices : option (list Vector3.t)) : bool :=
  match vertices with
  | None => true
  | Some vs => (List.length vs =? 0)%nat
  end.

Definition given (vertices : option (list Vector3.t)) : list Vector3.t :=
  match vertices with Some vs => vs | None => [] end.

(** [measureFootLength(vertices, bbox)] *)
Definition measureFootLength (vertices : option (list Vector3.t)) (bbox : option Box3.t)
    : float :=
  if no_vertices vertices then
    match bbox with Some b => Vector3.z (Box3.getSize b) | None => 0 end
  else
    let vertices := given vertices in
    let yValues := sort ascending (map Vector3.y vertices) in
    let minY := idx yValues 0 in
    let maxY := idx yValues (List.length yValues - 1) in
    let footSoleThreshold := minY + (maxY - minY) * 0.15 in
    let footSoleVertices := filter (fun v => Vector3.y v <=? footSoleThreshold) vertices in
    if (List.length footSoleVertices =? 0)%nat then
      let zValues := sort ascending (map Vector3.z vertices) in
      idx zValues (List.length zValues - 1) - idx zValues 0
    else
      let zValues := sort ascending (map Vector3.z footSoleVertices) in
      let heelZ := idx zValues 0 in
      let toeZ := idx zValues (List.length zValues - 1) in
      let length := toeZ - heelZ in
      abs length.

(** [measureFootWidth(vertices, bbox)] *)
Definition measureFootWidth (vertices : option (list Vector3.t)) (bbox : option Box3.t)
    : float :=
  if no_vertices vertices then
    match bbox with Some b => Vector3.x (Box3.getSize b) | None => 0 end
  else
    let vertices := given vertices in
    let zValues := sort ascending (map Vector3.z vertices) in
    let minZ := idx zValues 0 in
    let maxZ := idx zValues (List.length zValues - 1) in
    let footLength := maxZ - minZ in
    let ballStartZ := minZ + footLength * 0.6 in
    let ballEndZ := minZ + footLength * 0.75 in
    let yValues := sort ascending (map Vector3.y vertices) in
    let minY := idx yValues 0 in
    let maxY := idx yValues (List.length yValues - 1) in
    let footSoleThreshold := minY + (maxY - minY) * 0.2 in
    let ballVertices :=
      filter (fun v => (Vector3.z v >=? ballStartZ) && (Vector3.z v <=? ballEndZ)
                       && (Vector3.y v <=? footSoleThreshold)) vertices in
    if (List.length ballVertices =? 0)%nat then
      let xValues := sort ascending (map Vector3.x vertices) in
      idx xValues (List.length xValues - 1) - idx xValues 0
    else
      let xValues := sort ascending (map Vector3.x ballVertices) in
      let leftX := idx xValues 0 in
      let rightX := idx xValues (List.length xValues - 1) in
      let width := rightX - leftX in
      abs width.

(** [measureFootHeight(vertices, bbox)] *)
Definition measureFootHeight (vertices : option (list Vector3.t)) (bbox : option Box3.t)
    : float :=
  if no_vertices vertices then
    match bbox with Some b => Vector3.y (Box3.getSize b) | None => 0 end
  else
    let vertices := given vertices in
    let yValues := sort ascending (map Vector3.y vertices) in
    let soleY := idx yValues 0 in
    let zValues := sort ascending (map Vector3.z vertices) in
    let minZ := idx zValues 0 in
    let maxZ := idx zValues (List.length zValues - 1) in
    let footLength := maxZ - minZ in
    let instepStartZ := minZ + footLength * 0.3 in
    let instepEndZ := minZ + footLength * 0.7 in
    let instepVertices :=
      filter (fun v => (Vector3.z v >=? instepStartZ) && (Vector3.z v <=? instepEndZ))
             vertices in
    if (List.length instepVertices =? 0)%nat then
      idx yValues (List.length yValues - 1) - soleY
    else
      let instepYValues := sort ascending (map Vector3.y instepVertices) in
      let instepTopY := idx instepYValues (List.length instepYValues - 1) in
      let height := instepTopY - soleY in
      abs height.

(** *** MeasurementEngine: ratios and shape classification *)

Module Measurements.
Record t : Type := mk {
  length : float;
  width : float;
  height : float;
  unit : string;
  confidence : string;
  originalVertices : list Vector3.t;
  boundingBox : Box3.t;
  vertexCount : nat
}.
End Measurements.

(** [calculateRatios(length, width, height)]; a ratio is kept as the
    number the source formats with [toFixed], [None] is 'N/A'. *)
Record Ratios : Type := mkRatios {
  lengthWidth : option float;
  heightLength : option float
}.

Definition calculateRatios (length width height : float) : Ratios :=
  let lwRatio := if truthy length && truthy width then Some (length / width) else None in
  let hlRatio := if truthy height && truthy length then Some (height / length * 100) else None in
  mkRatios lwRatio hlRatio.

(** [MeasurementEngine.analyzeFootType(length, width, height)] *)
Definition analyzeFootType (length width height : float) : Analysis :=
  if negb (truthy length) || negb (truthy width) || negb (truthy height) then
    analysis_pending
  else
    let lwRatio := length / width in
    let hlRatio := height / length in
    let '(footType, description) :=
      if lwRatio >? 2.6 then ("Long Foot Type", describe_long)
      else if lwRatio <? 2.2 then ("Wide Foot Type", describe_wide)
      else ("Normal Foot Type", describe_normal) in
    let archType :=
      if hlRatio >? 0.25 then "High Arch"
      else if hlRatio <? 0.18 then "Low Arch / Flat Foot"
      else "Normal Arch" in
    mkAnalysis footType archType description.

Module DualFootAnalyzer.
(** [DualFootAnalyzer.analyzeFootType(measurements)] of scene-manager.js *)
Definition analyzeFootType (measurements : option Measurements.t) : Analysis :=
  match measurements with
  | None => analysis_pending
  | Some m =>
      if negb (truthy (Measurements.length m)) || negb (truthy (Measurements.width m))
         || negb (truthy (Measurements.height m)) then
        analysis_pending
      else
        let lwRatio := Measurements.length m / Measurements.width m in
        let hlRatio := Measurements.height m / Measurements.length m in
        let '(footType, description) :=
          if lwRatio >? 2.6 then ("Long Foot Type", describe_long)
          else if lwRatio <? 2.2 then ("Wide Foot Type", describe_wide)
          else ("Normal Foot Type", describe_normal) in
        let archType :=
          if hlRatio >? 0.25 then "High Arch"
          else if hlRatio <? 0.18 then "Low Arch / Flat Foot"
          else "Normal Arch" in
        mkAnalysis footType archType description
  end.
End DualFootAnalyzer.

(** *** The geometry and the fallback *)

Module BufferAttribute.
Record t : Type := mk { array : list float; count : nat }.

Definition getX (a : t) (i : nat) : float := idx (array a) (i * 3).
Definition getY (a : t) (i : nat) : float := idx (array a) (i * 3 + 1).
Definition getZ (a : t) (i : nat) : float := idx (array a) (i * 3 + 2).
End BufferAttribute.

Record Attributes : Type := mkAttributes {
  position : option BufferAttribute.t
}.

Record BufferGeometry : Type := mkGeometry {
  attributes : option Attributes
}.

Record Object3D : Type := mkObject3D {
  applyRotation : Vector3.t -> Vector3.t
}.

(** [Box3.setFromBufferAttribute(attribute)]: a scan with [<] and [>]. *)
Definition scanVertex (b : Box3.t) (p : Vector3.t) : Box3.t :=
  let lo := Box3.min b in
  let hi := Box3.max b in
  Box3.mk
    (Vector3.mk (if Vector3.x p <? Vector3.x lo then Vector3.x p else Vector3.x lo)
                (if Vector3.y p <? Vector3.y lo then Vector3.y p else Vector3.y lo)
                (if Vector3.z p <? Vector3.z lo then Vector3.z p else Vector3.z lo))
    (Vector3.mk (if Vector3.x p >? Vector3.x hi then Vector3.x p else Vector3.x hi)
                (if Vector3.y p >? Vector3.y hi then Vector3.y p else Vector3.y hi)
                (if Vector3.z p >? Vector3.z hi then Vector3.z p else Vector3.z hi)).

Definition vertexAt (a : BufferAttribute.t) (i : nat) : Vector3.t :=
  Vector3.mk (BufferAttribute.getX a i) (BufferAttribute.getY a i) (BufferAttribute.getZ a i).

Definition setFromBufferAttribute (a : BufferAttribute.t) : Box3.t :=
  fold_left (fun b i => scanVertex b (vertexAt a i)) (seq 0 (BufferAttribute.count a))
            Box3.empty.

(** [BufferGeometry.computeBoundingBox()], for a geometry without morph
    targets. *)
Definition computeBoundingBox (a : Attributes) : Box3.t :=
  match position a with
  | Some p => setFromBufferAttribute p
  | None => Box3.empty
  end.

Record FallbackResult : Type := mkFallback {
  fb_measurements : Measurements.t;
  fb_ratios : Ratios;
  fb_analysis : Analysis
}.

(** [performFallbackMeasurement(geometry, currentModel)].  Reading a
    property of a missing object raises a TypeError. *)
Definition performFallbackMeasurement (geometry : option BufferGeometry)
    (currentModel : option Object3D) : completion FallbackResult :=
  match geometry with
  | None => Throw TypeError
  | Some g =>
    match attributes g with
    | None => Throw TypeError
    | Some attrs =>
      let bbox := computeBoundingBox attrs in
      let size := Box3.getSize bbox in
      let maxDim := max3 (Vector3.x size) (Vector3.y size) (Vector3.z size) in
      let '(unitMultiplier, unit) :=
        if maxDim <? 1 then (1000, "mm")
        else if maxDim >? 500 then (1, "mm")
        else (1, "mm") in
      let footLength := Vector3.z size * unitMultiplier in
      let footWidth := Vector3.x size * unitMultiplier in
      let footHeight := Vector3.y size * unitMultiplier in
      match position attrs with
      | None => Throw TypeError
      | Some p =>
        let measurements :=
          Measurements.mk (max footLength 50) (max footWidth 30) (max footHeight 20)
                          unit conf_fallback_mode [] bbox (BufferAttribute.count p) in
        let ratios := calculateRatios (Measurements.length measurements)
                        (Measurements.width measurements) (Measurements.height measurements) in
        let analysis := analyzeFootType (Measurements.length measurements)
                          (Measurements.width measurements) (Measurements.height measurements) in
        Normal (mkFallback measurements ratios analysis)
      end
    end
  end.

(** *** The bilateral comparison *)

Record Comparison : Type := mkComparison {
  lengthDiff : float;
  widthDiff : float;
  heightDiff : float;
  lengthSymmetry : float;
  widthSymmetry : float;
  heightSymmetry : float;
  overallSymmetry : float
}.

Module UIController.
(** The numbers computed by [updateComparisonData()] of scene-manager.js. *)
Definition updateComparisonData (left right : Measurements.t) : Comparison :=
  let lengthDiff := abs (Measurements.length left - Measurements.length right) in
  let widthDiff := abs (Measurements.width left - Measurements.width right) in
  let heightDiff := abs (Measurements.height left - Measurements.height right) in
  let maxLength := max (Measurements.length left) (Measurements.length right) in
  let maxWidth := max (Measurements.width left) (Measurements.width right) in
  let maxHeight := max (Measurements.height left) (Measurements.height right) in
  let lengthSymmetry := (1 - lengthDiff / maxLength) * 100 in
  let widthSymmetry := (1 - widthDiff / maxWidth) * 100 in
  let heightSymmetry := (1 - heightDiff / maxHeight) * 100 in
  let overallSymmetry := round ((lengthSymmetry + widthSymmetry + heightSymmetry) / 3) in
  mkComparison lengthDiff widthDiff heightDiff
               lengthSymmetry widthSymmetry heightSymmetry overallSymmetry.
End UIController.

Module ReportGenerator.
(** The numbers computed by [addComparisonSection(doc, leftMeasurements,
    rightMeasurements, yPos)] of report-generator.js. *)
Definition addComparisonSection (leftMeasurements rightMeasurements : Measurements.t)
    : Comparison :=
  let lengthDiff := abs (Measurements.length leftMeasurements - Measurements.length rightMeasurements) in
  let widthDiff := abs (Measurements.width leftMeasurements - Measurements.width rightMeasurements) in
  let heightDiff := abs (Measurements.height leftMeasurements - Measurements.height rightMeasurements) in
  let maxLength := max (Measurements.length leftMeasurements) (Measurements.length rightMeasurements) in
  let maxWidth := max (Measurements.width leftMeasurements) (Measurements.width rightMeasurements) in
  let maxHeight := max (Measurements.height leftMeasurements) (Measurements.height rightMeasurements) in
  let lengthSymmetry := (1 - lengthDiff / maxLength) * 100 in
  let widthSymmetry := (1 - widthDiff / maxWidth) * 100 in
  let heightSymmetry := (1 - heightDiff / maxHeight) * 100 in
  let overallSymmetry := round ((lengthSymmetry + widthSymmetry + heightSymmetry) / 3) in
  mkComparison lengthDiff widthDiff heightDiff
               lengthSymmetry widthSymmetry heightSymmetry overallSymmetry.
End ReportGenerator.

(** *** Vocabulary of the statements on doubles *)

(** The order of doubles as a relation. *)
Definition leR (a b : float) : Prop := (a <=? b) = true.

(** [m] is a least (greatest) element of [l]. *)
Definition is_min (m : float) (l : list float) : Prop :=
  In m l /\ Forall (fun a => (m <=? a) = true) l.
Definition is_max (m : float) (l : list float) : Prop :=
  In m l /\ Forall (fun a => (a <=? m) = true) l.

(** [Math.min(...l)] and [Math.max(...l)] *)
Definition minOf (l : list float) : float := fold_right min infinity l.
Definition maxOf (l : list float) : float := fold_right max neg_infinity l.

(** No coordinate of a vertex is NaN. *)
Definition numeric (vs : list Vector3.t) : Prop :=
  Forall (fun v => notNaN (Vector3.x v) /\ notNaN (Vector3.y v) /\ notNaN (Vector3.z v)) vs.

Definition xs (vs : list Vector3.t) : list float := map Vector3.x vs.
Definition ys (vs : list Vector3.t) : list float := map Vector3.y vs.
Definition zs (vs : list Vector3.t) : list float := map Vector3.z vs.

(** The vertices [setFromBufferAttribute] reads: one per count. *)
Definition vertices (p : BufferAttribute.t) : list Vector3.t :=
  map (vertexAt p) (seq 0 (BufferAttribute.count p)).

Definition geometryOf (p : BufferAttribute.t) : BufferGeometry :=
  mkGeometry (Some (mkAttributes (Some p))).

(** The size of a box, written out: zero on every axis when the box is
    empty, max minus min otherwise. *)
Definition emptyBox (b : Box3.t) : bool :=
  (Vector3.x (Box3.max b) <? Vector3.x (Box3.min b))
  || (Vector3.y (Box3.max b) <? Vector3.y (Box3.min b))
  || (Vector3.z (Box3.max b) <? Vector3.z (Box3.min b)).

(** One axis of a box scanned from finite values and missing reads: still
    at its initial bounds, or a pair of finite bounds in order. *)
Definition axis_ok (lo hi : float) : Prop :=
  (lo = infinity /\ hi = neg_infinity)
  \/ (finite lo /\ finite hi /\ (lo <=? hi) = true).

Definition box_ok (b : Box3.t) : Prop :=
  axis_ok (Vector3.x (Box3.min b)) (Vector3.x (Box3.max b))
  /\ axis_ok (Vector3.y (Box3.min b)) (Vector3.y (Box3.max b))
  /\ axis_ok (Vector3.z (Box3.min b)) (Vector3.z (Box3.max b)).

(** What reading an array of finite numbers gives: an element, or NaN past
    the end. *)
Definition readable (a : float) : Prop := finite a \/ a = nan.

(** Every coordinate of every vertex is finite. *)
Definition finite3 (v : Vector3.t) : Prop :=
  finite (Vector3.x v) /\ finite (Vector3.y v) /\ finite (Vector3.z v).

Definition finiteVertices (vs : list Vector3.t) : Prop := Forall finite3 vs.

(** The scans of one coordinate in [setFromBufferAttribute]. *)
Definition scanMin (m v : float) : float := if v <? m then v else m.
Definition scanMax (m v : float) : float := if v >? m then v else m.

Definition vertex (a b c : float) : Vector3.t := Vector3.mk a b c.

(** A record with the given three dimensions, as a comparison reads it. *)
Definition dims (l w h : float) : Measurements.t :=
  Measurements.mk l w h "mm" conf_high_mm [] Box3.empty 0.

End Double.

(* ================================================================== *)
(** * Facts about numbers *)
(* ================================================================== *)

Lemma Qcltb_lt (p q : Qc) : Qcltb p q = true <-> (p < q)%Qc.
Proof.
  unfold Qcltb. rewrite Qclt_alt.
  destruct (p ?= q)%Qc; split; congruence.
Qed.

Lemma Qcleb_le (p q : Qc) : Qcleb p q = true <-> (p <= q)%Qc.
Proof.
  unfold Qcleb. rewrite Qcle_alt.
  destruct (p ?= q)%Qc; split; congruence.
Qed.

Lemma Qceqb_eq (p q : Qc) : Qceqb p q = true <-> p = q.
Proof.
  unfold Qceqb. rewrite Qceq_alt.
  destruct (p ?= q)%Qc; split; congruence.
Qed.

Lemma Qcltb_ge (p q : Qc) : Qcltb p q = false <-> (q <= p)%Qc.
Proof.
  split; intro H.
  - apply Qcnot_lt_le. intro L. apply Qcltb_lt in L. congruence.
  - destruct (Qcltb p q) eqn:E; [|reflexivity].
    apply Qcltb_lt in E. exfalso. exact (Qcle_not_lt _ _ H E).
Qed.

Lemma Qcleb_gt (p q : Qc) : Qcleb p q = false <-> (q < p)%Qc.
Proof.
  split; intro H.
  - apply Qcnot_le_lt. intro L. apply Qcleb_le in L. congruence.
  - destruct (Qcleb p q) eqn:E; [|reflexivity].
    apply Qcleb_le in E. exfalso. exact (Qclt_not_le _ _ H E).
Qed.

Lemma Q2Qc_nonzero (q : Q) : Qeq_bool q 0 = false -> Q2Qc q <> 0%Qc.
Proof.
  intros H E. apply (f_equal this) in E. cbn in E.
  assert (Heq : q == 0) by (rewrite <- (Qred_correct q), E; reflexivity).
  apply Qeq_bool_iff in Heq. congruence.
Qed.

(** Move boolean comparisons of rationals to propositions. *)
Ltac qc_prop :=
  repeat match goal with
  | H : Qcltb _ _ = true |- _ => apply Qcltb_lt in H
  | H : Qcltb _ _ = false |- _ => apply Qcltb_ge in H
  | H : Qcleb _ _ = true |- _ => apply Qcleb_le in H
  | H : Qcleb _ _ = false |- _ => apply Qcleb_gt in H
  | H : Qceqb _ _ = true |- _ => apply Qceqb_eq in H
  | |- Qcltb _ _ = true => apply Qcltb_lt
  | |- Qcltb _ _ = false => apply Qcltb_ge
  | |- Qcleb _ _ = true => apply Qcleb_le
  | |- Qcleb _ _ = false => apply Qcleb_gt
  | |- Qceqb _ _ = true => apply Qceqb_eq
  end.

(** Linear arithmetic on canonical rationals, through [Q]. *)
Ltac qc_lra :=
  qc_prop;
  try (apply Qc_is_canon);
  unfold Qclt, Qcle, Qcminus, Qcplus, Qcopp, Qcmult, Q2Qc in *; cbn [this] in *;
  repeat rewrite Qred_correct in *;
  lra.

Lemma bool_ext (b c : bool) : (b = true <-> c = true) -> b = c.
Proof. destruct b, c; intuition congruence. Qed.

Lemma gt_sub_zero (a b : num) : (a - b >? zero) = (b <? a).
Proof.
  destruct a as [p| | |], b as [q| | |]; try reflexivity.
  cbn. apply bool_ext. split; intro H; qc_lra.
Qed.

Lemma lt_le (a b : num) : (a <? b) = true -> (a <=? b) = true.
Proof.
  destruct a as [p| | |], b as [q| | |]; cbn; try congruence.
  intro H. qc_lra.
Qed.

Lemma not_lt_le (a b : num) :
  notNaN a -> notNaN b -> (b <? a) = false -> (a <=? b) = true.
Proof.
  unfold notNaN; destruct a as [p| | |], b as [q| | |]; cbn; try congruence.
  intros _ _ H. qc_lra.
Qed.

Lemma le_refl (a : num) : notNaN a -> (a <=? a) = true.
Proof.
  unfold notNaN; destruct a as [p| | |]; cbn; try congruence. intros _. qc_lra.
Qed.

Lemma le_trans (a b c : num) :
  (a <=? b) = true -> (b <=? c) = true -> (a <=? c) = true.
Proof.
  destruct a as [p| | |], b as [q| | |], c as [r| | |]; cbn; try congruence.
  intros H1 H2. qc_lra.
Qed.

Lemma le_antisym (a b : num) :
  (a <=? b) = true -> (b <=? a) = true -> a = b.
Proof.
  destruct a as [p| | |], b as [q| | |]; cbn; try congruence.
  intros H1 H2. f_equal. qc_prop. now apply Qcle_antisym.
Qed.

(** Math.abs leaves the difference of an ordered pair alone. *)
Lemma abs_sub_le (a b : num) : (a <=? b) = true -> abs (b - a) = b - a.
Proof.
  destruct a as [p| | |], b as [q| | |]; cbn; try congruence; try reflexivity.
  intro H. f_equal.
  destruct (Qcltb (q + - p) 0) eqn:E; [|reflexivity].
  exfalso. qc_lra.
Qed.

(* ================================================================== *)
(** * Facts about sorted arrays *)
(* ================================================================== *)

Lemma min_notNaN (a b : num) :
  notNaN a -> notNaN b -> min a b = if b <? a then b else a.
Proof. unfold notNaN; destruct a, b; cbn; congruence. Qed.

Lemma max_notNaN (a b : num) :
  notNaN a -> notNaN b -> max a b = if a <? b then b else a.
Proof. unfold notNaN; destruct a, b; cbn; congruence. Qed.

Section SortFacts.

Lemma sort_insert_perm (a : num) (l : list num) :
  Permutation (sort_insert ascending a l) (a :: l).
Proof.
  induction l as [|b t IH]; cbn [sort_insert sort fold_right].
  - reflexivity.
  - destruct (ascending a b >? zero).
    + apply perm_trans with (b :: a :: t); [now constructor | apply perm_swap].
    + reflexivity.
Qed.

Lemma sort_perm (l : list num) : Permutation (sort ascending l) l.
Proof.
  induction l as [|a t IH]; cbn [sort_insert sort fold_right].
  - reflexivity.
  - eapply perm_trans; [apply sort_insert_perm | now constructor].
Qed.

Lemma sort_insert_sorted (a : num) (l : list num) :
  notNaN a -> Forall notNaN l -> Sorted leR l -> Sorted leR (sort_insert ascending a l).
Proof.
  intros Ha Hl Hs. induction l as [|b t IH]; cbn [sort_insert].
  - repeat constructor.
  - inversion Hl as [|? ? Hb Ht]; subst.
    inversion Hs as [|? ? Hst Hhd]; subst.
    unfold ascending. rewrite gt_sub_zero.
    destruct (b <? a) eqn:E.
    + constructor; [now apply IH|].
      destruct t as [|c t']; cbn [sort_insert].
      * constructor. now apply lt_le.
      * rewrite gt_sub_zero. destruct (c <? a); constructor.
        -- now inversion Hhd.
        -- now apply lt_le.
    + constructor; [assumption|]. constructor. now apply not_lt_le.
Qed.

Lemma sort_sorted (l : list num) :
  Forall notNaN l -> StronglySorted leR (sort ascending l).
Proof.
  intro Hl. apply Sorted_StronglySorted.
  - intros a b c. apply le_trans.
  - induction Hl as [|a t Ha Ht IH]; cbn [sort_insert sort fold_right].
    + constructor.
    + apply sort_insert_sorted; [assumption| |assumption].
      eapply Permutation_Forall; [|exact Ht].
      symmetry. apply sort_perm.
Qed.

Lemma sorted_first_min (l : list num) :
  StronglySorted leR l -> l <> [] -> Forall notNaN l -> is_min (idx l 0) l.
Proof.
  intros Hs Hne Hl. destruct l as [|a t]; [congruence|].
  inversion Hs; subst. inversion Hl; subst. split; cbn.
  - now left.
  - constructor; [now apply le_refl | assumption].
Qed.

Lemma sorted_last_max (l : list num) :
  StronglySorted leR l -> l <> [] -> Forall notNaN l ->
  is_max (idx l (List.length l - 1)) l.
Proof.
  induction l as [|a t IH]; intros Hs Hne Hl; [congruence|].
  inversion Hs as [|? ? Hst Hat]; subst. inversion Hl as [|? ? Ha Ht]; subst.
  destruct t as [|b t'].
  - split; cbn; [now left|]. constructor; [now apply le_refl | constructor].
  - destruct (IH Hst ltac:(discriminate) Ht) as [Hin Hall].
    replace (idx (a :: b :: t') (List.length (a :: b :: t') - 1))
      with (idx (b :: t') (List.length (b :: t') - 1))
      by (cbn; now rewrite Nat.sub_0_r).
    split.
    + now right.
    + constructor; [|assumption].
      rewrite Forall_forall in Hat. now apply Hat.
Qed.

Lemma is_min_perm (m : num) (l l' : list num) :
  Permutation l l' -> is_min m l -> is_min m l'.
Proof.
  intros P [Hin Hall]. split.
  - eapply Permutation_in; eassumption.
  - eapply Permutation_Forall; eassumption.
Qed.

Lemma is_max_perm (m : num) (l l' : list num) :
  Permutation l l' -> is_max m l -> is_max m l'.
Proof.
  intros P [Hin Hall]. split.
  - eapply Permutation_in; eassumption.
  - eapply Permutation_Forall; eassumption.
Qed.

Lemma is_min_unique (m m' : num) (l : list num) :
  is_min m l -> is_min m' l -> m = m'.
Proof.
  intros [Hin Hall] [Hin' Hall']. rewrite Forall_forall in Hall, Hall'.
  apply le_antisym; auto.
Qed.

Lemma is_max_unique (m m' : num) (l : list num) :
  is_max m l -> is_max m' l -> m = m'.
Proof.
  intros [Hin Hall] [Hin' Hall']. rewrite Forall_forall in Hall, Hall'.
  apply le_antisym; auto.
Qed.

Lemma minOf_is_min (l : list num) :
  l <> [] -> Forall notNaN l -> is_min (minOf l) l.
Proof.
  induction l as [|a t IH]; intros Hne Hl; [congruence|].
  inversion Hl as [|? ? Ha Ht]; subst.
  destruct t as [|b t'].
  - cbn. rewrite min_notNaN by (assumption || reflexivity).
    replace (PInf <? a) with false by (destruct a; reflexivity).
    split; [now left|]. constructor; [now apply le_refl | constructor].
  - destruct (IH ltac:(discriminate) Ht) as [Hin Hall].
    assert (Hm : notNaN (minOf (b :: t'))).
    { rewrite Forall_forall in Ht. now apply Ht. }
    change (minOf (a :: b :: t')) with (min a (minOf (b :: t'))).
    rewrite min_notNaN by assumption.
    destruct (minOf (b :: t') <? a) eqn:E.
    + split; [now right|]. constructor; [now apply lt_le | assumption].
    + apply not_lt_le in E; try assumption.
      split; [now left|]. constructor; [now apply le_refl|].
      eapply Forall_impl; [|exact Hall].
      intros c Hc. cbv beta in Hc. eapply le_trans; eassumption.
Qed.

Lemma maxOf_is_max (l : list num) :
  l <> [] -> Forall notNaN l -> is_max (maxOf l) l.
Proof.
  induction l as [|a t IH]; intros Hne Hl; [congruence|].
  inversion Hl as [|? ? Ha Ht]; subst.
  destruct t as [|b t'].
  - cbn. rewrite max_notNaN by (assumption || reflexivity).
    replace (a <? NInf) with false by (destruct a; reflexivity).
    split; [now left|]. constructor; [now apply le_refl | constructor].
  - destruct (IH ltac:(discriminate) Ht) as [Hin Hall].
    assert (Hm : notNaN (maxOf (b :: t'))).
    { rewrite Forall_forall in Ht. now apply Ht. }
    change (maxOf (a :: b :: t')) with (max a (maxOf (b :: t'))).
    rewrite max_notNaN by assumption.
    destruct (a <? maxOf (b :: t')) eqn:E.
    + split; [now right|]. constructor; [now apply lt_le | assumption].
    + apply not_lt_le in E; try assumption.
      split; [now left|]. constructor; [now apply le_refl|].
      eapply Forall_impl; [|exact Hall].
      intros c Hc. cbv beta in Hc. eapply le_trans; eassumption.
Qed.

(** The first element of the sorted array is the minimum, the last one
    the maximum. *)
Lemma sort_first (l : list num) :
  l <> [] -> Forall notNaN l -> idx (sort ascending l) 0 = minOf l.
Proof.
  intros Hne Hl.
  assert (Hne' : sort ascending l <> []).
  { intro E. apply Hne. apply Permutation_nil. rewrite <- E. apply sort_perm. }
  assert (Hl' : Forall notNaN (sort ascending l)).
  { eapply Permutation_Forall; [|exact Hl]. symmetry. apply sort_perm. }
  eapply is_min_unique; [|now apply minOf_is_min].
  eapply is_min_perm; [apply sort_perm|].
  apply sorted_first_min; auto using sort_sorted.
Qed.

Lemma sort_last (l : list num) :
  l <> [] -> Forall notNaN l ->
  idx (sort ascending l) (List.length (sort ascending l) - 1) = maxOf l.
Proof.
  intros Hne Hl.
  assert (Hne' : sort ascending l <> []).
  { intro E. apply Hne. apply Permutation_nil. rewrite <- E. apply sort_perm. }
  assert (Hl' : Forall notNaN (sort ascending l)).
  { eapply Permutation_Forall; [|exact Hl]. symmetry. apply sort_perm. }
  eapply is_max_unique; [|now apply maxOf_is_max].
  eapply is_max_perm; [apply sort_perm|].
  apply sorted_last_max; auto using sort_sorted.
Qed.

Lemma minOf_le_maxOf (l : list num) :
  l <> [] -> Forall notNaN l -> (minOf l <=? maxOf l) = true.
Proof.
  intros Hne Hl.
  destruct (minOf_is_min l Hne Hl) as [_ Hall].
  destruct (maxOf_is_max l Hne Hl) as [Hin _].
  rewrite Forall_forall in Hall. now apply Hall.
Qed.

Lemma abs_extent (l : list num) :
  l <> [] -> Forall notNaN l -> abs (extent l) = extent l.
Proof.
  intros Hne Hl. apply abs_sub_le. now apply minOf_le_maxOf.
Qed.

End SortFacts.

(* ================================================================== *)
(** * Unit detection and validation: the tables *)
(* ================================================================== *)

(** Closed comparisons of rational constants. *)
Ltac qc_decide := vm_compute; first [reflexivity | discriminate | congruence].

(** C1.  For every finite non-negative maxDimension, [detectUnit] returns
    the unit label "mm" with the multiplier and confidence of the table:
    below 0.5 it is 1000 with high confidence, in [0.5, 5) it is 1000 with
    medium confidence, in [5, 50) it is 10 with medium confidence, in
    [50, 500] it is 1 with high confidence, above 500 it is 0.1 with low
    confidence. *)
Theorem detectUnit_table (maxDimension : Qc) :
  (0 <= maxDimension)%Qc ->
  unit_label (detectUnit (Fin maxDimension)) = "mm"
  /\ ((maxDimension < Q2Qc 0.5)%Qc ->
      detectUnit (Fin maxDimension) = mkUnitData #1000 "mm" conf_high_meter
      /\ confidenceLevel conf_high_meter = Some High)
  /\ ((Q2Qc 0.5 <= maxDimension)%Qc -> (maxDimension < Q2Qc 5)%Qc ->
      detectUnit (Fin maxDimension) = mkUnitData #1000 "mm" conf_medium_meter
      /\ confidenceLevel conf_medium_meter = Some Medium)
  /\ ((Q2Qc 5 <= maxDimension)%Qc -> (maxDimension < Q2Qc 50)%Qc ->
      detectUnit (Fin maxDimension) = mkUnitData #10 "mm" conf_medium_cm
      /\ confidenceLevel conf_medium_cm = Some Medium)
  /\ ((Q2Qc 50 <= maxDimension)%Qc -> (maxDimension <= Q2Qc 500)%Qc ->
      detectUnit (Fin maxDimension) = mkUnitData #1 "mm" conf_high_mm
      /\ confidenceLevel conf_high_mm = Some High)
  /\ ((Q2Qc 500 < maxDimension)%Qc ->
      detectUnit (Fin maxDimension) = mkUnitData #0.1 "mm" conf_low_abnormal
      /\ confidenceLevel conf_low_abnormal = Some Low).
Proof.
  intros _. unfold detectUnit, ge, dec. cbn [lt le].
  destruct (Qcltb maxDimension (Q2Qc 0.5)) eqn:E1;
    [| destruct (Qcltb maxDimension (Q2Qc 5)) eqn:E2;
       [| destruct (Qcltb maxDimension (Q2Qc 50)) eqn:E3;
          [| destruct (Qcleb maxDimension (Q2Qc 500)) eqn:E4 ] ] ];
    repeat match goal with
    | |- context [Qcleb ?a ?b] =>
        let E := fresh "E" in
        destruct (Qcleb a b) eqn:E; try (exfalso; qc_lra)
    end;
    cbn [andb]; (split; [reflexivity|]);
    repeat split; intros; try reflexivity; exfalso; qc_lra.
Qed.

Lemma detectUnit_table_witness :
  multiplier (detectUnit #0.3) = #1000
  /\ multiplier (detectUnit #2) = #1000
  /\ multiplier (detectUnit #20) = #10
  /\ multiplier (detectUnit #200) = #1
  /\ multiplier (detectUnit #800) = #0.1.
Proof.
  refine (conj _ (conj _ (conj _ (conj _ _)))).
  - destruct (detectUnit_table (Q2Qc 0.3) ltac:(qc_decide)) as (_ & H & _).
    destruct (H ltac:(qc_decide)) as [E _]. unfold dec. now rewrite E.
  - destruct (detectUnit_table (Q2Qc 2) ltac:(qc_decide)) as (_ & _ & H & _).
    destruct (H ltac:(qc_decide) ltac:(qc_decide)) as [E _]. unfold dec. now rewrite E.
  - destruct (detectUnit_table (Q2Qc 20) ltac:(qc_decide)) as (_ & _ & _ & H & _).
    destruct (H ltac:(qc_decide) ltac:(qc_decide)) as [E _]. unfold dec. now rewrite E.
  - destruct (detectUnit_table (Q2Qc 200) ltac:(qc_decide)) as (_ & _ & _ & _ & H & _).
    destruct (H ltac:(qc_decide) ltac:(qc_decide)) as [E _]. unfold dec. now rewrite E.
  - destruct (detectUnit_table (Q2Qc 800) ltac:(qc_decide)) as (_ & _ & _ & _ & _ & H).
    destruct (H ltac:(qc_decide)) as [E _]. unfold dec. now rewrite E.
Defined.

(** C5.  [validateMeasurements] accepts exactly the triplets with length in
    [50, 500], width in [20, 200] and height in [10, 150], bounds included;
    a value that is not finite is rejected; the four boundary examples of
    the specification come out true, false, true, false. *)
Theorem validateMeasurements_range :
  (forall length width height : Qc,
     validateMeasurements (Fin length) (Fin width) (Fin height) = true
     <-> ((Q2Qc 50 <= length)%Qc /\ (length <= Q2Qc 500)%Qc)
         /\ ((Q2Qc 20 <= width)%Qc /\ (width <= Q2Qc 200)%Qc)
         /\ ((Q2Qc 10 <= height)%Qc /\ (height <= Q2Qc 150)%Qc))
  /\ (forall length width height : num,
        validateMeasurements length width height = true ->
        finite length /\ finite width /\ finite height)
  /\ validateMeasurements #50 #20 #10 = true
  /\ validateMeasurements #49.9 #20 #10 = false
  /\ validateMeasurements #500 #200 #150 = true
  /\ validateMeasurements #500.1 #200 #150 = false.
Proof.
  split; [|split; [|repeat split; reflexivity]].
  - intros length width height.
    unfold validateMeasurements, MIN_LENGTH, MAX_LENGTH, MIN_WIDTH, MAX_WIDTH,
      MIN_HEIGHT, MAX_HEIGHT, ge, dec.
    cbn [le]. rewrite !andb_true_iff, !Qcleb_le. tauto.
  - intros length width height.
    unfold validateMeasurements, MIN_LENGTH, MAX_LENGTH, MIN_WIDTH, MAX_WIDTH,
      MIN_HEIGHT, MAX_HEIGHT, ge, dec.
    rewrite !andb_true_iff.
    destruct length, width, height; cbn; intuition discriminate.
Qed.

Lemma validateMeasurements_range_witness :
  validateMeasurements #250 #100 #65 = true
  /\ (finite #250 /\ finite #100 /\ finite #65).
Proof.
  destruct validateMeasurements_range as (Hiff & Hfin & _).
  assert (E : validateMeasurements #250 #100 #65 = true).
  { apply (proj2 (Hiff (Q2Qc 250) (Q2Qc 100) (Q2Qc 65))).
    repeat split; qc_decide. }
  split; [exact E | exact (Hfin _ _ _ E)].
Defined.

(* ================================================================== *)
(** * The landmark estimators *)
(* ================================================================== *)

Lemma length_zero_cons {A : Type} (l : list A) : (List.length l =? 0)%nat = false <-> l <> [].
Proof. destruct l; cbn; split; congruence. Qed.

Lemma no_vertices_some (vs : list Vector3.t) : vs <> [] -> no_vertices (Some vs) = false.
Proof. intro H. now apply length_zero_cons. Qed.

Lemma map_nonempty {A B : Type} (f : A -> B) (l : list A) : l <> [] -> map f l <> [].
Proof. destruct l; cbn; congruence. Qed.

Lemma numeric_filter (f : Vector3.t -> bool) (vs : list Vector3.t) :
  numeric vs -> numeric (filter f vs).
Proof.
  unfold numeric. rewrite !Forall_forall. intros H v Hv.
  apply filter_In in Hv. now apply H.
Qed.

Lemma numeric_xs (vs : list Vector3.t) : numeric vs -> Forall notNaN (xs vs).
Proof.
  unfold numeric, xs. rewrite !Forall_forall. intros H a Ha.
  apply in_map_iff in Ha as (v & <- & Hv). now apply H.
Qed.

Lemma numeric_ys (vs : list Vector3.t) : numeric vs -> Forall notNaN (ys vs).
Proof.
  unfold numeric, ys. rewrite !Forall_forall. intros H a Ha.
  apply in_map_iff in Ha as (v & <- & Hv). now apply H.
Qed.

Lemma numeric_zs (vs : list Vector3.t) : numeric vs -> Forall notNaN (zs vs).
Proof.
  unfold numeric, zs. rewrite !Forall_forall. intros H a Ha.
  apply in_map_iff in Ha as (v & <- & Hv). now apply H.
Qed.

Lemma numeric_sole (vs : list Vector3.t) : numeric vs -> numeric (soleVertices vs).
Proof. apply numeric_filter. Qed.

Lemma numeric_ball (vs : list Vector3.t) : numeric vs -> numeric (ballVertices vs).
Proof. apply numeric_filter. Qed.

Lemma numeric_instep (vs : list Vector3.t) : numeric vs -> numeric (instepVertices vs).
Proof. apply numeric_filter. Qed.

Create HintDb estimators.
#[local] Hint Resolve numeric_filter numeric_sole numeric_ball numeric_instep
  numeric_xs numeric_ys numeric_zs map_nonempty : estimators.

(** Replace the first and last element of each sorted copy by the minimum
    and maximum of the list that was sorted. *)
Ltac sorted_ends vs :=
  repeat first
    [ rewrite (sort_last (map Vector3.x vs)) by (try apply map_nonempty; auto with estimators)
    | rewrite (sort_last (map Vector3.y vs)) by (try apply map_nonempty; auto with estimators)
    | rewrite (sort_last (map Vector3.z vs)) by (try apply map_nonempty; auto with estimators)
    | rewrite (sort_first (map Vector3.x vs)) by (try apply map_nonempty; auto with estimators)
    | rewrite (sort_first (map Vector3.y vs)) by (try apply map_nonempty; auto with estimators)
    | rewrite (sort_first (map Vector3.z vs)) by (try apply map_nonempty; auto with estimators) ].

Lemma minOf_le_member (l : list num) (a : num) :
  Forall notNaN l -> In a l -> (minOf l <=? a) = true.
Proof.
  intros Hl Ha.
  assert (Hne : l <> []) by (destruct l; [contradiction | discriminate]).
  destruct (minOf_is_min l Hne Hl) as [_ Hall].
  rewrite Forall_forall in Hall. now apply Hall.
Qed.

(** Closed facts about the sample inputs. *)
Ltac sample_numeric := repeat constructor.
Ltac num_eq :=
  first [ reflexivity
        | unfold dec; f_equal; apply Qc_is_canon; vm_compute; reflexivity ].

(* ================================================================== *)
(** * The fallback estimator *)
(* ================================================================== *)

Lemma idx_readable (l : list num) (k : nat) : Forall finite l -> readable (idx l k).
Proof.
  intro H. unfold idx, readable.
  destruct (nth_in_or_default k l NaN) as [Hin | ->]; [left | now right].
  rewrite Forall_forall in H. now apply H.
Qed.

Lemma scan_axis (lo hi v : num) :
  axis_ok lo hi -> readable v ->
  axis_ok (if v <? lo then v else lo) (if v >? hi then v else hi).
Proof.
  intros Hax [Hv | ->].
  - destruct v as [c| | |]; try contradiction.
    destruct Hax as [[-> ->] | (a & b & -> & -> & Hab)].
    + right. exists c, c. repeat split. apply Qcle_refl.
    + right. unfold gt. cbn [lt].
      destruct (Qcltb c a) eqn:E1, (Qcltb b c) eqn:E2;
        eexists; eexists; (split; [reflexivity|]; split; [reflexivity|]); qc_lra.
  - destruct lo, hi; exact Hax.
Qed.

Lemma scanVertex_ok (b : Box3.t) (p : Vector3.t) :
  box_ok b -> readable (Vector3.x p) -> readable (Vector3.y p) -> readable (Vector3.z p) ->
  box_ok (scanVertex b p).
Proof.
  intros (Hx & Hy & Hz) Rx Ry Rz. unfold scanVertex, box_ok. cbn.
  repeat split; now apply scan_axis.
Qed.

Lemma scan_fold_ok (a : BufferAttribute.t) (ixs : list nat) (b : Box3.t) :
  Forall finite (BufferAttribute.array a) -> box_ok b ->
  box_ok (fold_left (fun b i => scanVertex b (vertexAt a i)) ixs b).
Proof.
  intro Hfin. revert b. induction ixs as [|i t IH]; intros b Hb; cbn [fold_left].
  - exact Hb.
  - apply IH. apply scanVertex_ok; [assumption| | |];
      unfold vertexAt, BufferAttribute.getX, BufferAttribute.getY, BufferAttribute.getZ;
      cbn; now apply idx_readable.
Qed.

Lemma empty_box_ok : box_ok Box3.empty.
Proof. repeat split; left; split; reflexivity. Qed.

Lemma setFromBufferAttribute_ok (a : BufferAttribute.t) :
  Forall finite (BufferAttribute.array a) -> box_ok (setFromBufferAttribute a).
Proof. intro H. apply scan_fold_ok; [assumption | apply empty_box_ok]. Qed.

Lemma nonneg_zero : nonneg zero.
Proof. exists 0%Qc. split; [reflexivity | apply Qcle_refl]. Qed.

(** The size of a scanned box is finite and not negative on every axis. *)
Lemma getSize_nonneg (b : Box3.t) :
  box_ok b ->
  nonneg (Vector3.x (Box3.getSize b)) /\ nonneg (Vector3.y (Box3.getSize b))
  /\ nonneg (Vector3.z (Box3.getSize b)).
Proof.
  destruct b as [[lx ly lz] [hx hy hz]]. unfold box_ok, Box3.getSize, Box3.isEmpty. cbn.
  intros ([[-> ->] | (ax & bx & -> & -> & Hx)]
          & [[-> ->] | (ay & by' & -> & -> & Hy)]
          & [[-> ->] | (az & bz & -> & -> & Hz)]);
    cbn [lt orb]; rewrite ?orb_true_r; cbn [Vector3.x Vector3.y Vector3.z];
    auto using nonneg_zero.
  assert (Ex : Qcltb bx ax = false) by qc_lra.
  assert (Ey : Qcltb by' ay = false) by qc_lra.
  assert (Ez : Qcltb bz az = false) by qc_lra.
  rewrite Ex, Ey, Ez. cbn.
  repeat split; eexists; (split; [reflexivity|]); qc_lra.
Qed.

Lemma max_floor (a : num) (f : Qc) : notNaN a -> (Fin f <=? max a (Fin f)) = true.
Proof.
  unfold notNaN. destruct a as [q| | |]; cbn; try congruence; intros _.
  - destruct (Qcltb q f) eqn:E; cbn; qc_lra.
  - qc_lra.
Qed.

Lemma nonneg_scaled (a : num) (k : Qc) : nonneg a -> notNaN (a * Fin k).
Proof. intros (q & -> & _). reflexivity. Qed.

(* ================================================================== *)
(** * The shape classifier *)
(* ================================================================== *)

Lemma truthy_false (a : num) : truthy a = false <-> a = zero \/ a = NaN.
Proof.
  destruct a as [q| | |]; cbn; split; intro H;
    try discriminate; try (destruct H; discriminate); auto.
  - left. apply negb_false_iff in H. apply Qceqb_eq in H. now subst.
  - destruct H as [H|H]; [|discriminate].
    injection H as ->. reflexivity.
Qed.

Lemma truthy_Fin (q : Qc) : q <> 0%Qc -> truthy (Fin q) = true.
Proof.
  intro H. cbn. destruct (Qceqb q 0) eqn:E; [|reflexivity].
  apply Qceqb_eq in E. contradiction.
Qed.

Lemma div_Fin (p q : Qc) : q <> 0%Qc -> Fin p / Fin q = Fin (p / q).
Proof.
  intro H. cbn. destruct (Qceqb q 0) eqn:E; [|reflexivity].
  apply Qceqb_eq in E. contradiction.
Qed.

(* ================================================================== *)
(** * The orchestrator *)
(* ================================================================== *)

Lemma scanVertex_NaN (b : Box3.t) : scanVertex b (Vector3.mk NaN NaN NaN) = b.
Proof.
  destruct b as [[lx ly lz] [hx hy hz]]. unfold scanVertex, gt. cbn.
  destruct hx, hy, hz; reflexivity.
Qed.

Lemma vertexAt_nil (a : BufferAttribute.t) (i : nat) :
  BufferAttribute.array a = [] -> vertexAt a i = Vector3.mk NaN NaN NaN.
Proof.
  intro E. unfold vertexAt, BufferAttribute.getX, BufferAttribute.getY,
    BufferAttribute.getZ, idx. rewrite E.
  f_equal; match goal with |- nth ?k [] NaN = NaN => now destruct k end.
Qed.

Lemma setFromBufferAttribute_empty (a : BufferAttribute.t) :
  BufferAttribute.count a = 0%nat \/ BufferAttribute.array a = [] ->
  setFromBufferAttribute a = Box3.empty.
Proof.
  unfold setFromBufferAttribute. intros [E | E].
  - now rewrite E.
  - generalize (seq 0 (BufferAttribute.count a)). intro ixs.
    induction ixs as [|i t IH]; cbn [fold_left]; [reflexivity|].
    now rewrite (vertexAt_nil a i E), scanVertex_NaN.
Qed.

(** The fallback on an empty buffer gives the floors. *)
Lemma fallback_of_empty (p : BufferAttribute.t) (currentModel : option Object3D) :
  BufferAttribute.count p = 0%nat \/ BufferAttribute.array p = [] ->
  performFallbackMeasurement (Some (geometryOf p)) currentModel
  = Normal (mkFallback (floorRecord (BufferAttribute.count p))
                       (calculateRatios #50 #30 #20) (analyzeFootType #50 #30 #20)).
Proof.
  intro H. unfold performFallbackMeasurement, geometryOf, computeBoundingBox.
  cbn [attributes position]. rewrite (setFromBufferAttribute_empty p H). reflexivity.
Qed.

Lemma measureTry_of_empty (this : Engine) (p : BufferAttribute.t)
    (currentModel : option Object3D) :
  BufferAttribute.count p = 0%nat \/ BufferAttribute.array p = [] ->
  exists e : exn, measureTry this p currentModel = (this, [], Throw e).
Proof.
  intro H. unfold measureTry.
  assert (E : ((BufferAttribute.count p =? 0)%nat
               || (List.length (BufferAttribute.array p) =? 0)%nat) = true).
  { apply orb_true_iff. destruct H as [H | H]; [left | right]; now rewrite H. }
  rewrite E. eexists. reflexivity.
Qed.

(** C8, the claim as stated fails: with a position attribute whose buffer
    is empty, the call does not stop at the invalid-input notification; it
    returns a record. *)
Lemma empty_buffer_counterexample :
  ~ (returned (performPreciseMeasurements newEngine (Some (geometryOf emptyBuffer)) None)
     = Normal None
     /\ dispatched (performPreciseMeasurements newEngine (Some (geometryOf emptyBuffer)) None)
        = [mkEvent measurementStarted (Status status_invalid)]).
Proof. intros [H _]. vm_compute in H. discriminate H. Qed.

(** C8, amended.  When the geometry, its attributes or its position
    attribute is missing, [performPreciseMeasurements] returns no record,
    dispatches the single invalid-input notification and leaves the engine
    as it was.  When the position attribute is there and its buffer is
    empty, the call takes the fallback path: it dispatches the started and
    the complete notification and returns the fallback record of 50, 30
    and 20 mm with the low-confidence fallback label.  No exception escapes
    in either case. *)
Theorem performPreciseMeasurements_invalid_input
    (this : Engine) (currentModel : option Object3D) :
  (forall geometry : option BufferGeometry,
     position_of geometry = None ->
     performPreciseMeasurements this geometry currentModel
     = mkRun (Normal None) this [mkEvent measurementStarted (Status status_invalid)])
  /\ (forall p : BufferAttribute.t,
        BufferAttribute.count p = 0%nat \/ BufferAttribute.array p = [] ->
        performPreciseMeasurements this (Some (geometryOf p)) currentModel
        = mkRun (Normal (Some (floorRecord (BufferAttribute.count p)))) this
            [mkEvent measurementStarted (Status status_analyzing);
             mkEvent measurementComplete
               (Completed (floorRecord (BufferAttribute.count p))
                  (calculateRatios #50 #30 #20) (analyzeFootType #50 #30 #20)
                  status_fallback conf_fallback)]).
Proof.
  split.
  - intros [[[[[p|]]|]]|]; cbn; intro H; try discriminate; reflexivity.
  - intros p H. unfold performPreciseMeasurements, geometryOf.
    destruct (measureTry_of_empty this p currentModel H) as [e ->].
    fold (geometryOf p). rewrite (fallback_of_empty p currentModel H). reflexivity.
Qed.

Lemma performPreciseMeasurements_invalid_input_witness :
  returned (performPreciseMeasurements newEngine None None) = Normal None
  /\ returned (performPreciseMeasurements newEngine (Some (mkGeometry None)) None) = Normal None
  /\ returned (performPreciseMeasurements newEngine (Some (geometryOf emptyBuffer)) None)
     = Normal (Some (floorRecord 0)).
Proof.
  destruct (performPreciseMeasurements_invalid_input newEngine None) as [Hmissing Hempty].
  refine (conj _ (conj _ _)).
  - now rewrite (Hmissing None eq_refl).
  - now rewrite (Hmissing (Some (mkGeometry None)) eq_refl).
  - now rewrite (Hempty emptyBuffer (or_introl eq_refl)).
Defined.

(** With a position attribute at hand the fallback returns a record, and
    the record carries the fallback label. *)
Lemma fallback_total (p : BufferAttribute.t) (currentModel : option Object3D) :
  exists f : FallbackResult,
    performFallbackMeasurement (Some (geometryOf p)) currentModel = Normal f
    /\ Measurements.confidence (fb_measurements f) = conf_fallback_mode.
Proof.
  unfold performFallbackMeasurement, geometryOf. cbn [attributes position].
  repeat match goal with |- context [if ?c then _ else _] => destruct c end;
    eexists; split; reflexivity.
Qed.

(** A validated pass stores the record it returns; a fallback pass leaves
    the stored record as it was. *)
Lemma stored_after_call (this : Engine) (geometry : option BufferGeometry)
    (currentModel : option Object3D) (r : Measurements.t) :
  returned (performPreciseMeasurements this geometry currentModel) = Normal (Some r) ->
  footMeasurements (engine (performPreciseMeasurements this geometry currentModel)) = Some r
  \/ (footMeasurements (engine (performPreciseMeasurements this geometry currentModel))
      = footMeasurements this
      /\ Measurements.confidence r = conf_fallback_mode).
Proof.
  destruct geometry as [[[[[p|]]|]]|]; cbn [performPreciseMeasurements returned];
    try discriminate.
  unfold measureTry.
  destruct ((BufferAttribute.count p =? 0)%nat
            || (List.length (BufferAttribute.array p) =? 0)%nat).
  - destruct (fallback_total p currentModel) as (f & Hf & Hc).
    fold (geometryOf p). rewrite Hf. cbn. intro E. injection E as <-. now right.
  - cbv zeta.
    match goal with |- context [negb ?v] => destruct v end; cbn [negb].
    + cbn. intro E. injection E as <-. now left.
    + destruct (fallback_total p currentModel) as (f & Hf & Hc).
      fold (geometryOf p). rewrite Hf. cbn. intro E. injection E as <-. now right.
Qed.

(** C10.  The fallback pass leaves the stored record alone.  On a single
    vertex at the origin validation fails, the call returns the fallback
    record, and the engine still holds the record of the call before; on
    the sample foot the validated pass stores the very record it returns. *)
Theorem fallback_record_not_stored :
  (exists r : Measurements.t,
     returned (performPreciseMeasurements (mkEngine (Some (dims 250 100 65)))
                 (Some (geometryOf originOnly)) None) = Normal (Some r)
     /\ Measurements.confidence r = conf_fallback_mode
     /\ getMeasurements (engine (performPreciseMeasurements
                                   (mkEngine (Some (dims 250 100 65)))
                                   (Some (geometryOf originOnly)) None))
        = Some (dims 250 100 65)
     /\ Some (dims 250 100 65) <> Some r)
  /\ (exists r : Measurements.t,
        returned (performPreciseMeasurements (mkEngine (Some (dims 250 100 65)))
                    (Some (geometryOf footBuffer)) None) = Normal (Some r)
        /\ Measurements.confidence r = conf_high_mm
        /\ getMeasurements (engine (performPreciseMeasurements
                                      (mkEngine (Some (dims 250 100 65)))
                                      (Some (geometryOf footBuffer)) None))
           = Some r).
Proof.
  split.
  - eexists. split; [vm_compute; reflexivity|].
    split; [reflexivity|]. split; [vm_compute; reflexivity|].
    intro E. discriminate E.
  - eexists. split; [vm_compute; reflexivity|].
    split; [reflexivity|]. vm_compute. reflexivity.
Qed.

(* ================================================================== *)
(** * The bilateral comparison *)
(* ================================================================== *)

Lemma abs_Fin (p : Qc) : abs (Fin p) = Fin (Qcabs p).
Proof.
  cbn. f_equal. destruct (Qcltb p 0) eqn:E; symmetry.
  - apply Qcabs_neg. qc_prop. now apply Qclt_le_weak.
  - apply Qcabs_pos. now qc_prop.
Qed.

Lemma max_Fin (a b : Qc) : max (Fin a) (Fin b) = Fin (Qcmax a b).
Proof. unfold Qcmax. cbn. now destruct (Qcltb a b). Qed.

Lemma Qcmax_same (a : Qc) : Qcmax a a = a.
Proof. unfold Qcmax. now destruct (Qcltb a a). Qed.

Lemma identical_axis (l : Qc) :
  l <> 0%Qc -> ((1 - Qcabs (l - l) / Qcmax l l) * Q2Qc 100)%Qc = Q2Qc 100.
Proof.
  intros _. replace (l - l)%Qc with 0%Qc by ring.
  rewrite (Qcabs_pos 0) by apply Qcle_refl.
  replace (0 / Qcmax l l)%Qc with 0%Qc by (unfold Qcdiv; ring).
  apply Qc_is_canon. reflexivity.
Qed.

(** [Math.round] picks an integer within one half of its argument. *)
Lemma round_nearest (mean : Qc) :
  exists n : Z,
    round (Fin mean) = Fin (Q2Qc (inject_Z n))
    /\ (mean - half < Q2Qc (inject_Z n))%Qc
    /\ (Q2Qc (inject_Z n) <= mean + half)%Qc.
Proof.
  exists (Qfloor (mean + half)%Qc). split; [reflexivity|].
  pose proof (Qfloor_le (mean + half)%Qc) as Hle.
  pose proof (Qlt_floor (mean + half)%Qc) as Hlt.
  rewrite inject_Z_plus in Hlt. change (inject_Z 1) with 1%Q in Hlt.
  set (n := Qfloor (mean + half)%Qc) in *. clearbody n.
  split; unfold Qclt, Qcle, Qcminus, Qcplus, Qcopp, half, Q2Qc in *;
    cbn [this] in *; rewrite ?Qred_correct in *; lra.
Qed.

(* ================================================================== *)
(** * Further properties of the orchestrator *)
(* ================================================================== *)

(** How the [try] block can end: with a record that passed validation,
    stored and announced, or with a throw that left the engine alone. *)
Lemma measureTry_outcome (this : Engine) (p : BufferAttribute.t)
    (currentModel : option Object3D) :
  (exists r : Measurements.t,
     measureTry this p currentModel
     = (mkEngine (Some r),
        [mkEvent measurementProgress (Status status_measuring);
         mkEvent measurementComplete
           (Completed r
              (calculateRatios (Measurements.length r) (Measurements.width r)
                 (Measurements.height r))
              (analyzeFootType (Measurements.length r) (Measurements.width r)
                 (Measurements.height r))
              status_verified (Measurements.confidence r))],
        Normal r)
     /\ validateMeasurements (Measurements.length r) (Measurements.width r)
          (Measurements.height r) = true)
  \/ (exists (e : exn) (events : list CustomEvent),
        measureTry this p currentModel = (this, events, Throw e)
        /\ (events = [] \/ events = [mkEvent measurementProgress (Status status_measuring)])).
Proof.
  unfold measureTry.
  destruct ((BufferAttribute.count p =? 0)%nat
            || (List.length (BufferAttribute.array p) =? 0)%nat).
  - right. eexists. eexists. split; [reflexivity | now left].
  - cbv zeta.
    match goal with |- context [negb ?v] => destruct v eqn:V end; cbn [negb].
    + left.
      match goal with |- context [Normal ?stored] => exists stored end.
      split; [reflexivity | exact V].
    + right. eexists. eexists. split; [reflexivity | now right].
Qed.

(** The fallback on a buffer of finite numbers: a record at or above the
    three floors, labelled as fallback. *)
Lemma fallback_floors (p : BufferAttribute.t) (currentModel : option Object3D) :
  Forall finite (BufferAttribute.array p) ->
  exists f : FallbackResult,
    performFallbackMeasurement (Some (geometryOf p)) currentModel = Normal f
    /\ (#50 <=? Measurements.length (fb_measurements f)) = true
    /\ (#30 <=? Measurements.width (fb_measurements f)) = true
    /\ (#20 <=? Measurements.height (fb_measurements f)) = true
    /\ Measurements.confidence (fb_measurements f) = conf_fallback_mode.
Proof.
  intro Hfin.
  destruct (getSize_nonneg (setFromBufferAttribute p)
              (setFromBufferAttribute_ok p Hfin)) as (Hx & Hy & Hz).
  unfold performFallbackMeasurement, geometryOf, computeBoundingBox.
  cbn [attributes position].
  repeat match goal with |- context [if ?c then _ else _] => destruct c end;
    (eexists; split; [reflexivity|]);
    cbn [fb_measurements Measurements.length Measurements.width Measurements.height
         Measurements.confidence];
    repeat split; apply max_floor; now apply nonneg_scaled.
Qed.

(** X1.  On a three.js geometry (a position attribute, when present, is
    a [BufferAttribute] with its array and count) no exception escapes
    [performPreciseMeasurements], whatever the buffer, the model and the
    engine; the call returns a record exactly when the geometry exposes a
    position attribute. *)
Theorem performPreciseMeasurements_never_throws
    (this : Engine) (geometry : option BufferGeometry) (currentModel : option Object3D) :
  exists v : option Measurements.t,
    returned (performPreciseMeasurements this geometry currentModel) = Normal v
    /\ (v = None <-> position_of geometry = None).
Proof.
  destruct geometry as [[[[[p|]]|]]|]; cbn [position_of attributes position];
    try (exists None; split; [reflexivity | tauto]).
  unfold performPreciseMeasurements.
  destruct (measureTry_outcome this p currentModel)
    as [(r & -> & _) | (e & events & -> & _)].
  - exists (Some r). split; [reflexivity | split; discriminate].
  - destruct (fallback_total p currentModel) as (f & Hf & _).
    fold (geometryOf p). rewrite Hf.
    exists (Some (fb_measurements f)). split; [reflexivity | split; discriminate].
Qed.

(** X2.  The events of a call.  The first event is always
    measurementStarted and there are at most three.  When a record is
    returned, the last event is measurementComplete and carries that very
    record, the ratios [calculateRatios] gives for its three dimensions and
    the analysis [analyzeFootType] gives for them; when none is returned,
    the invalid-input notification is the only event. *)
Theorem events_of_a_call
    (this : Engine) (geometry : option BufferGeometry) (currentModel : option Object3D) :
  (exists (status : string) (rest : list CustomEvent),
     dispatched (performPreciseMeasurements this geometry currentModel)
     = mkEvent measurementStarted (Status status) :: rest)
  /\ (List.length (dispatched (performPreciseMeasurements this geometry currentModel)) <= 3)%nat
  /\ match returned (performPreciseMeasurements this geometry currentModel) with
     | Normal (Some r) =>
         announces r (last (dispatched (performPreciseMeasurements this geometry currentModel))
                           (mkEvent measurementStarted (Status status_invalid)))
     | Normal None =>
         dispatched (performPreciseMeasurements this geometry currentModel)
         = [mkEvent measurementStarted (Status status_invalid)]
     | Throw _ => False
     end.
Proof.
  destruct geometry as [[[[[p|]]|]]|];
    try (cbn; repeat split; try lia; eexists; eexists; reflexivity).
  unfold performPreciseMeasurements.
  destruct (measureTry_outcome this p currentModel)
    as [(r & -> & _) | (e & events & -> & Hev)].
  - cbn. repeat split; try lia; eexists; eexists; reflexivity.
  - pose proof (fallback_total p currentModel) as (f & Hf & _).
    fold (geometryOf p). rewrite Hf.
    unfold performFallbackMeasurement, geometryOf in Hf. cbn [attributes position] in Hf.
    assert (Hshape : exists m, f = mkFallback m
              (calculateRatios (Measurements.length m) (Measurements.width m)
                 (Measurements.height m))
              (analyzeFootType (Measurements.length m) (Measurements.width m)
                 (Measurements.height m))).
    { revert Hf.
      repeat match goal with |- context [if ?c then _ else _] => destruct c end;
        intro Hf; injection Hf as <-;
        match goal with |- exists _, mkFallback ?x _ _ = _ => exists x end;
        reflexivity. }
    destruct Hshape as (m & ->).
    destruct Hev as [-> | ->]; cbn;
      (split; [eexists; eexists; reflexivity|]); (split; [lia|]);
      eexists; eexists; reflexivity.
Qed.

(** X3.  On a position buffer of finite numbers the call returns a record
    with length at least 50, width at least 20 and height at least 10;
    the record either passed [validateMeasurements] and is the one the
    engine now stores, or carries the fallback label and left the stored
    record as it was. *)
Theorem returned_record_in_range
    (this : Engine) (p : BufferAttribute.t) (currentModel : option Object3D) :
  Forall finite (BufferAttribute.array p) ->
  exists r : Measurements.t,
    returned (performPreciseMeasurements this (Some (geometryOf p)) currentModel)
    = Normal (Some r)
    /\ (#50 <=? Measurements.length r) = true
    /\ (#20 <=? Measurements.width r) = true
    /\ (#10 <=? Measurements.height r) = true
    /\ ((validateMeasurements (Measurements.length r) (Measurements.width r)
           (Measurements.height r) = true
         /\ footMeasurements
              (engine (performPreciseMeasurements this (Some (geometryOf p)) currentModel))
            = Some r)
        \/ (Measurements.confidence r = conf_fallback_mode
            /\ footMeasurements
                 (engine (performPreciseMeasurements this (Some (geometryOf p)) currentModel))
               = footMeasurements this)).
Proof.
  intro Hfin. unfold performPreciseMeasurements, geometryOf.
  destruct (measureTry_outcome this p currentModel)
    as [(r & -> & Hv) | (e & events & -> & _)].
  - exists r. cbn [returned engine footMeasurements].
    split; [reflexivity|].
    pose proof Hv as Hv'. unfold validateMeasurements, MIN_LENGTH, MIN_WIDTH, MIN_HEIGHT, ge in Hv'.
    cbv zeta in Hv'. rewrite !andb_true_iff in Hv'.
    destruct Hv' as [[[Hl _] [Hw _]] [Hh _]].
    repeat (split; [assumption|]). left. now split.
  - destruct (fallback_floors p currentModel Hfin) as (f & Hf & Hl & Hw & Hh & Hc).
    fold (geometryOf p). rewrite Hf.
    exists (fb_measurements f). cbn [returned engine].
    split; [reflexivity|].
    split; [assumption|].
    split; [apply le_trans with #30; [reflexivity | assumption]|].
    split; [apply le_trans with #20; [reflexivity | assumption]|].
    right. now split.
Qed.

Lemma returned_record_in_range_witness :
  (exists r : Measurements.t,
     returned (performPreciseMeasurements newEngine (Some (geometryOf footBuffer)) None)
     = Normal (Some r)
     /\ (#50 <=? Measurements.length r) = true)
  /\ (exists r : Measurements.t,
        returned (performPreciseMeasurements newEngine (Some (geometryOf originOnly)) None)
        = Normal (Some r)
        /\ (#50 <=? Measurements.length r) = true).
Proof.
  split.
  - destruct (returned_record_in_range newEngine footBuffer None ltac:(repeat constructor))
      as (r & Hr & Hl & _).
    exists r. now split.
  - destruct (returned_record_in_range newEngine originOnly None ltac:(repeat constructor))
      as (r & Hr & Hl & _).
    exists r. now split.
Defined.

(* ================================================================== *)
(** * Further properties of the estimators and the measurement lines *)
(* ================================================================== *)

(** Decide the comparisons of rationals in the goal, then close each case
    by computation, by contradiction or by antisymmetry. *)
Ltac split_lt :=
  repeat match goal with
  | |- context [Qcltb ?a ?b] =>
      let E := fresh "E" in destruct (Qcltb a b) eqn:E; cbn
  end;
  try reflexivity;
  first [ exfalso; qc_lra | f_equal; apply Qcle_antisym; qc_lra ].

Lemma min_comm (a b : num) : min a b = min b a.
Proof. destruct a as [p| | |], b as [q| | |]; cbn; try reflexivity; split_lt. Qed.

Lemma max_comm (a b : num) : max a b = max b a.
Proof. destruct a as [p| | |], b as [q| | |]; cbn; try reflexivity; split_lt. Qed.

Lemma min_assoc (a b c : num) : min a (min b c) = min (min a b) c.
Proof.
  destruct a as [p| | |], b as [q| | |], c as [r| | |]; cbn; try reflexivity; split_lt.
Qed.

Lemma max_assoc (a b c : num) : max a (max b c) = max (max a b) c.
Proof.
  destruct a as [p| | |], b as [q| | |], c as [r| | |]; cbn; try reflexivity; split_lt.
Qed.

Lemma fold_left_min (l : list num) : fold_left min l PInf = minOf l.
Proof. apply fold_symmetric; [apply min_assoc | intro; apply min_comm]. Qed.

Lemma fold_left_max (l : list num) : fold_left max l NInf = maxOf l.
Proof. apply fold_symmetric; [apply max_assoc | intro; apply max_comm]. Qed.

Lemma expand_fold (vs : list Vector3.t) (b : Box3.t) :
  fold_left Box3.expandByPoint vs b
  = Box3.mk
      (Vector3.mk (fold_left min (xs vs) (Vector3.x (Box3.min b)))
                  (fold_left min (ys vs) (Vector3.y (Box3.min b)))
                  (fold_left min (zs vs) (Vector3.z (Box3.min b))))
      (Vector3.mk (fold_left max (xs vs) (Vector3.x (Box3.max b)))
                  (fold_left max (ys vs) (Vector3.y (Box3.max b)))
                  (fold_left max (zs vs) (Vector3.z (Box3.max b)))).
Proof.
  revert b. induction vs as [|v t IH]; intro b.
  - now destruct b as [[? ? ?] [? ? ?]].
  - cbn [fold_left xs ys zs map]. rewrite IH. reflexivity.
Qed.

(** The box of a list of points has the smallest and the largest value of
    each coordinate as its corners. *)
Lemma setFromPoints_corners (vs : list Vector3.t) :
  Box3.setFromPoints vs
  = Box3.mk (Vector3.mk (minOf (xs vs)) (minOf (ys vs)) (minOf (zs vs)))
            (Vector3.mk (maxOf (xs vs)) (maxOf (ys vs)) (maxOf (zs vs))).
Proof.
  unfold Box3.setFromPoints. rewrite expand_fold. cbn.
  now rewrite !fold_left_min, !fold_left_max.
Qed.

Lemma finite_notNaN (a : num) : finite a -> notNaN a.
Proof. now destruct a. Qed.

Lemma finiteVertices_numeric (vs : list Vector3.t) : finiteVertices vs -> numeric vs.
Proof.
  unfold finiteVertices, numeric. apply Forall_impl.
  intros v (Hx & Hy & Hz). auto using finite_notNaN.
Qed.

Lemma finite_coordinates (vs : list Vector3.t) :
  finiteVertices vs ->
  Forall finite (xs vs) /\ Forall finite (ys vs) /\ Forall finite (zs vs).
Proof.
  unfold finiteVertices, xs, ys, zs. rewrite !Forall_forall. intro H.
  repeat split; intros a Ha; apply in_map_iff in Ha as (v & <- & Hv); now apply H.
Qed.

Lemma finite_is_notNaN (l : list num) : Forall finite l -> Forall notNaN l.
Proof. apply Forall_impl. exact finite_notNaN. Qed.

Lemma maxOf_ge_member (l : list num) (a : num) :
  Forall notNaN l -> In a l -> (a <=? maxOf l) = true.
Proof.
  intros Hl Ha.
  assert (Hne : l <> []) by (destruct l; [contradiction | discriminate]).
  destruct (maxOf_is_max l Hne Hl) as [_ Hall].
  rewrite Forall_forall in Hall. now apply Hall.
Qed.

(** The ends of a non-empty list of finite numbers are finite and in
    order. *)
Lemma finite_ends (l : list num) :
  l <> [] -> Forall finite l ->
  exists lo hi : Qc, minOf l = Fin lo /\ maxOf l = Fin hi /\ (lo <= hi)%Qc.
Proof.
  intros Hne Hfin. pose proof (finite_is_notNaN l Hfin) as Hl.
  destruct (minOf_is_min l Hne Hl) as [Hmin _].
  destruct (maxOf_is_max l Hne Hl) as [Hmax _].
  pose proof (minOf_le_maxOf l Hne Hl) as Hle.
  rewrite Forall_forall in Hfin.
  pose proof (Hfin _ Hmin) as Fmin. pose proof (Hfin _ Hmax) as Fmax.
  destruct (minOf l) as [lo| | |]; try contradiction.
  destruct (maxOf l) as [hi| | |]; try contradiction.
  exists lo, hi. repeat split. cbn in Hle. now qc_prop.
Qed.

(** A non-empty part of a list of finite numbers lies between the ends of
    the list. *)
Lemma part_ends (part l : list num) :
  part <> [] -> incl part l -> Forall finite l ->
  exists lo hi lo' hi' : Qc,
    minOf l = Fin lo /\ maxOf l = Fin hi
    /\ minOf part = Fin lo' /\ maxOf part = Fin hi'
    /\ (lo <= lo')%Qc /\ (lo' <= hi')%Qc /\ (hi' <= hi)%Qc.
Proof.
  intros Hne Hincl Hfin.
  assert (Hl : l <> []).
  { destruct part as [|a t]; [congruence|]. intros ->. exact (Hincl a (or_introl eq_refl)). }
  assert (Hpart : Forall finite part).
  { rewrite Forall_forall in *. auto. }
  destruct (finite_ends l Hl Hfin) as (lo & hi & Elo & Ehi & _).
  destruct (finite_ends part Hne Hpart) as (lo' & hi' & Elo' & Ehi' & Hord).
  exists lo, hi, lo', hi'. repeat (split; [assumption|]).
  pose proof (finite_is_notNaN l Hfin) as Nl.
  pose proof (finite_is_notNaN part Hpart) as Np.
  destruct (minOf_is_min part Hne Np) as [Hmin _].
  destruct (maxOf_is_max part Hne Np) as [Hmax _].
  pose proof (minOf_le_member l _ Nl (Hincl _ Hmin)) as H1.
  pose proof (maxOf_ge_member l _ Nl (Hincl _ Hmax)) as H2.
  rewrite Elo, Elo' in H1. rewrite Ehi, Ehi' in H2. cbn in H1, H2.
  qc_prop. repeat split; assumption.
Qed.

Lemma incl_map_filter {A : Type} (g : A -> num) (keep : A -> bool) (vs : list A) :
  incl (map g (filter keep vs)) (map g vs).
Proof.
  intros a Ha. apply in_map_iff in Ha as (v & <- & Hv).
  apply filter_In in Hv as [Hv _]. now apply in_map.
Qed.

(** What the three estimators return on a non-empty list without NaN. *)
Lemma measureFootLength_value (vs : list Vector3.t) (bbox : option Box3.t) :
  vs <> [] -> numeric vs ->
  measureFootLength (Some vs) bbox
  = extent (zs (match soleVertices vs with [] => vs | _ :: _ => soleVertices vs end)).
Proof.
  intros Hne Hnum.
  unfold measureFootLength. rewrite (no_vertices_some vs Hne).
  cbv zeta. cbn [given]. sorted_ends vs.
  fold (ys vs). fold (soleThreshold #0.15 vs).
  change (filter (fun v => Vector3.y v <=? soleThreshold #0.15 vs) vs)
    with (soleVertices vs).
  destruct (soleVertices vs) as [|v t] eqn:E; [reflexivity|].
  rewrite <- E.
  assert (Hsole : soleVertices vs <> []) by (rewrite E; discriminate).
  apply length_zero_cons in Hsole as E'. rewrite E'.
  sorted_ends (soleVertices vs).
  apply abs_extent; unfold zs; auto with estimators.
Qed.

Lemma measureFootWidth_value (vs : list Vector3.t) (bbox : option Box3.t) :
  vs <> [] -> numeric vs ->
  measureFootWidth (Some vs) bbox
  = extent (xs (match ballVertices vs with [] => vs | _ :: _ => ballVertices vs end)).
Proof.
  intros Hne Hnum.
  unfold measureFootWidth. rewrite (no_vertices_some vs Hne).
  cbv zeta. cbn [given]. sorted_ends vs.
  change (filter _ vs) with (ballVertices vs).
  destruct (ballVertices vs) as [|v t] eqn:E; [reflexivity|].
  rewrite <- E.
  assert (Hball : ballVertices vs <> []) by (rewrite E; discriminate).
  apply length_zero_cons in Hball as E'. rewrite E'.
  sorted_ends (ballVertices vs).
  apply abs_extent; unfold xs; auto with estimators.
Qed.

Lemma measureFootHeight_value (vs : list Vector3.t) (bbox : option Box3.t) :
  vs <> [] -> numeric vs ->
  measureFootHeight (Some vs) bbox
  = maxOf (ys (match instepVertices vs with [] => vs | _ :: _ => instepVertices vs end))
    - minOf (ys vs).
Proof.
  intros Hne Hnum.
  unfold measureFootHeight. rewrite (no_vertices_some vs Hne).
  cbv zeta. cbn [given]. sorted_ends vs.
  change (filter _ vs) with (instepVertices vs).
  destruct (instepVertices vs) as [|v t] eqn:E; [reflexivity|].
  rewrite <- E.
  assert (Hin : instepVertices vs <> []) by (rewrite E; discriminate).
  apply length_zero_cons in Hin as E'. rewrite E'.
  sorted_ends (instepVertices vs).
  apply abs_sub_le. apply minOf_le_member; [now apply numeric_ys|].
  apply (incl_map_filter Vector3.y (inZBand #0.3 #0.7 vs) vs).
  apply maxOf_is_max; [now apply map_nonempty|].
  apply numeric_ys. now apply numeric_filter.
Qed.



Lemma extent_of_part (part l : list num) :
  part <> [] -> incl part l -> Forall finite l ->
  (zero <=? extent part) = true /\ (extent part <=? extent l) = true.
Proof.
  intros Hne Hincl Hfin.
  destruct (part_ends part l Hne Hincl Hfin)
    as (lo & hi & lo' & hi' & Elo & Ehi & Elo' & Ehi' & H1 & H2 & H3).
  unfold extent. rewrite Elo, Ehi, Elo', Ehi'. cbn. split; qc_lra.
Qed.

Lemma choice_nonempty {A : Type} (part vs : list A) :
  vs <> [] -> match part with [] => vs | _ :: _ => part end <> [].
Proof. destruct part; [trivial | discriminate]. Qed.

Lemma choice_incl {A : Type} (g : A -> num) (keep : A -> bool) (vs : list A) :
  incl (map g (match filter keep vs with [] => vs | _ :: _ => filter keep vs end))
       (map g vs).
Proof.
  destruct (filter keep vs) eqn:E; [apply incl_refl|].
  rewrite <- E. apply incl_map_filter.
Qed.



(** X6.  [createMeasurementLines] returns no line without vertices and
    otherwise exactly three visible lines, typed length, width and height.
    Each runs parallel to its axis, and its span is the full extent of the
    vertices along that axis: Z for the length line, X for the width line,
    Y for the height line. *)
Theorem measurement_lines_span (vs : list Vector3.t) :
  createMeasurementLines None = []
  /\ createMeasurementLines (Some []) = []
  /\ (vs <> [] ->
      exists lengthLine widthLine heightLine : Line.t,
        createMeasurementLines (Some vs) = [lengthLine; widthLine; heightLine]
        /\ map Line.type [lengthLine; widthLine; heightLine]
           = [Some "length"; Some "width"; Some "height"]
        /\ map Line.visible [lengthLine; widthLine; heightLine] = [true; true; true]
        /\ Vector3.z (Line.finish lengthLine) - Vector3.z (Line.start lengthLine)
           = extent (zs vs)
        /\ Vector3.x (Line.finish lengthLine) = Vector3.x (Line.start lengthLine)
        /\ Vector3.y (Line.finish lengthLine) = Vector3.y (Line.start lengthLine)
        /\ Vector3.x (Line.finish widthLine) - Vector3.x (Line.start widthLine)
           = extent (xs vs)
        /\ Vector3.y (Line.finish widthLine) = Vector3.y (Line.start widthLine)
        /\ Vector3.z (Line.finish widthLine) = Vector3.z (Line.start widthLine)
        /\ Vector3.y (Line.finish heightLine) - Vector3.y (Line.start heightLine)
           = extent (ys vs)
        /\ Vector3.x (Line.finish heightLine) = Vector3.x (Line.start heightLine)
        /\ Vector3.z (Line.finish heightLine) = Vector3.z (Line.start heightLine)).
Proof.
  split; [reflexivity|]. split; [reflexivity|].
  intro Hne. unfold createMeasurementLines. rewrite (no_vertices_some vs Hne).
  cbv zeta. cbn [given]. rewrite setFromPoints_corners.
  eexists. eexists. eexists. split; [reflexivity|].
  cbn. repeat split.
Qed.

Lemma measurement_lines_span_witness :
  exists lengthLine widthLine heightLine : Line.t,
    createMeasurementLines (Some footSample) = [lengthLine; widthLine; heightLine]
    /\ Vector3.z (Line.finish lengthLine) - Vector3.z (Line.start lengthLine) = #260.
Proof.
  destruct (measurement_lines_span footSample) as (_ & _ & H).
  destruct (H ltac:(discriminate))
    as (lengthLine & widthLine & heightLine & Hlines & _ & _ & Hspan & _).
  exists lengthLine, widthLine, heightLine. split; [exact Hlines|].
  rewrite Hspan. num_eq.
Defined.

Lemma setVisible_same (b : bool) (l : Line.t) :
  Line.visible l = b -> Line.setVisible b l = l.
Proof. destruct l. cbn. now intros ->. Qed.

Lemma setVisible_twice (b c : bool) (l : Line.t) :
  Line.setVisible b (Line.setVisible c l) = Line.setVisible b l.
Proof. reflexivity. Qed.

(** X7.  [toggleMeasurementLines] does nothing and returns false when
    there are no lines.  Otherwise it returns the negation of the first
    line's visibility and afterwards every line has exactly the returned
    visibility, the number of lines being unchanged.  On lines that all
    share one visibility, such as freshly created ones, toggling twice
    gives the lines back. *)
Theorem toggle_measurement_lines (lines : list Line.t) :
  toggleMeasurementLines [] = ([], false)
  /\ (lines <> [] ->
      snd (toggleMeasurementLines lines)
      = negb (Line.visible (hd (createLine (Vector3.mk zero zero zero)
                                           (Vector3.mk zero zero zero) 0) lines))
      /\ Forall (fun l => Line.visible l = snd (toggleMeasurementLines lines))
                (fst (toggleMeasurementLines lines))
      /\ List.length (fst (toggleMeasurementLines lines)) = List.length lines)
  /\ ((exists b : bool, Forall (fun l => Line.visible l = b) lines) ->
      fst (toggleMeasurementLines (fst (toggleMeasurementLines lines))) = lines)
  /\ (forall vertices : option (list Vector3.t),
        fst (toggleMeasurementLines
               (fst (toggleMeasurementLines (createMeasurementLines vertices))))
        = createMeasurementLines vertices).
Proof.
  assert (Twice : forall ls : list Line.t,
            (exists b : bool, Forall (fun l => Line.visible l = b) ls) ->
            fst (toggleMeasurementLines (fst (toggleMeasurementLines ls))) = ls).
  { intros [|first rest] [b Hb]; [reflexivity|].
    cbn [toggleMeasurementLines fst map Line.setVisible Line.visible].
    rewrite negb_involutive. f_equal.
    - destruct first. reflexivity.
    - inversion Hb as [|? ? Hfirst Hrest]; subst.
      rewrite map_map.
      rewrite <- (map_id rest) at 2. apply map_ext_in.
      intros l Hl. rewrite setVisible_twice. apply setVisible_same.
      rewrite Forall_forall in Hrest. now apply Hrest. }
  split; [reflexivity|]. split; [|split].
  - intro Hne. destruct lines as [|first rest]; [congruence|].
    cbn [toggleMeasurementLines fst snd hd]. split; [reflexivity|]. split.
    + apply Forall_forall. intros l Hl. apply in_map_iff in Hl as (l' & <- & _).
      reflexivity.
    + apply length_map.
  - apply Twice.
  - intro vertices. apply Twice. exists true.
    unfold createMeasurementLines. destruct (no_vertices vertices); [constructor|].
    cbv zeta. repeat constructor.
Qed.

Lemma toggle_measurement_lines_witness :
  snd (toggleMeasurementLines (createMeasurementLines (Some footSample))) = false
  /\ fst (toggleMeasurementLines
            (fst (toggleMeasurementLines (createMeasurementLines (Some footSample)))))
     = createMeasurementLines (Some footSample).
Proof.
  destruct (toggle_measurement_lines (createMeasurementLines (Some footSample)))
    as (_ & Hone & Htwo & _).
  destruct (Hone ltac:(discriminate)) as (Hret & _).
  split.
  - rewrite Hret. reflexivity.
  - apply Htwo. exists true. repeat constructor.
Defined.

(* ================================================================== *)
(** * Further properties of the classifier, its copies and the QR record *)
(* ================================================================== *)

(** X8.  [analyzeFootType] answers "Analysis Pending" exactly when
    [calculateRatios] reports one of its two ratios as 'N/A' for the same
    three numbers. *)
Theorem pending_iff_ratio_missing (length width height : num) :
  analyzeFootType length width height = analysis_pending
  <-> lengthWidth (calculateRatios length width height) = None
      \/ heightLength (calculateRatios length width height) = None.
Proof.
  unfold analyzeFootType, calculateRatios.
  destruct (truthy length), (truthy width), (truthy height); cbn;
    try (split; [intros _; auto | reflexivity]).
  repeat match goal with |- context [if ?c then _ else _] => destruct c end;
    (split; [intro H; discriminate H | intros [H | H]; discriminate H]).
Qed.

Lemma zero_ratio (a : num) : truthy a = true -> zero / a = zero.
Proof.
  destruct a as [p| | |]; cbn; try discriminate; try reflexivity.
  intro H. apply negb_true_iff in H. rewrite H.
  unfold zero, dec. f_equal. unfold Qcdiv. ring.
Qed.

(** X9.  The three copies of the classifier agree, and the letter codes
    [createCompactReportData] writes agree with them whenever length,
    width and height are all truthy.  The codes are written as soon as
    length and width are truthy, though: with a height of 0 the classifier
    answers "Analysis Pending" while the compact record still carries a
    shape code and the arch code "F".  Without a truthy length and width
    no code is written. *)
Theorem compact_codes (now fileName : Report.jsstring) (c : Report.Combined) :
  (forall m : Measurements.t,
     Report.getFootTypeAnalysis m
     = analyzeFootType (Measurements.length m) (Measurements.width m) (Measurements.height m)
     /\ DualFootAnalyzer.analyzeFootType (Some m) = Report.getFootTypeAnalysis m)
  /\ (truthy (Report.c_length c) = true -> truthy (Report.c_width c) = true ->
      truthy (Report.c_height c) = true ->
      Report.t (Report.createCompactReportData now c fileName)
      = Some (shapeCode (footType (analyzeFootType (Report.c_length c) (Report.c_width c)
                                     (Report.c_height c))))
      /\ Report.a (Report.createCompactReportData now c fileName)
         = Some (archCode (archType (analyzeFootType (Report.c_length c) (Report.c_width c)
                                       (Report.c_height c)))))
  /\ (truthy (Report.c_length c) = true -> truthy (Report.c_width c) = true ->
      Report.c_height c = zero ->
      analyzeFootType (Report.c_length c) (Report.c_width c) (Report.c_height c)
      = analysis_pending
      /\ Report.t (Report.createCompactReportData now c fileName) <> None
      /\ Report.a (Report.createCompactReportData now c fileName) = Some "F")
  /\ (truthy (Report.c_length c) && truthy (Report.c_width c) = false ->
      Report.t (Report.createCompactReportData now c fileName) = None
      /\ Report.a (Report.createCompactReportData now c fileName) = None).
Proof.
  split; [intro m; split; reflexivity|].
  unfold Report.createCompactReportData, analyzeFootType. cbv zeta.
  cbn [Report.t Report.a].
  split; [|split].
  - intros -> -> ->. cbn [andb negb orb option_map fst snd].
    repeat match goal with |- context [if ?c then _ else _] => destruct c end;
      split; reflexivity.
  - intros Hl -> ->. rewrite Hl. cbn [andb negb orb option_map fst snd truthy].
    rewrite (zero_ratio _ Hl).
    split; [reflexivity|]. split; [discriminate | reflexivity].
  - intros ->. split; reflexivity.
Qed.

Lemma compact_codes_witness :
  Report.t (Report.createCompactReportData sampleStamp sampleCombined sampleName)
  = Some "N"
  /\ Report.a (Report.createCompactReportData [] (Report.mkCombined #250 #100 #0 "mm" "" None None) [])
     = Some "F"
  /\ Report.t (Report.createCompactReportData [] (Report.mkCombined #0 #100 #60 "mm" "" None None) [])
     = None.
Proof.
  refine (conj _ (conj _ _)).
  - destruct (compact_codes sampleStamp sampleName sampleCombined)
      as (_ & H & _).
    destruct (H eq_refl eq_refl eq_refl) as [Ht _]. rewrite Ht. reflexivity.
  - destruct (compact_codes [] [] (Report.mkCombined #250 #100 #0 "mm" "" None None))
      as (_ & _ & H & _).
    destruct (H eq_refl eq_refl eq_refl) as (_ & _ & Ha). exact Ha.
  - destruct (compact_codes [] [] (Report.mkCombined #0 #100 #60 "mm" "" None None))
      as (_ & _ & _ & H).
    destruct (H eq_refl) as [Ht _]. exact Ht.
Defined.

Lemma substring_from_start (s : Report.jsstring) (n : nat) :
  Report.substring s 0 n = firstn n s.
Proof.
  unfold Report.substring. cbn [Nat.min Nat.max skipn]. rewrite Nat.sub_0_r.
  destruct (Nat.le_gt_cases n (List.length s)) as [H | H].
  - now rewrite Nat.min_l.
  - rewrite Nat.min_r by lia. rewrite firstn_all. symmetry. apply firstn_all2. lia.
Qed.

Lemma substring_length (s : Report.jsstring) (n : nat) :
  (List.length (Report.substring s 0 n) <= n)%nat
  /\ (n <= List.length s -> List.length (Report.substring s 0 n) = n)%nat.
Proof.
  rewrite substring_from_start. split; [apply firstn_le_length|].
  intro H. rewrite length_firstn. lia.
Qed.

Lemma substring_begins (s : Report.jsstring) (n : nat) : begins (Report.substring s 0 n) s.
Proof.
  rewrite substring_from_start. exists (skipn n s). symmetry. apply firstn_skipn.
Qed.

Lemma substring_short (s : Report.jsstring) (n : nat) :
  (List.length s <= n)%nat -> Report.substring s 0 n = s.
Proof. intro H. rewrite substring_from_start. now apply firstn_all2. Qed.

(** [Math.round(x * 10) / 10] of a finite number. *)
Lemma round1_near (q : Qc) : exists r : Qc, Report.round1 (Fin q) = Fin r /\ tenth_near q r.
Proof.
  unfold Report.round1, dec. cbn [mul round].
  rewrite div_Fin by (apply Q2Qc_nonzero; reflexivity).
  eexists. split; [reflexivity|].
  set (n := Qfloor (q * Q2Qc 10 + half)%Qc).
  split.
  - exists n. field. apply Q2Qc_nonzero. reflexivity.
  - pose proof (Qfloor_le (q * Q2Qc 10 + half)%Qc) as Hle.
    pose proof (Qlt_floor (q * Q2Qc 10 + half)%Qc) as Hlt.
    fold n in Hle, Hlt.
    rewrite inject_Z_plus in Hlt. change (inject_Z 1) with 1%Q in Hlt.
    clearbody n.
    unfold Qcdiv, Qcinv.
    unfold Qclt, Qcle, Qcminus, Qcplus, Qcopp, Qcmult, half, Q2Qc in *; cbn [this] in *.
    repeat rewrite Qred_correct in *.
    assert (Hx : (inject_Z n * / 10 * 10 == inject_Z n)%Q) by field.
    set (x := (inject_Z n * / 10)%Q) in *. clearbody x.
    split; lra.
Qed.

Lemma compactDims_encoded (foot : Report.Dims) : encoded foot (Report.compactDims foot).
Proof.
  unfold encoded, tenth_of, Report.compactDims.
  cbn [Report.Foot.l Report.Foot.w Report.Foot.h].
  repeat split; intros q ->; apply round1_near.
Qed.



(* ================================================================== *)
(** * Further properties of the recommendations *)
(* ================================================================== *)

Lemma lt_max (a b k : num) :
  (max a b <? k) = true -> (a <? k) = true /\ (b <? k) = true.
Proof.
  destruct a as [p| | |], b as [q| | |], k as [r| | |]; cbn;
    try discriminate;
    try (destruct (Qcltb p q) eqn:E; cbn);
    try discriminate;
    intro H; split; try reflexivity; try assumption; qc_lra.
Qed.

Lemma lt_not_gt (a : num) (k k' : Qc) :
  (a <? Fin k) = true -> (k <= k')%Qc -> (a >? Fin k') = false.
Proof.
  destruct a as [p| | |]; cbn; try discriminate; try reflexivity.
  intros H Hk. qc_lra.
Qed.

Lemma gt_max_l (a b k : num) :
  (a >? k) = true -> notNaN b -> (max a b >? k) = true /\ notNaN (max a b).
Proof.
  unfold notNaN, gt.
  destruct a as [p| | |], b as [q| | |], k as [r| | |]; cbn;
    try discriminate;
    try (destruct (Qcltb p q) eqn:E; cbn);
    try discriminate;
    intros H _; split; try reflexivity; try assumption; qc_lra.
Qed.

Lemma gt_max_r (a b k : num) :
  (b >? k) = true -> notNaN a -> (max a b >? k) = true /\ notNaN (max a b).
Proof. rewrite max_comm. apply gt_max_l. Qed.

Lemma gt_not_lt (a : num) (k k' : Qc) :
  (a >? Fin k) = true -> (k' <= k)%Qc -> (a <? Fin k') = false.
Proof.
  unfold gt. destruct a as [p| | |]; cbn; try discriminate; try reflexivity.
  intros H Hk. qc_lra.
Qed.

Lemma max_keeps_number (a b : num) : notNaN a -> notNaN b -> notNaN (max a b).
Proof.
  unfold notNaN. destruct a as [p| | |], b as [q| | |]; cbn; try congruence.
  now destruct (Qcltb p q).
Qed.

Lemma abs_difference_finite (a b : num) : finite a -> finite b -> notNaN (abs (a - b)).
Proof. destruct a, b; cbn; try contradiction. reflexivity. Qed.

Lemma mentions_app (r : string) (l l' : list string) :
  mentions r (l ++ l') = mentions r l || mentions r l'.
Proof. apply existsb_app. Qed.

(** X11.  [getDualFootRecommendations] always returns between 6 and 12
    recommendations, and the list always ends with the two general ones. *)
Theorem recommendation_count (leftMeasurements rightMeasurements : Measurements.t) :
  (6 <= List.length (Report.getDualFootRecommendations leftMeasurements rightMeasurements) <= 12)%nat
  /\ exists specific : list string,
       Report.getDualFootRecommendations leftMeasurements rightMeasurements
       = (specific ++ Report.rec_general)%list.
Proof.
  unfold Report.getDualFootRecommendations. cbv zeta. split.
  - rewrite !length_app.
    repeat match goal with |- context [if ?c then _ else _] => destruct c end;
      cbn; lia.
  - eexists. rewrite !app_assoc. reflexivity.
Qed.



Lemma abs_sub_self (q : Qc) : abs (Fin q - Fin q) = zero.
Proof.
  change (Fin q - Fin q) with (Fin (q - q)). rewrite abs_Fin.
  replace (q - q)%Qc with 0%Qc by ring.
  now rewrite (Qcabs_pos 0) by apply Qcle_refl.
Qed.

Lemma average_of_same (a : num) : finite a -> (a + a) / #2 = a.
Proof.
  destruct a as [q| | |]; try contradiction. intros _.
  cbn [add]. unfold dec. rewrite div_Fin by (apply Q2Qc_nonzero; reflexivity).
  f_equal. apply Qc_is_canon.
  unfold Qcdiv, Qcmult, Qcinv, Qcplus, Q2Qc. cbn [this]. repeat rewrite Qred_correct.
  field.
Qed.

(** X13.  For two identical feet with finite non-zero dimensions the
    recommendations are exactly: the shape advice that matches the foot
    type [analyzeFootType] gives the foot, the arch advice that matches
    its arch type, the excellent-symmetry advice and the two general
    recommendations. *)
Theorem recommendations_for_identical_feet (m : Measurements.t) (length width height : Qc) :
  Measurements.length m = Fin length -> Measurements.width m = Fin width ->
  Measurements.height m = Fin height ->
  length <> 0%Qc -> width <> 0%Qc -> height <> 0%Qc ->
  Report.getDualFootRecommendations m m
  = (shapeAdvice (footType (analyzeFootType (Fin length) (Fin width) (Fin height)))
     ++ archAdvice (archType (analyzeFootType (Fin length) (Fin width) (Fin height)))
     ++ [Report.rec_excellent_symmetry]
     ++ Report.rec_general)%list.
Proof.
  intros Hl Hw Hh Nl Nw Nh.
  unfold Report.getDualFootRecommendations, analyzeFootType. cbv zeta.
  rewrite Hl, Hw, Hh. rewrite !abs_sub_self.
  rewrite !truthy_Fin by assumption. cbn [negb orb].
  rewrite !div_Fin by assumption.
  rewrite !average_of_same by exact I.
  change (zero >? #5) with false. change (zero >? #3) with false.
  change (zero >? #4) with false. change (max3 zero zero zero <? #2) with true.
  cbn [app].
  repeat match goal with |- context [if ?c then _ else _] => destruct c end;
    reflexivity.
Qed.

Lemma recommendations_for_identical_feet_witness :
  Report.getDualFootRecommendations (dims 254.3 98.7 67.2) (dims 254.3 98.7 67.2)
  = (Report.rec_normal ++ Report.rec_high_arch
     ++ [Report.rec_excellent_symmetry] ++ Report.rec_general)%list.
Proof.
  rewrite (recommendations_for_identical_feet (dims 254.3 98.7 67.2)
             (Q2Qc 254.3) (Q2Qc 98.7) (Q2Qc 67.2) eq_refl eq_refl eq_refl)
    by (apply Q2Qc_nonzero; reflexivity).
  reflexivity.
Defined.

(* ================================================================== *)
(** * Further properties of the dashboard *)
(* ================================================================== *)

Lemma classifier_total (length width height : num) :
  In (analyzeFootType length width height) classifier_outputs.
Proof.
  unfold analyzeFootType, classifier_outputs.
  destruct (negb (truthy length) || negb (truthy width) || negb (truthy height));
    [now left|].
  cbv zeta.
  repeat match goal with |- context [if ?c then _ else _] => destruct c end;
    cbn; auto 12.
Qed.

Lemma score_values (analysis : Analysis) :
  In (Dashboard.calculateFootScore analysis) [#75; #80; #85; #90; #95; #100].
Proof.
  unfold Dashboard.calculateFootScore. cbv zeta.
  repeat match goal with |- context [if ?c then _ else _] => destruct c end;
    match goal with
    | |- In ?s _ =>
        let v := eval vm_compute in s in change s with v
    end;
    cbn; auto 8.
Qed.

(** X14.  [calculateFootScore] gives a score from 75 to 100 for every
    analysis, whatever its texts.  On what [analyzeFootType] returns the
    score is at least 80, and it is 100 exactly for a normal foot type with
    a normal arch. *)
Theorem foot_score_range :
  (forall analysis : Analysis,
     (#75 <=? Dashboard.calculateFootScore analysis) = true
     /\ (Dashboard.calculateFootScore analysis <=? #100) = true)
  /\ (forall length width height : num,
        (#80 <=? Dashboard.calculateFootScore (analyzeFootType length width height)) = true
        /\ (Dashboard.calculateFootScore (analyzeFootType length width height) = #100
            <-> footType (analyzeFootType length width height) = "Normal Foot Type"
                /\ archType (analyzeFootType length width height) = "Normal Arch")).
Proof.
  split.
  - intro analysis. pose proof (score_values analysis) as H.
    repeat (destruct H as [<- | H]; [split; vm_compute; reflexivity|]).
    destruct H.
  - intros length width height.
    pose proof (classifier_total length width height) as H.
    unfold classifier_outputs in H. cbn in H.
    repeat (destruct H as [<- | H];
            [split; [vm_compute; reflexivity|];
             split;
             [intro E; vm_compute in E; first [discriminate E | split; reflexivity]
             |intros [E1 E2]; first [discriminate E1 | discriminate E2
                                    | vm_compute; reflexivity]]|]).
    destruct H.
Qed.

(** X15.  [updateAIAnalysis] shows an overall score from 75 to 100 and
    never the third summary, the one that asks for attention: that branch
    cannot be reached, whatever the two analyses are. *)
Theorem attention_summary_unreachable (leftAnalysis rightAnalysis : Analysis) :
  snd (Dashboard.updateAIAnalysis leftAnalysis rightAnalysis) <> Dashboard.summary_attention
  /\ (#75 <=? fst (Dashboard.updateAIAnalysis leftAnalysis rightAnalysis)) = true
  /\ (fst (Dashboard.updateAIAnalysis leftAnalysis rightAnalysis) <=? #100) = true.
Proof.
  unfold Dashboard.updateAIAnalysis. cbv zeta. cbn [fst snd].
  pose proof (score_values leftAnalysis) as Hl.
  pose proof (score_values rightAnalysis) as Hr.
  repeat (destruct Hl as [<- | Hl];
          [repeat (destruct Hr as [<- | Hr];
                   [split; [vm_compute; discriminate | split; vm_compute; reflexivity]|]);
           destruct Hr|]).
  destruct Hl.
Qed.

(** X16.  The tag shown for the arch ratio is the one that goes with the
    arch type of the classifier, for every record with finite non-zero
    dimensions; and the tag is the doubtful one exactly when the ratio is
    not a number. *)
Theorem arch_tag_agrees (m : Measurements.t) :
  (forall length width height : Qc,
     Measurements.length m = Fin length -> Measurements.width m = Fin width ->
     Measurements.height m = Fin height ->
     length <> 0%Qc -> width <> 0%Qc -> height <> 0%Qc ->
     Dashboard.archRatioTag m
     = archTag (archType (analyzeFootType (Fin length) (Fin width) (Fin height))))
  /\ (Dashboard.archRatioTag m = Dashboard.tag_check
      <-> is_nan (Measurements.height m / Measurements.length m) = true).
Proof.
  split.
  - intros length width height Hl Hw Hh Nl Nw Nh.
    unfold Dashboard.archRatioTag, Dashboard.getTagInfo, analyzeFootType. cbv zeta.
    rewrite Hl, Hh. rewrite !truthy_Fin by assumption. cbn [negb orb fst snd].
    rewrite !div_Fin by assumption.
    set (r := (height / length)%Qc). unfold ge, gt, dec. cbn [lt le].
    destruct (Qcltb (Q2Qc 0.25) r) eqn:Ehigh.
    + assert (E1 : Qcleb r (Q2Qc 0.25) = false) by qc_lra.
      assert (E2 : Qcltb r (Q2Qc 0.18) = false) by qc_lra.
      rewrite E1, E2. rewrite andb_false_r.
      repeat match goal with |- context [if ?c then _ else _] => destruct c end;
        reflexivity.
    + destruct (Qcltb r (Q2Qc 0.18)) eqn:Elow.
      * assert (E1 : Qcleb (Q2Qc 0.18) r = false) by qc_lra.
        rewrite E1. cbn [andb].
        repeat match goal with |- context [if ?c then _ else _] => destruct c end;
          reflexivity.
      * assert (E1 : Qcleb (Q2Qc 0.18) r = true) by qc_lra.
        assert (E2 : Qcleb r (Q2Qc 0.25) = true) by qc_lra.
        rewrite E1, E2. cbn [andb].
        repeat match goal with |- context [if ?c then _ else _] => destruct c end;
          reflexivity.
  - unfold Dashboard.archRatioTag, Dashboard.getTagInfo. cbv zeta. cbn [fst snd].
    destruct (Measurements.height m / Measurements.length m) as [r| | |].
    + unfold ge, gt, dec. cbn [lt le is_nan].
      destruct (Qcleb (Q2Qc 0.18) r) eqn:E1; destruct (Qcleb r (Q2Qc 0.25)) eqn:E2;
        cbn [andb]; [split; discriminate| | |];
        (destruct (Qcltb r (Q2Qc 0.18)) eqn:E3; [split; discriminate|]);
        (destruct (Qcltb (Q2Qc 0.25) r) eqn:E4; [split; discriminate|]);
        exfalso; qc_lra.
    + cbn. split; discriminate.
    + cbn. split; discriminate.
    + cbn. split; reflexivity.
Qed.

Lemma arch_tag_agrees_witness :
  Dashboard.archRatioTag (dims 254.3 98.7 67.2) = Dashboard.tag_high.
Proof.
  destruct (arch_tag_agrees (dims 254.3 98.7 67.2)) as [H _].
  rewrite (H (Q2Qc 254.3) (Q2Qc 98.7) (Q2Qc 67.2) eq_refl eq_refl eq_refl)
    by (apply Q2Qc_nonzero; reflexivity).
  reflexivity.
Defined.

(** X17.  [changeStep] keeps the step between 1 and 3 for every target
    that is a number: a target outside the range changes nothing, and a
    target of 1, 2 or 3 also selects the measurement, comparison or report
    tab.  The guard does not stop NaN, which is stored as the step. *)
Theorem change_step_range (this : Dashboard.Steps) (targetStep : num) :
  (notNaN targetStep -> validStep (Dashboard.currentStep this) ->
   validStep (Dashboard.currentStep (Dashboard.changeStep this targetStep)))
  /\ (validStep targetStep ->
      Dashboard.currentStep (Dashboard.changeStep this targetStep) = targetStep)
  /\ ((targetStep <? #1) = true \/ (targetStep >? #3) = true ->
      Dashboard.changeStep this targetStep = this)
  /\ Dashboard.changeStep this #1 = Dashboard.mkSteps #1 "measurement"
  /\ Dashboard.changeStep this #2 = Dashboard.mkSteps #2 "comparison"
  /\ Dashboard.changeStep this #3 = Dashboard.mkSteps #3 "report"
  /\ Dashboard.changeStep this NaN = Dashboard.mkSteps NaN (Dashboard.activeTab this).
Proof.
  refine (conj _ (conj _ (conj _ (conj _ (conj _ (conj _ _)))))); try reflexivity.
  - unfold notNaN, validStep, Dashboard.changeStep.
    intros Hn Hv.
    destruct (targetStep <? #1) eqn:E1; [exact Hv|].
    destruct (targetStep >? #3) eqn:E3; [exact Hv|].
    cbn [orb Dashboard.currentStep].
    destruct targetStep as [q| | |]; try discriminate.
    unfold gt, dec in *. cbn [lt le] in *. split; qc_lra.
  - unfold validStep, Dashboard.changeStep. intros [H1 H3].
    destruct targetStep as [q| | |]; try discriminate.
    unfold gt, dec in *. cbn [lt le] in *.
    assert (E1 : Qcltb q (Q2Qc 1) = false) by qc_lra.
    assert (E3 : Qcltb (Q2Qc 3) q = false) by qc_lra.
    rewrite E1, E3. reflexivity.
  - unfold Dashboard.changeStep. intros [-> | ->]; [reflexivity|].
    now rewrite orb_true_r.
Qed.

Lemma change_step_range_witness :
  validStep (Dashboard.currentStep
               (Dashboard.changeStep (Dashboard.mkSteps #3 "report") (#3 + #1)))
  /\ Dashboard.changeStep (Dashboard.mkSteps #1 "measurement") (#1 - #1)
     = Dashboard.mkSteps #1 "measurement".
Proof.
  split.
  - destruct (change_step_range (Dashboard.mkSteps #3 "report") (#3 + #1)) as [H _].
    exact (H eq_refl (conj eq_refl eq_refl)).
  - destruct (change_step_range (Dashboard.mkSteps #1 "measurement") (#1 - #1))
      as (_ & _ & H & _).
    exact (H (or_introl eq_refl)).
Defined.

(** X18.  After [setFootVisibility] the last mode decides alone: an earlier
    call leaves no trace.  With both models loaded the left foot is hidden
    only by the mode 'right' and the right foot only by the mode 'left', so
    no mode hides both feet and an unknown mode shows both. *)
Theorem foot_visibility (this : SceneManager.t) (earlier visibilityMode : string) :
  SceneManager.setFootVisibility (SceneManager.setFootVisibility this earlier) visibilityMode
  = SceneManager.setFootVisibility this visibilityMode
  /\ (SceneManager.leftFootModel this <> None -> SceneManager.rightFootModel this <> None ->
      exists leftFootModel rightFootModel : SceneManager.FootModel,
        SceneManager.leftFootModel (SceneManager.setFootVisibility this visibilityMode)
        = Some leftFootModel
        /\ SceneManager.rightFootModel (SceneManager.setFootVisibility this visibilityMode)
           = Some rightFootModel
        /\ SceneManager.visible leftFootModel = negb (visibilityMode =? "right")%string
        /\ SceneManager.visible rightFootModel = negb (visibilityMode =? "left")%string
        /\ SceneManager.visible leftFootModel || SceneManager.visible rightFootModel = true).
Proof.
  unfold SceneManager.setFootVisibility, SceneManager.applyFootVisibility.
  destruct this as [mode [l|] [r|]]; cbn.
  - split.
    + destruct (earlier =? "left")%string; [|destruct (earlier =? "right")%string];
        cbn; reflexivity.
    + intros _ _.
      destruct (visibilityMode =? "left")%string eqn:El.
      * apply String.eqb_eq in El. subst visibilityMode.
        eexists. eexists. repeat split.
      * destruct (visibilityMode =? "right")%string;
          eexists; eexists; repeat split.
  - split; [reflexivity | intros _ H; now elim H].
  - split; [reflexivity | intros H; now elim H].
  - split; [reflexivity | intros H; now elim H].
Qed.

Lemma foot_visibility_witness :
  exists leftFootModel rightFootModel : SceneManager.FootModel,
    SceneManager.leftFootModel
      (SceneManager.setFootVisibility
         (SceneManager.mk "both" (Some (SceneManager.mkFootModel true))
            (Some (SceneManager.mkFootModel true))) "left")
    = Some leftFootModel
    /\ SceneManager.rightFootModel
         (SceneManager.setFootVisibility
            (SceneManager.mk "both" (Some (SceneManager.mkFootModel true))
               (Some (SceneManager.mkFootModel true))) "left")
       = Some rightFootModel
    /\ SceneManager.visible leftFootModel = true
    /\ SceneManager.visible rightFootModel = false.
Proof.
  destruct (foot_visibility
              (SceneManager.mk "both" (Some (SceneManager.mkFootModel true))
                 (Some (SceneManager.mkFootModel true))) "both" "left")
    as [_ H].
  destruct (H ltac:(discriminate) ltac:(discriminate)) as (l & r & Hl & Hr & Vl & Vr & _).
  exists l, r. exact (conj Hl (conj Hr (conj Vl Vr))).
Defined.

(* ================================================================== *)
(** * Further properties of the bilateral comparison *)
(* ================================================================== *)

Lemma abs_sub_swap (a b : num) : abs (a - b) = abs (b - a).
Proof.
  destruct a as [p| | |], b as [q| | |]; try reflexivity.
  change (Fin p - Fin q) with (Fin (p - q)).
  change (Fin q - Fin p) with (Fin (q - p)).
  rewrite !abs_Fin. f_equal. apply Qcabs_Qcminus.
Qed.

(** X19.  The comparison does not depend on which foot is called left:
    both copies give the same differences, symmetries and overall score
    when the two records are exchanged. *)
Theorem comparison_exchange (left right : Measurements.t) :
  UIController.updateComparisonData left right
  = UIController.updateComparisonData right left
  /\ ReportGenerator.addComparisonSection left right
     = ReportGenerator.addComparisonSection right left.
Proof.
  unfold UIController.updateComparisonData, ReportGenerator.addComparisonSection.
  cbv zeta.
  rewrite (abs_sub_swap (Measurements.length left)),
    (abs_sub_swap (Measurements.width left)),
    (abs_sub_swap (Measurements.height left)).
  rewrite (max_comm (Measurements.length left)),
    (max_comm (Measurements.width left)),
    (max_comm (Measurements.height left)).
  split; reflexivity.
Qed.

(** The symmetry of one axis of two positive values lies above 0 and at
    most at 100, and at 90 or more when the difference is at most a tenth
    of the larger value. *)
Lemma axis_symmetry_range (a b : Qc) :
  (0 < a)%Qc -> (0 < b)%Qc ->
  Qcmax a b <> 0%Qc
  /\ (0 < (1 - Qcabs (a - b) / Qcmax a b) * Q2Qc 100)%Qc
  /\ ((1 - Qcabs (a - b) / Qcmax a b) * Q2Qc 100 <= Q2Qc 100)%Qc
  /\ ((Qcabs (a - b) * Q2Qc 10 <= Qcmax a b)%Qc ->
      (Q2Qc 90 <= (1 - Qcabs (a - b) / Qcmax a b) * Q2Qc 100)%Qc).
Proof.
  intros Ha Hb.
  assert (HM : (0 < Qcmax a b)%Qc).
  { unfold Qcmax. now destruct (Qcltb a b). }
  assert (Hd0 : (0 <= Qcabs (a - b))%Qc) by apply Qcabs_nonneg.
  assert (HdM : (Qcabs (a - b) < Qcmax a b)%Qc).
  { unfold Qcmax. apply Qcabs_case; intro Hs; destruct (Qcltb a b) eqn:E; qc_lra. }
  assert (Hne : Qcmax a b <> 0%Qc).
  { intro E. rewrite E in HM. qc_lra. }
  pose proof (test_field (Qcabs (a - b)) (Qcmax a b) Hne) as Ht.
  set (d := Qcabs (a - b)) in *. set (M := Qcmax a b) in *.
  set (t := (d / M)%Qc) in *.
  assert (Ht0 : (0 <= t)%Qc).
  { apply (Qcmult_lt_0_le_reg_r _ _ M HM). rewrite Ht.
    replace (0 * M)%Qc with 0%Qc by ring. exact Hd0. }
  assert (Ht1 : (t < 1)%Qc).
  { apply Qcnot_le_lt. intro Hle.
    apply (Qcmult_le_compat_r _ _ M) in Hle; [|now apply Qclt_le_weak].
    rewrite Ht in Hle. replace (1 * M)%Qc with M in Hle by ring.
    apply (Qcle_not_lt _ _ Hle HdM). }
  clearbody t d M.
  split; [exact Hne|]. split; [qc_lra|]. split; [qc_lra|].
  intro Htol.
  assert (Ht10 : (t <= Q2Qc 0.1)%Qc).
  { apply (Qcmult_lt_0_le_reg_r _ _ M HM). rewrite Ht. qc_lra. }
  qc_lra.
Qed.

Lemma comparison_finite (left right : Measurements.t) (ll lw lh rl rw rh : Qc) :
  Measurements.length left = Fin ll -> Measurements.length right = Fin rl ->
  Measurements.width left = Fin lw -> Measurements.width right = Fin rw ->
  Measurements.height left = Fin lh -> Measurements.height right = Fin rh ->
  Qcmax ll rl <> 0%Qc -> Qcmax lw rw <> 0%Qc -> Qcmax lh rh <> 0%Qc ->
  overallSymmetry (UIController.updateComparisonData left right)
  = round (Fin (((1 - Qcabs (ll - rl) / Qcmax ll rl) * Q2Qc 100
                 + (1 - Qcabs (lw - rw) / Qcmax lw rw) * Q2Qc 100
                 + (1 - Qcabs (lh - rh) / Qcmax lh rh) * Q2Qc 100)
                / Q2Qc 3)).
Proof.
  intros Hll Hrl Hlw Hrw Hlh Hrh Ml Mw Mh.
  unfold UIController.updateComparisonData.
  rewrite Hll, Hrl, Hlw, Hrw, Hlh, Hrh. cbv zeta. cbn [overallSymmetry].
  change (Fin ll - Fin rl) with (Fin (ll - rl)).
  change (Fin lw - Fin rw) with (Fin (lw - rw)).
  change (Fin lh - Fin rh) with (Fin (lh - rh)).
  rewrite !abs_Fin, !max_Fin, !div_Fin by assumption.
  unfold dec.
  change (Fin (Q2Qc 1) - Fin ?a) with (Fin (1 - a)).
  cbn [mul add].
  rewrite div_Fin by (apply Q2Qc_nonzero; reflexivity).
  reflexivity.
Qed.

(** An integer within one half of a value between two integers lies
    between them. *)
Lemma integer_between (n lo hi : Z) (x : Qc) :
  (x - half < Q2Qc (inject_Z n))%Qc -> (Q2Qc (inject_Z n) <= x + half)%Qc ->
  (Q2Qc (inject_Z lo) <= x)%Qc -> (x <= Q2Qc (inject_Z hi))%Qc ->
  (lo <= n <= hi)%Z.
Proof.
  unfold Qclt, Qcle, Qcminus, Qcplus, Qcopp, half, Q2Qc. cbn [this].
  repeat rewrite Qred_correct. intros H1 H2 H3 H4.
  split.
  - destruct (Z_le_gt_dec lo n) as [|Hgt]; [assumption|exfalso].
    assert (Hz : (n + 1 <= lo)%Z) by lia.
    rewrite Zle_Qle, inject_Z_plus in Hz. change (inject_Z 1) with 1%Q in Hz. lra.
  - destruct (Z_le_gt_dec n hi) as [|Hgt]; [assumption|exfalso].
    assert (Hz : (hi + 1 <= n)%Z) by lia.
    rewrite Zle_Qle, inject_Z_plus in Hz. change (inject_Z 1) with 1%Q in Hz. lra.
Qed.

Lemma mean_of_three (lo hi a b c : Qc) :
  (lo <= a)%Qc -> (lo <= b)%Qc -> (lo <= c)%Qc ->
  (a <= hi)%Qc -> (b <= hi)%Qc -> (c <= hi)%Qc ->
  (lo <= (a + b + c) / Q2Qc 3)%Qc /\ ((a + b + c) / Q2Qc 3 <= hi)%Qc.
Proof.
  intros.
  assert (E : (((a + b + c) / Q2Qc 3) * Q2Qc 3)%Qc = (a + b + c)%Qc)
    by (apply test_field, Q2Qc_nonzero; reflexivity).
  set (m := ((a + b + c) / Q2Qc 3)%Qc) in *. clearbody m.
  assert (E' : ((m * Q2Qc 3)%Qc == (a + b + c)%Qc)%Q) by (rewrite E; reflexivity).
  clear E. split; qc_lra.
Qed.

Lemma ge_of_Z (n k : Z) :
  (k <= n)%Z -> (Fin (Q2Qc (inject_Z n)) >=? Fin (Q2Qc (inject_Z k))) = true.
Proof.
  intro H. unfold ge. cbn [le]. apply Qcleb_le.
  unfold Qcle, Q2Qc. cbn [this]. rewrite !Qred_correct.
  rewrite <- Zle_Qle. exact H.
Qed.

(** X20.  For two feet whose dimensions are all finite and positive the
    overall symmetry score is an integer from 0 to 100, in both copies of
    the comparison. *)
Theorem overall_symmetry_range (left right : Measurements.t) (ll lw lh rl rw rh : Qc) :
  Measurements.length left = Fin ll -> Measurements.length right = Fin rl ->
  Measurements.width left = Fin lw -> Measurements.width right = Fin rw ->
  Measurements.height left = Fin lh -> Measurements.height right = Fin rh ->
  (0 < ll)%Qc -> (0 < rl)%Qc -> (0 < lw)%Qc -> (0 < rw)%Qc -> (0 < lh)%Qc -> (0 < rh)%Qc ->
  exists n : Z,
    (0 <= n <= 100)%Z
    /\ overallSymmetry (UIController.updateComparisonData left right)
       = Fin (Q2Qc (inject_Z n))
    /\ overallSymmetry (ReportGenerator.addComparisonSection left right)
       = Fin (Q2Qc (inject_Z n)).
Proof.
  intros Hll Hrl Hlw Hrw Hlh Hrh Pll Prl Plw Prw Plh Prh.
  destruct (axis_symmetry_range ll rl Pll Prl) as (Ml & Ll & Ul & _).
  destruct (axis_symmetry_range lw rw Plw Prw) as (Mw & Lw & Uw & _).
  destruct (axis_symmetry_range lh rh Plh Prh) as (Mh & Lh & Uh & _).
  change (ReportGenerator.addComparisonSection left right)
    with (UIController.updateComparisonData left right).
  rewrite (comparison_finite left right ll lw lh rl rw rh) by assumption.
  match goal with |- context [round (Fin ?m)] =>
    destruct (round_nearest m) as (n & E & H1 & H2);
    destruct (mean_of_three 0%Qc (Q2Qc 100) _ _ _
                (Qclt_le_weak _ _ Ll) (Qclt_le_weak _ _ Lw) (Qclt_le_weak _ _ Lh)
                Ul Uw Uh) as [Lo Hi]
  end.
  exists n. split; [|split; exact E].
  exact (integer_between n 0 100 _ H1 H2 Lo Hi).
Qed.

Lemma overall_symmetry_range_witness :
  exists n : Z,
    (0 <= n <= 100)%Z
    /\ overallSymmetry (UIController.updateComparisonData
                          (dims 254.3 98.7 67.2) (dims 256.1 99.2 68.1))
       = Fin (Q2Qc (inject_Z n))
    /\ overallSymmetry (ReportGenerator.addComparisonSection
                          (dims 254.3 98.7 67.2) (dims 256.1 99.2 68.1))
       = Fin (Q2Qc (inject_Z n)).
Proof.
  apply (overall_symmetry_range (dims 254.3 98.7 67.2) (dims 256.1 99.2 68.1)
           (Q2Qc 254.3) (Q2Qc 98.7) (Q2Qc 67.2) (Q2Qc 256.1) (Q2Qc 99.2) (Q2Qc 68.1)
           eq_refl eq_refl eq_refl eq_refl eq_refl eq_refl);
    reflexivity.
Defined.

(** X21.  When on every axis the two feet differ by at most a tenth of the
    larger of their positive values, the report and the dashboard both
    call the symmetry excellent.  When both lengths are 0 the score is no
    number and both show the worst verdict, even for identical feet. *)
Theorem symmetry_verdicts :
  (forall (left right : Measurements.t) (ll lw lh rl rw rh : Qc),
     Measurements.length left = Fin ll -> Measurements.length right = Fin rl ->
     Measurements.width left = Fin lw -> Measurements.width right = Fin rw ->
     Measurements.height left = Fin lh -> Measurements.height right = Fin rh ->
     (0 < ll)%Qc -> (0 < rl)%Qc -> (0 < lw)%Qc -> (0 < rw)%Qc -> (0 < lh)%Qc -> (0 < rh)%Qc ->
     (Qcabs (ll - rl) * Q2Qc 10 <= Qcmax ll rl)%Qc ->
     (Qcabs (lw - rw) * Q2Qc 10 <= Qcmax lw rw)%Qc ->
     (Qcabs (lh - rh) * Q2Qc 10 <= Qcmax lh rh)%Qc ->
     Report.symmetryEvaluation
       (overallSymmetry (ReportGenerator.addComparisonSection left right))
     = "Excellent bilateral symmetry"
     /\ Dashboard.comparisonSummary
          (overallSymmetry (UIController.updateComparisonData left right))
        = Dashboard.comparison_excellent)
  /\ (forall left right : Measurements.t,
        Measurements.length left = zero -> Measurements.length right = zero ->
        Report.symmetryEvaluation
          (overallSymmetry (ReportGenerator.addComparisonSection left right))
        = "Significant asymmetry - professional consultation recommended"
        /\ Dashboard.comparisonSummary
             (overallSymmetry (UIController.updateComparisonData left right))
           = Dashboard.comparison_significant).
Proof.
  split.
  - intros left right ll lw lh rl rw rh Hll Hrl Hlw Hrw Hlh Hrh
      Pll Prl Plw Prw Plh Prh Tl Tw Th.
    destruct (axis_symmetry_range ll rl Pll Prl) as (Ml & _ & Ul & Ll).
    destruct (axis_symmetry_range lw rw Plw Prw) as (Mw & _ & Uw & Lw).
    destruct (axis_symmetry_range lh rh Plh Prh) as (Mh & _ & Uh & Lh).
    change (ReportGenerator.addComparisonSection left right)
      with (UIController.updateComparisonData left right).
    rewrite (comparison_finite left right ll lw lh rl rw rh) by assumption.
    match goal with |- context [round (Fin ?m)] =>
      destruct (round_nearest m) as (n & E & H1 & H2);
      destruct (mean_of_three (Q2Qc 90) (Q2Qc 100) _ _ _
                  (Ll Tl) (Lw Tw) (Lh Th) Ul Uw Uh) as [Lo Hi]
    end.
    destruct (integer_between n 90 100 _ H1 H2 Lo Hi) as [Hn _].
    rewrite E.
    unfold Report.symmetryEvaluation, Dashboard.comparisonSummary.
    change (#90) with (Fin (Q2Qc (inject_Z 90))).
    rewrite (ge_of_Z n 90 Hn). split; reflexivity.
  - intros left right Hl Hr.
    unfold UIController.updateComparisonData, ReportGenerator.addComparisonSection.
    rewrite Hl, Hr. split; reflexivity.
Qed.

Lemma symmetry_verdicts_witness :
  Report.symmetryEvaluation
    (overallSymmetry (ReportGenerator.addComparisonSection
                        (dims 254.3 98.7 67.2) (dims 256.1 99.2 68.1)))
  = "Excellent bilateral symmetry"
  /\ Dashboard.comparisonSummary
       (overallSymmetry (UIController.updateComparisonData (dims 0 100 65) (dims 0 100 65)))
     = Dashboard.comparison_significant.
Proof.
  destruct symmetry_verdicts as [Hgood Hzero].
  split.
  - apply (Hgood (dims 254.3 98.7 67.2) (dims 256.1 99.2 68.1)
             (Q2Qc 254.3) (Q2Qc 98.7) (Q2Qc 67.2) (Q2Qc 256.1) (Q2Qc 99.2) (Q2Qc 68.1)
             eq_refl eq_refl eq_refl eq_refl eq_refl eq_refl);
      vm_compute; solve [reflexivity | discriminate].
  - apply (Hzero (dims 0 100 65) (dims 0 100 65) eq_refl eq_refl).
Defined.

(* ================================================================== *)
(** * Further properties of the combined record *)
(* ================================================================== *)

Lemma average_in_range (lo hi : Qc) (a b : num) :
  (a >=? Fin lo) && (a <=? Fin hi) = true ->
  (b >=? Fin lo) && (b <=? Fin hi) = true ->
  ((a + b) / #2 >=? Fin lo) && ((a + b) / #2 <=? Fin hi) = true.
Proof.
  intros Ha Hb.
  apply andb_true_iff in Ha as [Ha1 Ha2]. apply andb_true_iff in Hb as [Hb1 Hb2].
  destruct a as [p| | |], b as [q| | |]; try discriminate.
  cbn [add]. unfold dec.
  rewrite div_Fin by (apply Q2Qc_nonzero; reflexivity).
  unfold ge in *. cbn [le] in *.
  assert (E : (((p + q) / Q2Qc 2) * Q2Qc 2)%Qc = (p + q)%Qc)
    by (apply test_field, Q2Qc_nonzero; reflexivity).
  set (m := ((p + q) / Q2Qc 2)%Qc) in *. clearbody m.
  assert (E' : ((m * Q2Qc 2)%Qc == (p + q)%Qc)%Q) by (rewrite E; reflexivity).
  clear E. apply andb_true_iff. split; qc_lra.
Qed.

(** X22.  When both feet pass [validateMeasurements], so do the averaged
    dimensions that [createCombinedFootData] puts in the combined record. *)
Theorem combined_record_valid (leftMeasurements rightMeasurements : Measurements.t) :
  validateMeasurements (Measurements.length leftMeasurements)
    (Measurements.width leftMeasurements) (Measurements.height leftMeasurements) = true ->
  validateMeasurements (Measurements.length rightMeasurements)
    (Measurements.width rightMeasurements) (Measurements.height rightMeasurements) = true ->
  validateMeasurements
    (Report.c_length (Analyzer.createCombinedFootData leftMeasurements rightMeasurements))
    (Report.c_width (Analyzer.createCombinedFootData leftMeasurements rightMeasurements))
    (Report.c_height (Analyzer.createCombinedFootData leftMeasurements rightMeasurements))
  = true.
Proof.
  unfold validateMeasurements, Analyzer.createCombinedFootData. cbv zeta.
  cbn [Report.c_length Report.c_width Report.c_height].
  intros Hl Hr.
  apply andb_true_iff in Hl as [Hl Hlh]. apply andb_true_iff in Hl as [Hll Hlw].
  apply andb_true_iff in Hr as [Hr Hrh]. apply andb_true_iff in Hr as [Hrl Hrw].
  apply andb_true_iff; split; [apply andb_true_iff; split|].
  - exact (average_in_range (Q2Qc 50) (Q2Qc 500) _ _ Hll Hrl).
  - exact (average_in_range (Q2Qc 20) (Q2Qc 200) _ _ Hlw Hrw).
  - exact (average_in_range (Q2Qc 10) (Q2Qc 150) _ _ Hlh Hrh).
Qed.

Lemma combined_record_valid_witness :
  validateMeasurements (Report.c_length sampleCombined) (Report.c_width sampleCombined)
    (Report.c_height sampleCombined) = true.
Proof.
  apply (combined_record_valid (dims 254.3 98.7 67.2) (dims 256.1 99.2 68.1));
    reflexivity.
Defined.
(* ================================================================== *)
(** * The arithmetic of doubles *)
(* ================================================================== *)

(** Facts about the format that the statements on doubles rest on, proved
    from the specification of the primitive operations. *)

Section SpecFacts.
Variables prec emax : Z.
Hypothesis prec_pos : (0 < prec)%Z.

Local Abbreviation emin := (SpecFloat.emin prec emax).
Local Abbreviation fexp := (SpecFloat.fexp prec emax).
Local Abbreviation bounded := (SpecFloat.bounded prec emax).
Local Abbreviation SFsub := (SpecFloat.SFsub prec emax).
Local Abbreviation SFmul := (SpecFloat.SFmul prec emax).
Local Abbreviation binary_round := (SpecFloat.binary_round prec emax).
Local Abbreviation binary_round_aux := (SpecFloat.binary_round_aux prec emax).
Local Abbreviation binary_normalize := (SpecFloat.binary_normalize prec emax).
Local Abbreviation shr_fexp := (SpecFloat.shr_fexp prec emax).

Open Scope Z_scope.

Lemma SFcompare_antisym (a b : spec_float) :
  SFcompare b a = option_map CompOpp (SFcompare a b).
Proof.
  destruct a as [sa|sa| |sa ma ea], b as [sb|sb| |sb mb eb]; cbn;
    try destruct sa; try destruct sb; try reflexivity;
    rewrite (Z.compare_antisym ea eb);
    destruct (ea ?= eb); cbn; try reflexivity;
    rewrite !Pos.compare_cont_spec; cbn;
    rewrite (Pos.compare_antisym ma mb);
    now destruct (ma ?= mb)%positive.
Qed.


Lemma SFcompare_rank (a b : spec_float) :
  SFnot_nan a -> SFnot_nan b ->
  match SFcompare a b with
  | Some Lt => lex_lt (SFrank a) (SFrank b)
  | Some Gt => lex_lt (SFrank b) (SFrank a)
  | Some Eq => SFrank a = SFrank b
  | None => False
  end.
Proof.
  destruct a as [sa|sa| |sa ma ea], b as [sb|sb| |sb mb eb]; cbn;
    try contradiction; intros _ _;
    try destruct sa; try destruct sb; cbn; try lia; try reflexivity;
    destruct (Z.compare_spec ea eb); cbn; try lia;
    rewrite Pos.compare_cont_spec; cbn;
    destruct (Pos.compare_spec ma mb); cbn; subst; try reflexivity; lia.
Qed.

Lemma SFcompare_nan (a b : spec_float) :
  SFcompare a b = None <-> ~ (SFnot_nan a /\ SFnot_nan b).
Proof.
  destruct a as [sa|sa| |sa ma ea], b as [sb|sb| |sb mb eb]; cbn;
    try destruct sa; try destruct sb; cbn; split; intro H; try discriminate;
    try tauto; try reflexivity.
Qed.


(** ** Shifting a mantissa to the right *)

Lemma iter_pos_invariant {A : Type} (P : A -> Prop) (f : A -> A) :
  (forall x, P x -> P (f x)) -> forall p x, P x -> P (SpecFloat.iter_pos f p x).
Proof.
  intros Hf p. induction p as [p IH|p IH|]; intros x Hx; cbn; auto.
Qed.

Lemma shr_1_nonneg (mrs : shr_record) : 0 <= shr_m mrs -> 0 <= shr_m (shr_1 mrs).
Proof.
  destruct mrs as [m r s]. cbn.
  destruct m as [|[p|p|]|[p|p|]]; cbn; lia.
Qed.

Lemma shr_1_digits (mrs : shr_record) (m : positive) :
  shr_m mrs = Zpos m -> 1 < Zpos (digits2_pos m) ->
  exists m', shr_m (shr_1 mrs) = Zpos m'
             /\ Zpos (digits2_pos m') = Zpos (digits2_pos m) - 1.
Proof.
  destruct mrs as [mm r s]. cbn [shr_m]. intros -> Hd.
  destruct m as [p|p|]; cbn [shr_1 shr_m digits2_pos] in *;
    rewrite ?Pos2Z.inj_succ in *;
    [exists p|exists p|lia]; split; try reflexivity; lia.
Qed.

Lemma iter_shr_1_digits (p : positive) :
  forall (mrs : shr_record) (m : positive),
    shr_m mrs = Zpos m -> Zpos p < Zpos (digits2_pos m) ->
    exists m', shr_m (SpecFloat.iter_pos shr_1 p mrs) = Zpos m'
               /\ Zpos (digits2_pos m') = Zpos (digits2_pos m) - Zpos p.
Proof.
  induction p as [p IH|p IH|]; intros mrs m Hm Hd; cbn [SpecFloat.iter_pos].
  - destruct (shr_1_digits mrs m Hm) as (m1 & H1 & D1); [lia|].
    destruct (IH _ m1 H1) as (m2 & H2 & D2); [lia|].
    destruct (IH _ m2 H2) as (m3 & H3 & D3); [lia|].
    exists m3. split; [exact H3 | lia].
  - destruct (IH _ m Hm) as (m2 & H2 & D2); [lia|].
    destruct (IH _ m2 H2) as (m3 & H3 & D3); [lia|].
    exists m3. split; [exact H3 | lia].
  - destruct (shr_1_digits mrs m Hm) as (m1 & H1 & D1); [lia|].
    exists m1. split; [exact H1 | lia].
Qed.

Lemma shr_record_of_loc_m (m : Z) (l : location) : shr_m (shr_record_of_loc m l) = m.
Proof. destruct l as [|[ | | ]]; reflexivity. Qed.

Lemma fexp_ge_emin (e : Z) : emin <= fexp e.
Proof. unfold SpecFloat.fexp. lia. Qed.

(** A positive mantissa whose exponent is not below [emin] stays positive. *)
Lemma shr_fexp_pos (m : positive) (e : Z) (l : location) :
  emin <= e ->
  exists m', shr_m (fst (shr_fexp (Zpos m) e l)) = Zpos m'
             /\ emin <= snd (shr_fexp (Zpos m) e l).
Proof.
  intro He. unfold SpecFloat.shr_fexp, shr. cbn [Zdigits2].
  destruct (fexp (Zpos (digits2_pos m) + e) - e) as [|p|p] eqn:En; cbn [fst snd].
  - exists m. split; [apply shr_record_of_loc_m | exact He].
  - destruct (iter_shr_1_digits p (shr_record_of_loc (Zpos m) l) m) as (m' & H & _).
    + apply shr_record_of_loc_m.
    + unfold SpecFloat.fexp in En. lia.
    + exists m'. split; [exact H|]. rewrite <- En.
      replace (e + (fexp (Zpos (digits2_pos m) + e) - e)) with (fexp (Zpos (digits2_pos m) + e)) by lia.
      apply fexp_ge_emin.
  - exists m. split; [apply shr_record_of_loc_m | exact He].
Qed.

Lemma shr_fexp_nonneg (m e : Z) (l : location) :
  0 <= m -> 0 <= shr_m (fst (shr_fexp m e l)).
Proof.
  intro Hm. unfold SpecFloat.shr_fexp, shr.
  destruct (fexp (Zdigits2 m + e) - e) as [|p|p]; cbn [fst];
    try (now rewrite shr_record_of_loc_m).
  apply iter_pos_invariant; [apply shr_1_nonneg | now rewrite shr_record_of_loc_m].
Qed.

Lemma round_nearest_even_pos (m : positive) (l : location) :
  exists m', round_nearest_even (Zpos m) l = Zpos m'.
Proof.
  destruct l as [|[ | | ]]; cbn [round_nearest_even]; try (now exists m).
  - destruct (Z.even (Zpos m)); [now exists m | now exists (m + 1)%positive].
  - now exists (m + 1)%positive.
Qed.

Lemma round_nearest_even_nonneg (m : Z) (l : location) :
  0 <= m -> 0 <= round_nearest_even m l.
Proof.
  intro Hm. destruct l as [|[ | | ]]; cbn [round_nearest_even]; try assumption.
  - destruct (Z.even m); lia.
  - lia.
Qed.

Lemma binary_round_aux_signed (s : bool) (m : positive) (e : Z) (l : location) :
  emin <= e -> SFsigned s (binary_round_aux s (Zpos m) e l).
Proof.
  intro He. unfold SpecFloat.binary_round_aux.
  destruct (shr_fexp_pos m e l He) as (m1 & H1 & E1).
  destruct (shr_fexp (Zpos m) e l) as [mrs1 e1]. cbn [fst snd] in *.
  rewrite H1.
  destruct (round_nearest_even_pos m1 (loc_of_shr_record mrs1)) as (m2 & H2).
  rewrite H2.
  destruct (shr_fexp_pos m2 e1 loc_Exact E1) as (m3 & H3 & E3).
  destruct (shr_fexp (Zpos m2) e1 loc_Exact) as [mrs3 e3]. cbn [fst snd] in *.
  rewrite H3.
  destruct (e3 <=? emax - prec); [left; now exists m3, e3 | now right].
Qed.

Lemma binary_round_aux_not_nan (s : bool) (m e : Z) (l : location) :
  0 <= m -> binary_round_aux s m e l <> S754_nan.
Proof.
  intro Hm. unfold SpecFloat.binary_round_aux.
  pose proof (shr_fexp_nonneg m e l Hm) as H1.
  destruct (shr_fexp m e l) as [mrs1 e1]. cbn [fst] in H1.
  pose proof (round_nearest_even_nonneg _ (loc_of_shr_record mrs1) H1) as H2.
  pose proof (shr_fexp_nonneg _ e1 loc_Exact H2) as H3.
  destruct (shr_fexp (round_nearest_even (shr_m mrs1) (loc_of_shr_record mrs1)) e1 loc_Exact)
    as [mrs3 e3]. cbn [fst] in H3.
  destruct (shr_m mrs3) as [|p|p]; try discriminate; [|lia].
  destruct (e3 <=? emax - prec); discriminate.
Qed.

Lemma shl_align_exponent (m : positive) (e e' : Z) :
  snd (shl_align m e e') = Z.min e e'.
Proof.
  unfold shl_align. destruct (e' - e) as [|p|p] eqn:E; cbn [snd]; lia.
Qed.

Lemma binary_round_signed (s : bool) (m : positive) (e : Z) :
  emin <= e -> SFsigned s (binary_round s m e).
Proof.
  intro He. unfold SpecFloat.binary_round.
  pose proof (shl_align_exponent m e (fexp (Zpos (digits2_pos m) + e))) as Hs.
  pose proof (fexp_ge_emin (Zpos (digits2_pos m) + e)) as Hf.
  destruct (shl_align m e (fexp (Zpos (digits2_pos m) + e))) as [mz ez].
  cbn [snd] in Hs. apply binary_round_aux_signed. lia.
Qed.


(** ** The order of canonical numbers is the order of their values *)

Lemma digits2_bounds (m : positive) :
  2 ^ (Zpos (digits2_pos m) - 1) <= Zpos m < 2 ^ Zpos (digits2_pos m).
Proof.
  induction m as [p IH|p IH|]; cbn [digits2_pos]; rewrite ?Pos2Z.inj_succ.
  - replace (Z.succ (Zpos (digits2_pos p)) - 1) with (Z.succ (Zpos (digits2_pos p) - 1)) by lia.
    rewrite !Z.pow_succ_r by lia. lia.
  - replace (Z.succ (Zpos (digits2_pos p)) - 1) with (Z.succ (Zpos (digits2_pos p) - 1)) by lia.
    rewrite !Z.pow_succ_r by lia. lia.
  - cbn. lia.
Qed.

Lemma iter_xO_value (m d : positive) : Zpos (Pos.iter xO m d) = Zpos m * 2 ^ Zpos d.
Proof.
  induction d as [|d IH] using Pos.peano_ind.
  - cbn. lia.
  - rewrite Pos.iter_succ, Pos2Z.inj_succ, Z.pow_succ_r by lia.
    rewrite Pos2Z.inj_xO, IH. lia.
Qed.

Lemma shl_align_value (m : positive) (e ez : Z) :
  ez <= e -> Zpos (fst (shl_align m e ez)) = Zpos m * 2 ^ (e - ez).
Proof.
  intro H. unfold shl_align.
  destruct (ez - e) as [|p|p] eqn:E; cbn [fst].
  - replace (e - ez) with 0 by lia. cbn. lia.
  - lia.
  - rewrite iter_xO_value. f_equal. f_equal. lia.
Qed.

Lemma bounded_canonical (m : positive) (e : Z) :
  bounded m e = true ->
  Zpos (digits2_pos m) <= prec /\ emin <= e
  /\ (Zpos (digits2_pos m) = prec \/ e = emin).
Proof.
  unfold SpecFloat.bounded, canonical_mantissa, SpecFloat.fexp.
  intro H. apply andb_true_iff in H as [H _]. apply Z.eqb_eq in H. lia.
Qed.

Lemma pow2_pos (n : Z) : 0 <= n -> 0 < 2 ^ n.
Proof. intro H. apply Z.pow_pos_nonneg; lia. Qed.

Lemma aligned_lt (ma mb : positive) (ea eb : Z) :
  bounded ma ea = true -> bounded mb eb = true -> ea < eb ->
  Zpos ma < Zpos mb * 2 ^ (eb - ea).
Proof.
  intros Ha Hb Hlt.
  apply bounded_canonical in Ha as (Da & Ea & _).
  apply bounded_canonical in Hb as (Db & Eb & Cb).
  assert (Hd : Zpos (digits2_pos mb) = prec) by lia.
  pose proof (digits2_bounds ma) as [_ Ua].
  pose proof (digits2_bounds mb) as [Lb _].
  rewrite Hd in Lb.
  assert (U : 2 ^ Zpos (digits2_pos ma) <= 2 ^ prec) by (apply Z.pow_le_mono_r; lia).
  assert (P : 2 ^ prec = 2 * 2 ^ (prec - 1)).
  { replace prec with (Z.succ (prec - 1)) at 1 by lia. apply Z.pow_succ_r. lia. }
  assert (K : 2 ^ 1 <= 2 ^ (eb - ea)) by (apply Z.pow_le_mono_r; lia).
  change (2 ^ 1) with 2 in K.
  pose proof (pow2_pos (prec - 1) ltac:(lia)) as Q.
  nia.
Qed.

Lemma aligned_compare (ma mb : positive) (ea eb : Z) :
  bounded ma ea = true -> bounded mb eb = true ->
  (Zpos ma * 2 ^ (ea - Z.min ea eb) ?= Zpos mb * 2 ^ (eb - Z.min ea eb))
  = match ea ?= eb with
    | Lt => Lt
    | Gt => Gt
    | Eq => Pos.compare_cont Eq ma mb
    end.
Proof.
  intros Ha Hb. destruct (Z.compare_spec ea eb) as [E|E|E].
  - subst eb. rewrite Z.min_id, Z.sub_diag. cbn [Z.pow].
    rewrite !Z.mul_1_r, Pos.compare_cont_spec. cbn [Z.compare].
    now destruct (ma ?= mb)%positive.
  - rewrite Z.min_l by lia. rewrite Z.sub_diag. cbn [Z.pow]. rewrite Z.mul_1_r.
    apply Z.compare_lt_iff. now apply aligned_lt.
  - rewrite Z.min_r by lia. rewrite Z.sub_diag. cbn [Z.pow]. rewrite Z.mul_1_r.
    apply Z.compare_gt_iff. now apply aligned_lt.
Qed.

Lemma SFcompare_aligned (sa sb : bool) (ma mb : positive) (ea eb : Z) :
  bounded ma ea = true -> bounded mb eb = true ->
  SFcompare (S754_finite sa ma ea) (S754_finite sb mb eb)
  = Some (cond_Zopp sa (Zpos ma * 2 ^ (ea - Z.min ea eb))
          ?= cond_Zopp sb (Zpos mb * 2 ^ (eb - Z.min ea eb))).
Proof.
  intros Ha Hb. pose proof (aligned_compare ma mb ea eb Ha Hb) as H.
  assert (Pa : 0 < Zpos ma * 2 ^ (ea - Z.min ea eb)).
  { apply Z.mul_pos_pos; [lia | apply pow2_pos; lia]. }
  assert (Pb : 0 < Zpos mb * 2 ^ (eb - Z.min ea eb)).
  { apply Z.mul_pos_pos; [lia | apply pow2_pos; lia]. }
  set (A := Zpos ma * 2 ^ (ea - Z.min ea eb)) in *.
  set (B := Zpos mb * 2 ^ (eb - Z.min ea eb)) in *.
  cbn [SFcompare]. f_equal.
  destruct sa, sb; cbn [cond_Zopp].
  - rewrite Z.compare_opp, (Z.compare_antisym A B), H.
    now destruct (ea ?= eb).
  - symmetry. apply Z.compare_lt_iff. lia.
  - symmetry. apply Z.compare_gt_iff. lia.
  - rewrite H. reflexivity.
Qed.

(** [0 < a - b] exactly when [b < a]: the difference of two different
    numbers is never rounded to zero. *)
Lemma SFsub_positive (a b : spec_float) :
  SpecFloat.valid_binary prec emax a = true ->
  SpecFloat.valid_binary prec emax b = true ->
  SFltb (S754_zero false) (SFsub a b) = SFltb b a.
Proof.
  destruct a as [sa|sa| |sa ma ea], b as [sb|sb| |sb mb eb]; cbn [SpecFloat.valid_binary];
    intros Va Vb;
    try solve [repeat match goal with s : bool |- _ => destruct s end; reflexivity].
  unfold SpecFloat.SFsub, SFltb.
  rewrite (SFcompare_aligned sb sa mb ma eb ea Vb Va).
  pose proof (bounded_canonical ma ea Va) as (_ & Ea & _).
  pose proof (bounded_canonical mb eb Vb) as (_ & Eb & _).
  rewrite !shl_align_value by lia.
  rewrite (Z.min_comm eb ea).
  set (A := cond_Zopp sa (Zpos ma * 2 ^ (ea - Z.min ea eb))).
  set (B := cond_Zopp sb (Zpos mb * 2 ^ (eb - Z.min ea eb))).
  unfold SpecFloat.binary_normalize.
  destruct (A - B) as [|p|p] eqn:D.
  - cbn. destruct (Z.compare_spec B A); try reflexivity; lia.
  - destruct (binary_round_signed false p (Z.min ea eb)) as [(m & e & ->) | ->]; [lia| |];
      cbn; destruct (Z.compare_spec B A); try reflexivity; lia.
  - destruct (binary_round_signed true p (Z.min ea eb)) as [(m & e & ->) | ->]; [lia| |];
      cbn; destruct (Z.compare_spec B A); try reflexivity; lia.
Qed.

(** The difference of two finite numbers is a number. *)
Lemma SFsub_finite (sa sb : bool) (ma mb : positive) (ea eb : Z) :
  SFsub (S754_finite sa ma ea) (S754_finite sb mb eb) <> S754_nan.
Proof.
  unfold SpecFloat.SFsub, SpecFloat.binary_normalize, SpecFloat.binary_round.
  match goal with |- context [(?a - ?b)%Z] => destruct (a - b)%Z as [|p|p] end;
    try discriminate;
    match goal with |- context [shl_align ?m ?e ?e'] => destruct (shl_align m e e') end;
    apply binary_round_aux_not_nan; lia.
Qed.

Lemma SFmul_finite (sa sb : bool) (ma mb : positive) (ea eb : Z) :
  SFmul (S754_finite sa ma ea) (S754_finite sb mb eb) <> S754_nan.
Proof. cbn [SpecFloat.SFmul]. apply binary_round_aux_not_nan. lia. Qed.

End SpecFacts.


(** ** Doubles *)

Section DoubleFacts.
Import Double.
Local Open Scope float_scope.

Lemma prec_positive : (0 < prec)%Z.
Proof. reflexivity. Qed.

Lemma SFcompare_refl (a : spec_float) : SFnot_nan a -> SFcompare a a = Some Eq.
Proof.
  destruct a as [s|s| |s m e]; cbn; try contradiction; intros _;
    try destruct s; try reflexivity;
    rewrite Z.compare_refl, Pos.compare_cont_spec, Pos.compare_refl; reflexivity.
Qed.

Lemma is_nan_spec (a : float) : PrimFloat.is_nan a = true <-> Prim2SF a = S754_nan.
Proof.
  unfold PrimFloat.is_nan. rewrite FloatAxioms.eqb_spec. unfold SFeqb.
  destruct (Prim2SF a) as [s|s| |s m e] eqn:E.
  - rewrite SFcompare_refl by exact I. split; discriminate.
  - rewrite SFcompare_refl by exact I. split; discriminate.
  - cbn. split; reflexivity.
  - rewrite SFcompare_refl by exact I. split; discriminate.
Qed.

Lemma notNaN_spec (a : float) : Double.notNaN a <-> SFnot_nan (Prim2SF a).
Proof.
  unfold Double.notNaN. pose proof (is_nan_spec a) as H.
  destruct (PrimFloat.is_nan a), (Prim2SF a); cbn; intuition congruence.
Qed.

(** What a double is, by the shape of its specification. *)
Lemma double_cases (a : float) :
  match Prim2SF a with
  | S754_nan => a = nan
  | S754_zero s => a = if s then (-0) else 0
  | S754_infinity s => a = if s then neg_infinity else infinity
  | S754_finite _ _ _ =>
      PrimFloat.is_nan a = false /\ is_infinity a = false /\ (a =? 0) = false
  end.
Proof.
  destruct (Prim2SF a) as [s|s| |s m e] eqn:E.
  - apply Prim2SF_inj. rewrite E. now destruct s.
  - apply Prim2SF_inj. rewrite E. now destruct s.
  - apply Prim2SF_inj. now rewrite E.
  - split; [|split].
    + pose proof (is_nan_spec a) as H. destruct (PrimFloat.is_nan a); [|reflexivity].
      destruct H as [H _]. rewrite E in H. now specialize (H eq_refl).
    + unfold is_infinity. rewrite FloatAxioms.eqb_spec, abs_spec, E. reflexivity.
    + rewrite FloatAxioms.eqb_spec, E. now destruct s.
Qed.

Lemma finite_spec (a : float) :
  Double.finite a <->
  (exists s, Prim2SF a = S754_zero s) \/ (exists s m e, Prim2SF a = S754_finite s m e).
Proof.
  unfold Double.finite, is_finite. pose proof (double_cases a) as H.
  destruct (Prim2SF a) as [s|s| |s m e] eqn:E.
  - subst a. split; [intros _; left; now exists s | intros _; now destruct s].
  - subst a. split; [destruct s; discriminate | intros [[? ?]|(? & ? & ? & ?)]; discriminate].
  - subst a. split; [discriminate | intros [[? ?]|(? & ? & ? & ?)]; discriminate].
  - destruct H as (-> & -> & _). split; [intros _; right; now exists s, m, e | reflexivity].
Qed.

Lemma double_finite_notNaN (a : float) : Double.finite a -> Double.notNaN a.
Proof.
  unfold Double.finite, is_finite, Double.notNaN.
  destruct (PrimFloat.is_nan a); [discriminate | reflexivity].
Qed.

Lemma double_lt_le (a b : float) : (a <? b) = true -> (a <=? b) = true.
Proof.
  rewrite FloatAxioms.ltb_spec, FloatAxioms.leb_spec. unfold SFltb, SFleb.
  now destruct (SFcompare (Prim2SF a) (Prim2SF b)) as [[ | | ]|].
Qed.

Lemma double_le_notNaN (a b : float) :
  (a <=? b) = true -> Double.notNaN a /\ Double.notNaN b.
Proof.
  rewrite FloatAxioms.leb_spec, !notNaN_spec. unfold SFleb.
  destruct (SFcompare (Prim2SF a) (Prim2SF b)) eqn:E; [|discriminate].
  intros _. destruct (Prim2SF a), (Prim2SF b); cbn in *; try discriminate; auto.
Qed.

Lemma double_not_lt_le (a b : float) :
  Double.notNaN a -> Double.notNaN b -> (b <? a) = false -> (a <=? b) = true.
Proof.
  rewrite !notNaN_spec, FloatAxioms.ltb_spec, FloatAxioms.leb_spec. unfold SFltb, SFleb.
  intros Ha Hb. rewrite (SFcompare_antisym (Prim2SF a) (Prim2SF b)).
  pose proof (SFcompare_rank _ _ Ha Hb) as H.
  destruct (SFcompare (Prim2SF a) (Prim2SF b)) as [[ | | ]|]; cbn; try reflexivity;
    try discriminate. contradiction.
Qed.

Lemma double_le_not_lt (a b : float) : (a <=? b) = true -> (b <? a) = false.
Proof.
  rewrite FloatAxioms.ltb_spec, FloatAxioms.leb_spec. unfold SFltb, SFleb.
  rewrite (SFcompare_antisym (Prim2SF a) (Prim2SF b)).
  now destruct (SFcompare (Prim2SF a) (Prim2SF b)) as [[ | | ]|].
Qed.

Lemma double_le_refl (a : float) : Double.notNaN a -> (a <=? a) = true.
Proof.
  rewrite notNaN_spec, FloatAxioms.leb_spec. unfold SFleb. intro H.
  now rewrite SFcompare_refl.
Qed.

Lemma double_lt_irrefl (a : float) : (a <? a) = false.
Proof.
  rewrite FloatAxioms.ltb_spec. unfold SFltb.
  destruct (Prim2SF a) as [s|s| |s m e] eqn:E; try (rewrite SFcompare_refl by exact I);
    reflexivity.
Qed.

Lemma lex_lt_trans (p q r : Z * Z * Z) : lex_lt p q -> lex_lt q r -> lex_lt p r.
Proof.
  destruct p as [[a b] c], q as [[a' b'] c'], r as [[a'' b''] c'']. cbn. lia.
Qed.

Lemma lex_lt_irrefl (p : Z * Z * Z) : ~ lex_lt p p.
Proof. destruct p as [[a b] c]. cbn. lia. Qed.

Lemma double_le_trans (a b c : float) :
  (a <=? b) = true -> (b <=? c) = true -> (a <=? c) = true.
Proof.
  intros H1 H2.
  destruct (double_le_notNaN _ _ H1) as [Na Nb].
  destruct (double_le_notNaN _ _ H2) as [_ Nc].
  revert H1 H2. rewrite !notNaN_spec in *. rewrite !FloatAxioms.leb_spec. unfold SFleb.
  pose proof (SFcompare_rank _ _ Na Nb) as Hab.
  pose proof (SFcompare_rank _ _ Nb Nc) as Hbc.
  pose proof (SFcompare_rank _ _ Na Nc) as Hac.
  destruct (SFcompare (Prim2SF a) (Prim2SF b)) as [[ | | ]|]; try discriminate;
    destruct (SFcompare (Prim2SF b) (Prim2SF c)) as [[ | | ]|]; try discriminate;
    destruct (SFcompare (Prim2SF a) (Prim2SF c)) as [[ | | ]|]; try reflexivity;
    try contradiction; intros _ _; exfalso.
  - rewrite Hab, Hbc in Hac. now apply lex_lt_irrefl in Hac.
  - rewrite Hab in Hac. apply (lex_lt_irrefl (SFrank (Prim2SF c))).
    eapply lex_lt_trans; eassumption.
  - rewrite <- Hbc in Hac. apply (lex_lt_irrefl (SFrank (Prim2SF a))).
    eapply lex_lt_trans; eassumption.
  - apply (lex_lt_irrefl (SFrank (Prim2SF a))).
    eapply lex_lt_trans; [|eassumption]. eapply lex_lt_trans; eassumption.
Qed.

(** [a - b > 0] exactly when [a > b], for all doubles. *)
Lemma double_gt_sub_zero (a b : float) : (0 <? a - b) = (b <? a).
Proof.
  rewrite !FloatAxioms.ltb_spec, FloatAxioms.sub_spec.
  change (Prim2SF 0) with (S754_zero false).
  apply (SFsub_positive prec emax prec_positive); apply Prim2SF_valid.
Qed.

End DoubleFacts.

(* ================================================================== *)
(** * The landmark estimators on doubles *)
(* ================================================================== *)

Section DoubleEstimators.
Import Double.
Local Open Scope float_scope.

Lemma double_sort_insert_perm (a : float) (l : list float) :
  Permutation (sort_insert ascending a l) (a :: l).
Proof.
  induction l as [|b t IH]; cbn [sort_insert].
  - reflexivity.
  - destruct (ascending a b >? 0).
    + apply perm_trans with (b :: a :: t); [now constructor | apply perm_swap].
    + reflexivity.
Qed.

Lemma double_sort_perm (l : list float) : Permutation (sort ascending l) l.
Proof.
  induction l as [|a t IH]; cbn [sort fold_right].
  - reflexivity.
  - eapply perm_trans; [apply double_sort_insert_perm | now constructor].
Qed.

Lemma ascending_gt (a b : float) : (ascending a b >? 0) = (b <? a).
Proof. unfold ascending, gt. apply double_gt_sub_zero. Qed.

Lemma double_sort_insert_sorted (a : float) (l : list float) :
  notNaN a -> Forall notNaN l -> Sorted leR l -> Sorted leR (sort_insert ascending a l).
Proof.
  intros Ha Hl Hs. induction l as [|b t IH]; cbn [sort_insert].
  - repeat constructor.
  - inversion Hl as [|? ? Hb Ht]; subst.
    inversion Hs as [|? ? Hst Hhd]; subst.
    rewrite ascending_gt.
    destruct (b <? a) eqn:E.
    + constructor; [now apply IH|].
      destruct t as [|c t']; cbn [sort_insert].
      * constructor. now apply double_lt_le.
      * rewrite ascending_gt. destruct (c <? a); constructor.
        -- now inversion Hhd.
        -- now apply double_lt_le.
    + constructor; [assumption|]. constructor. now apply double_not_lt_le.
Qed.

Lemma double_sort_sorted (l : list float) :
  Forall notNaN l -> StronglySorted leR (sort ascending l).
Proof.
  intro Hl. apply Sorted_StronglySorted.
  - intros a b c. apply double_le_trans.
  - induction Hl as [|a t Ha Ht IH]; cbn [sort fold_right].
    + constructor.
    + apply double_sort_insert_sorted; [assumption| |assumption].
      eapply Permutation_Forall; [|exact Ht].
      symmetry. apply double_sort_perm.
Qed.

Lemma double_sorted_first (l : list float) :
  StronglySorted leR l -> l <> [] -> Forall notNaN l -> is_min (idx l 0) l.
Proof.
  intros Hs Hne Hl. destruct l as [|a t]; [congruence|].
  inversion Hs; subst. inversion Hl; subst. split; cbn.
  - now left.
  - constructor; [now apply double_le_refl | assumption].
Qed.

Lemma double_sorted_last (l : list float) :
  StronglySorted leR l -> l <> [] -> Forall notNaN l ->
  is_max (idx l (List.length l - 1)) l.
Proof.
  induction l as [|a t IH]; intros Hs Hne Hl; [congruence|].
  inversion Hs as [|? ? Hst Hat]; subst. inversion Hl as [|? ? Ha Ht]; subst.
  destruct t as [|b t'].
  - split; cbn; [now left|]. constructor; [now apply double_le_refl | constructor].
  - destruct (IH Hst ltac:(discriminate) Ht) as [Hin Hall].
    replace (idx (a :: b :: t') (List.length (a :: b :: t') - 1))
      with (idx (b :: t') (List.length (b :: t') - 1))
      by (cbn; now rewrite Nat.sub_0_r).
    split.
    + now right.
    + constructor; [|assumption].
      rewrite Forall_forall in Hat. now apply Hat.
Qed.

Lemma double_is_min_perm (m : float) (l l' : list float) :
  Permutation l l' -> is_min m l -> is_min m l'.
Proof.
  intros P [Hin Hall]. split.
  - eapply Permutation_in; eassumption.
  - eapply Permutation_Forall; eassumption.
Qed.

Lemma double_is_max_perm (m : float) (l l' : list float) :
  Permutation l l' -> is_max m l -> is_max m l'.
Proof.
  intros P [Hin Hall]. split.
  - eapply Permutation_in; eassumption.
  - eapply Permutation_Forall; eassumption.
Qed.

(** On an array without NaN the first element of the sorted copy is a
    least element of the array, the last one a greatest element. *)
Lemma double_sorted_ends (l : list float) :
  l <> [] -> Forall notNaN l ->
  is_min (idx (sort ascending l) 0) l
  /\ is_max (idx (sort ascending l) (List.length (sort ascending l) - 1)) l.
Proof.
  intros Hne Hl.
  assert (Hne' : sort ascending l <> []).
  { intro E. apply Hne. apply Permutation_nil. rewrite <- E. apply double_sort_perm. }
  assert (Hl' : Forall notNaN (sort ascending l)).
  { eapply Permutation_Forall; [|exact Hl]. symmetry. apply double_sort_perm. }
  split.
  - eapply double_is_min_perm; [apply double_sort_perm|].
    apply double_sorted_first; auto using double_sort_sorted.
  - eapply double_is_max_perm; [apply double_sort_perm|].
    apply double_sorted_last; auto using double_sort_sorted.
Qed.

(** A list that holds NaN has no greatest and no least element. *)
Lemma nan_has_no_extremum (l : list float) :
  In nan l -> (forall m, ~ is_max m l) /\ (forall m, ~ is_min m l).
Proof.
  intro Hin. split; intros m [_ Hall]; rewrite Forall_forall in Hall;
    specialize (Hall nan Hin); apply double_le_notNaN in Hall;
    destruct Hall as [H1 H2]; discriminate.
Qed.

Lemma double_numeric_xs (vs : list Vector3.t) : numeric vs -> Forall notNaN (xs vs).
Proof.
  intro H. apply Forall_map. eapply Forall_impl; [|exact H]. now intros v (Hx & _ & _).
Qed.

Lemma double_numeric_ys (vs : list Vector3.t) : numeric vs -> Forall notNaN (ys vs).
Proof.
  intro H. apply Forall_map. eapply Forall_impl; [|exact H]. now intros v (_ & Hy & _).
Qed.

Lemma double_numeric_zs (vs : list Vector3.t) : numeric vs -> Forall notNaN (zs vs).
Proof.
  intro H. apply Forall_map. eapply Forall_impl; [|exact H]. now intros v (_ & _ & Hz).
Qed.

Lemma double_numeric_filter (f : Vector3.t -> bool) (vs : list Vector3.t) :
  numeric vs -> numeric (filter f vs).
Proof.
  unfold numeric. rewrite !Forall_forall. intros H v Hv.
  apply filter_In in Hv as [Hv _]. now apply H.
Qed.

Lemma length_is_zero (A : Type) (l : list A) : (List.length l =? 0)%nat = true <-> l = [].
Proof. destruct l; cbn; split; congruence. Qed.

Lemma map_not_nil (A B : Type) (f : A -> B) (l : list A) : l <> [] -> map f l <> [].
Proof. destruct l; cbn; congruence. Qed.

Lemma double_no_vertices (vs : list Vector3.t) : vs <> [] -> no_vertices (Some vs) = false.
Proof. destruct vs; cbn; congruence. Qed.

(** The sorted ends of one coordinate of a non-empty list of vertices. *)
Lemma ends_of (coordinate : Vector3.t -> float) (vs : list Vector3.t) :
  vs <> [] -> Forall notNaN (map coordinate vs) ->
  is_min (idx (sort ascending (map coordinate vs)) 0) (map coordinate vs)
  /\ is_max (idx (sort ascending (map coordinate vs))
                 (List.length (sort ascending (map coordinate vs)) - 1))
            (map coordinate vs).
Proof. intros Hne Hn. apply double_sorted_ends; [now apply map_not_nil | exact Hn]. Qed.




(** The thresholds are the doubles the code computes: with lowest y -3 and
    highest y 19 the sole threshold is 0.2999999999999998, so the vertex at
    y = 0.3 is not a sole vertex and the length is 0. *)
Lemma measureFootLength_rounding :
  let vs := [vertex 0 (-3) 0; vertex 0 19 1; vertex 0 0.3 100] in
  (-3 + (19 - (-3)) * 0.15 = 0.29999999999999982)%float
  /\ filter (fun v => Vector3.y v <=? -3 + (19 - (-3)) * 0.15) vs = [vertex 0 (-3) 0]
  /\ Double.measureFootLength (Some vs) None = 0.
Proof. cbv zeta. repeat split; vm_compute; reflexivity. Qed.




(** With z from -2.9 to 4.1 the ball band starts at 1.3000000000000003:
    the vertex at z = 1.3 is outside, the only ball vertex is the one at
    z = 2, and the width is 0. *)
Lemma measureFootWidth_rounding :
  let vs := [vertex 0 0 (-2.9); vertex 0 0 4.1; vertex 10 0 1.3; vertex 20 0 2] in
  (-2.9 + (4.1 - (-2.9)) * 0.6 = 1.3000000000000003)%float
  /\ filter (fun v => (Vector3.z v >=? -2.9 + (4.1 - (-2.9)) * 0.6)
                      && (Vector3.z v <=? -2.9 + (4.1 - (-2.9)) * 0.75)
                      && (Vector3.y v <=? 0 + (0 - 0) * 0.2)) vs = [vertex 20 0 2]
  /\ Double.measureFootWidth (Some vs) None = 0.
Proof. cbv zeta. repeat split; vm_compute; reflexivity. Qed.




(** With z from 0 to 90 the instep band ends at 90 * 0.7, which is
    62.99999999999999: the vertex at z = 63 is outside, the only instep
    vertex is the one at z = 40, and the height is 10. *)
Lemma measureFootHeight_rounding :
  let vs := [vertex 0 0 0; vertex 0 0 90; vertex 0 10 40; vertex 0 50 63] in
  (0 + (90 - 0) * 0.7 = 62.999999999999993)%float
  /\ filter (fun v => (Vector3.z v >=? 0 + (90 - 0) * 0.3)
                      && (Vector3.z v <=? 0 + (90 - 0) * 0.7)) vs = [vertex 0 10 40]
  /\ Double.measureFootHeight (Some vs) None = 10.
Proof. cbv zeta. repeat split; vm_compute; reflexivity. Qed.


End DoubleEstimators.

(* ================================================================== *)
(** * The fallback on doubles *)
(* ================================================================== *)

Section DoubleFallback.
Import Double.
Local Open Scope float_scope.

Lemma lt_nan_l (a : float) : (nan <? a) = false.
Proof. rewrite FloatAxioms.ltb_spec. reflexivity. Qed.

Lemma lt_nan_r (a : float) : (a <? nan) = false.
Proof.
  rewrite FloatAxioms.ltb_spec. change (Prim2SF nan) with S754_nan.
  unfold SFltb. now destruct (Prim2SF a).
Qed.

Lemma finite_lt_infinity (a : float) : finite a -> (a <? infinity) = true.
Proof.
  rewrite finite_spec, FloatAxioms.ltb_spec. change (Prim2SF infinity) with (S754_infinity false).
  intros [[s ->] | (s & m & e & ->)]; reflexivity.
Qed.

Lemma finite_gt_neg_infinity (a : float) : finite a -> (neg_infinity <? a) = true.
Proof.
  rewrite finite_spec, FloatAxioms.ltb_spec.
  change (Prim2SF neg_infinity) with (S754_infinity true).
  intros [[s ->] | (s & m & e & ->)]; reflexivity.
Qed.

(** The difference of two finite doubles is a number. *)
Lemma sub_finite (a b : float) : finite a -> finite b -> notNaN (a - b).
Proof.
  rewrite !finite_spec, notNaN_spec, FloatAxioms.sub_spec. unfold SF64sub.
  intros [[sa ->] | (sa & ma & ea & ->)] [[sb ->] | (sb & mb & eb & ->)].
  - cbn. now destruct sa, sb.
  - exact I.
  - exact I.
  - pose proof (SFsub_finite prec emax sa sb ma mb ea eb) as H.
    destruct (SpecFloat.SFsub prec emax (S754_finite sa ma ea) (S754_finite sb mb eb));
      try exact I. congruence.
Qed.

(** A finite double minus itself is +0. *)
Lemma sub_self (a : float) : finite a -> a - a = 0.
Proof.
  rewrite finite_spec. intro H. apply Prim2SF_inj. rewrite FloatAxioms.sub_spec.
  change (Prim2SF 0) with (S754_zero false). unfold SF64sub.
  destruct H as [[s ->] | (s & m & e & ->)].
  - now destruct s.
  - unfold SpecFloat.SFsub. rewrite Z.sub_diag. reflexivity.
Qed.

(** A number times 1000 or 1 is a number. *)
Lemma mul_scale (a k : float) :
  notNaN a -> k = 1000 \/ k = 1 -> notNaN (a * k).
Proof.
  rewrite !notNaN_spec, FloatAxioms.mul_spec. unfold SF64mul.
  intros Ha Hk.
  assert (Fk : exists s m e, Prim2SF k = S754_finite s m e).
  { destruct Hk as [-> | ->]; vm_compute; eauto. }
  destruct Fk as (sk & mk & ek & ->).
  destruct (Prim2SF a) as [s|s| |s m e]; try exact I; try contradiction.
  pose proof (SFmul_finite prec emax s sk m mk e ek) as H.
  destruct (SpecFloat.SFmul prec emax (S754_finite s m e) (S754_finite sk mk ek));
    try exact I. congruence.
Qed.

(** [Math.max(x, k)] is at least [k] unless it is NaN. *)
Lemma double_max_floor (x k : float) : notNaN x -> notNaN k -> (k <=? max x k) = true.
Proof.
  intros Hx Hk. unfold max. unfold notNaN in *. rewrite Hx, Hk. cbn [orb].
  destruct (x <? k) eqn:E1; [now apply double_le_refl|].
  destruct (k <? x) eqn:E2; [now apply double_lt_le|].
  destruct (get_sign x); [now apply double_le_refl|].
  now apply double_not_lt_le.
Qed.

Lemma readable_idx (l : list float) (i : nat) : Forall finite l -> readable (idx l i).
Proof.
  intro H. unfold idx. destruct (Nat.lt_ge_cases i (List.length l)) as [Hi|Hi].
  - left. rewrite Forall_forall in H. apply H. now apply nth_In.
  - right. now apply nth_overflow.
Qed.

Lemma double_scan_axis (v lo hi : float) :
  readable v -> axis_ok lo hi -> axis_ok (scanMin lo v) (scanMax hi v).
Proof.
  unfold scanMin, scanMax, gt.
  intros [Fv | ->] Hax.
  - pose proof (double_finite_notNaN v Fv) as Nv.
    destruct Hax as [[-> ->] | (Flo & Fhi & Hle)].
    + rewrite finite_lt_infinity, finite_gt_neg_infinity by assumption.
      right. repeat split; try assumption. now apply double_le_refl.
    + right.
      pose proof (double_finite_notNaN lo Flo) as Nlo. pose proof (double_finite_notNaN hi Fhi) as Nhi.
      destruct (v <? lo) eqn:E1; destruct (hi <? v) eqn:E2; repeat split; try assumption.
      * now apply double_le_refl.
      * eapply double_le_trans; [apply double_lt_le; exact E1 | exact Hle].
      * eapply double_le_trans; [exact Hle | apply double_lt_le; exact E2].
  - rewrite lt_nan_l, lt_nan_r. exact Hax.
Qed.


Lemma double_scanVertex_ok (b : Box3.t) (p : Vector3.t) :
  readable (Vector3.x p) -> readable (Vector3.y p) -> readable (Vector3.z p) ->
  box_ok b -> box_ok (scanVertex b p).
Proof.
  intros Hx Hy Hz (Bx & By & Bz). unfold box_ok, scanVertex. cbn.
  repeat split; now apply double_scan_axis.
Qed.

Lemma double_setFromBufferAttribute_ok (p : BufferAttribute.t) :
  Forall finite (BufferAttribute.array p) -> box_ok (setFromBufferAttribute p).
Proof.
  intro Hfin. unfold setFromBufferAttribute.
  assert (Hgen : forall (l : list nat) (b : Box3.t),
             box_ok b -> box_ok (fold_left (fun b i => scanVertex b (vertexAt p i)) l b)).
  { induction l as [|i l IH]; intros b Hb; cbn [fold_left]; [exact Hb|].
    apply IH. apply double_scanVertex_ok; try assumption; apply readable_idx; assumption. }
  apply Hgen. unfold box_ok, Box3.empty. cbn. repeat split; now left.
Qed.

Lemma axis_size (lo hi : float) :
  axis_ok lo hi -> (hi <? lo) = false -> notNaN (hi - lo).
Proof.
  intros [[-> ->] | (Flo & Fhi & _)] H; [discriminate H | now apply sub_finite].
Qed.

(** The size of a box scanned from finite values has no NaN component. *)
Lemma getSize_numbers (b : Box3.t) :
  box_ok b ->
  notNaN (Vector3.x (Box3.getSize b)) /\ notNaN (Vector3.y (Box3.getSize b))
  /\ notNaN (Vector3.z (Box3.getSize b)).
Proof.
  intros (Bx & By & Bz). unfold Box3.getSize, Box3.isEmpty.
  destruct (Vector3.x (Box3.max b) <? Vector3.x (Box3.min b)) eqn:Ex;
    [repeat split; reflexivity|].
  destruct (Vector3.y (Box3.max b) <? Vector3.y (Box3.min b)) eqn:Ey;
    [repeat split; reflexivity|].
  destruct (Vector3.z (Box3.max b) <? Vector3.z (Box3.min b)) eqn:Ez;
    [repeat split; reflexivity|].
  cbn. repeat split; now apply axis_size.
Qed.

(** ** The corners of the box are the extreme coordinates *)

Lemma fold_scanMin_is_min (t : list float) :
  forall a : float, notNaN a -> Forall notNaN t -> is_min (fold_left scanMin t a) (a :: t).
Proof.
  induction t as [|b t IH]; intros a Ha Ht; cbn [fold_left].
  - split; [now left|]. constructor; [now apply double_le_refl | constructor].
  - inversion Ht as [|? ? Hb Ht']; subst.
    assert (Hs : notNaN (scanMin a b) /\ (scanMin a b <=? a) = true
                 /\ (scanMin a b <=? b) = true /\ (scanMin a b = a \/ scanMin a b = b)).
    { unfold scanMin. destruct (b <? a) eqn:E.
      - repeat split; auto using double_lt_le, double_le_refl.
      - repeat split; auto using double_not_lt_le, double_le_refl. }
    destruct Hs as (Hn & Hla & Hlb & Hor).
    destruct (IH (scanMin a b) Hn Ht') as [Hin Hall].
    inversion Hall as [|? ? Hm Hall']; subst.
    split.
    + destruct Hin as [<- | Hin]; [destruct Hor as [-> | ->]; cbn; auto | cbn; auto].
    + constructor; [eapply double_le_trans; eassumption|].
      constructor; [eapply double_le_trans; eassumption | assumption].
Qed.

Lemma fold_scanMax_is_max (t : list float) :
  forall a : float, notNaN a -> Forall notNaN t -> is_max (fold_left scanMax t a) (a :: t).
Proof.
  induction t as [|b t IH]; intros a Ha Ht; cbn [fold_left].
  - split; [now left|]. constructor; [now apply double_le_refl | constructor].
  - inversion Ht as [|? ? Hb Ht']; subst.
    assert (Hs : notNaN (scanMax a b) /\ (a <=? scanMax a b) = true
                 /\ (b <=? scanMax a b) = true /\ (scanMax a b = a \/ scanMax a b = b)).
    { unfold scanMax, gt. destruct (a <? b) eqn:E.
      - repeat split; auto using double_lt_le, double_le_refl.
      - repeat split; auto using double_not_lt_le, double_le_refl. }
    destruct Hs as (Hn & Hla & Hlb & Hor).
    destruct (IH (scanMax a b) Hn Ht') as [Hin Hall].
    inversion Hall as [|? ? Hm Hall']; subst.
    split.
    + destruct Hin as [<- | Hin]; [destruct Hor as [-> | ->]; cbn; auto | cbn; auto].
    + constructor; [eapply double_le_trans; eassumption|].
      constructor; [eapply double_le_trans; eassumption | assumption].
Qed.

Lemma scan_fold_corners (vs : list Vector3.t) :
  forall b : Box3.t,
    Box3.min (fold_left scanVertex vs b)
    = Vector3.mk (fold_left scanMin (xs vs) (Vector3.x (Box3.min b)))
                 (fold_left scanMin (ys vs) (Vector3.y (Box3.min b)))
                 (fold_left scanMin (zs vs) (Vector3.z (Box3.min b)))
    /\ Box3.max (fold_left scanVertex vs b)
       = Vector3.mk (fold_left scanMax (xs vs) (Vector3.x (Box3.max b)))
                    (fold_left scanMax (ys vs) (Vector3.y (Box3.max b)))
                    (fold_left scanMax (zs vs) (Vector3.z (Box3.max b))).
Proof.
  induction vs as [|v vs IH]; intro b; cbn [fold_left xs ys zs map].
  - now destruct b as [[? ? ?] [? ? ?]].
  - destruct (IH (scanVertex b v)) as [-> ->]. split; reflexivity.
Qed.

Lemma setFromBufferAttribute_vertices (p : BufferAttribute.t) :
  setFromBufferAttribute p = fold_left scanVertex (vertices p) Box3.empty.
Proof.
  unfold setFromBufferAttribute, vertices.
  generalize Box3.empty. induction (seq 0 (BufferAttribute.count p)) as [|i l IH];
    intro b; cbn [fold_left map]; [reflexivity | apply IH].
Qed.

Lemma double_finiteVertices_numeric (vs : list Vector3.t) : finiteVertices vs -> numeric vs.
Proof.
  intro H. eapply Forall_impl; [|exact H].
  intros v (Hx & Hy & Hz). repeat split; now apply double_finite_notNaN.
Qed.

(** On vertices with finite coordinates the scanned box is not empty and
    its corners are least and greatest coordinates. *)
Lemma box_corners (vs : list Vector3.t) :
  vs <> [] -> finiteVertices vs ->
  let b := fold_left scanVertex vs Box3.empty in
  is_min (Vector3.x (Box3.min b)) (xs vs) /\ is_max (Vector3.x (Box3.max b)) (xs vs)
  /\ is_min (Vector3.y (Box3.min b)) (ys vs) /\ is_max (Vector3.y (Box3.max b)) (ys vs)
  /\ is_min (Vector3.z (Box3.min b)) (zs vs) /\ is_max (Vector3.z (Box3.max b)) (zs vs).
Proof.
  intros Hne Hfin. destruct vs as [|v vs]; [congruence|]. clear Hne.
  cbv zeta. cbn [fold_left].
  destruct (scan_fold_corners vs (scanVertex Box3.empty v)) as [-> ->].
  inversion Hfin as [|? ? (Fx & Fy & Fz) Hfin']; subst.
  pose proof (double_finiteVertices_numeric vs Hfin') as Hnum.
  unfold scanVertex, Box3.empty, gt. cbn [Box3.min Box3.max Vector3.x Vector3.y Vector3.z].
  rewrite !finite_lt_infinity, !finite_gt_neg_infinity by assumption.
  cbn [xs ys zs map].
  repeat split;
    first [ apply fold_scanMin_is_min | apply fold_scanMin_is_min
          | apply fold_scanMax_is_max ];
    auto using double_finite_notNaN, double_numeric_xs, double_numeric_ys, double_numeric_zs.
Qed.

Lemma min_le_max (lo hi : float) (l : list float) :
  is_min lo l -> is_max hi l -> (hi <? lo) = false.
Proof.
  intros [_ Hall] [Hin _]. rewrite Forall_forall in Hall.
  apply double_le_not_lt. now apply Hall.
Qed.

Lemma all_equal_extremum (v m : float) (l : list float) :
  Forall (eq v) l -> In m l -> m = v.
Proof. intros H Hin. rewrite Forall_forall in H. symmetry. now apply H. Qed.





End DoubleFallback.

(* ================================================================== *)
(** * The classifier and the comparison on doubles *)
(* ================================================================== *)

Section DoubleClassifier.
Import Double.
Local Open Scope float_scope.

Lemma eqb_zero (a : float) : (a =? 0) = true -> a = 0 \/ a = (-0).
Proof.
  rewrite FloatAxioms.eqb_spec. change (Prim2SF 0) with (S754_zero false).
  pose proof (double_cases a) as H.
  destruct (Prim2SF a) as [s|s| |s m e]; cbn; try discriminate.
  - intros _. destruct s; auto.
  - destruct s; discriminate.
  - destruct s; discriminate.
Qed.

Lemma is_nan_eq (a : float) : PrimFloat.is_nan a = true -> a = nan.
Proof.
  intro H. apply is_nan_spec in H. pose proof (double_cases a) as C.
  now rewrite H in C.
Qed.

Lemma truthy_false_iff (a : float) :
  truthy a = false <-> a = 0 \/ a = (-0) \/ a = nan.
Proof.
  unfold truthy. split.
  - intro H. apply negb_false_iff, orb_true_iff in H as [H | H].
    + right. right. now apply is_nan_eq.
    + apply eqb_zero in H. tauto.
  - intros [-> | [-> | ->]]; reflexivity.
Qed.

Lemma lt_lt_false (a b x : float) :
  (x <? a) = true -> (b <? x) = true -> (b <=? a) = false -> False.
Proof.
  intros H1 H2 H3. apply double_lt_le in H1, H2.
  rewrite (double_le_trans _ _ _ H2 H1) in H3. discriminate.
Qed.

(** C7.  The classifier compares the double length / width with the
    doubles 2.6 and 2.2, and the double height / length with 0.25 and
    0.18, by strict [>] and [<].  For truthy inputs: a ratio above 2.6 is
    "Long Foot Type", one below 2.2 "Wide Foot Type", and every other one,
    2.2 and 2.6 themselves included, "Normal Foot Type"; a ratio above
    0.25 is "High Arch", one below 0.18 "Low Arch / Flat Foot", every
    other one, 0.18 and 0.25 included, "Normal Arch".  A falsy input (+0,
    -0 or NaN, or a missing record for the scene-manager copy) gives the
    "Analysis Pending" result.  The copy in scene-manager.js classifies a
    record as the engine classifies its three fields. *)
Theorem analyzeFootType_bands :
  (forall length width height : float,
     truthy length = true -> truthy width = true -> truthy height = true ->
     let a := Double.analyzeFootType length width height in
     ((length / width >? 2.6) = true ->
        footType a = "Long Foot Type" /\ description a = describe_long)
     /\ ((length / width <? 2.2) = true ->
        footType a = "Wide Foot Type" /\ description a = describe_wide)
     /\ ((length / width >? 2.6) = false -> (length / width <? 2.2) = false ->
        footType a = "Normal Foot Type" /\ description a = describe_normal)
     /\ ((2.2 <=? length / width) = true -> (length / width <=? 2.6) = true ->
        footType a = "Normal Foot Type" /\ description a = describe_normal)
     /\ ((height / length >? 0.25) = true -> archType a = "High Arch")
     /\ ((height / length <? 0.18) = true -> archType a = "Low Arch / Flat Foot")
     /\ ((height / length >? 0.25) = false -> (height / length <? 0.18) = false ->
        archType a = "Normal Arch")
     /\ ((0.18 <=? height / length) = true -> (height / length <=? 0.25) = true ->
        archType a = "Normal Arch"))
  /\ (forall length width height : float,
        truthy length = false \/ truthy width = false \/ truthy height = false ->
        Double.analyzeFootType length width height = analysis_pending)
  /\ (forall a : float, truthy a = false <-> a = 0 \/ a = (-0) \/ a = nan)
  /\ Double.DualFootAnalyzer.analyzeFootType None = analysis_pending
  /\ (forall m : Measurements.t,
        Double.DualFootAnalyzer.analyzeFootType (Some m)
        = Double.analyzeFootType (Measurements.length m) (Measurements.width m)
                                 (Measurements.height m)).
Proof.
  split; [|split; [|split; [|split]]].
  - intros length width height Hl Hw Hh. cbv zeta.
    unfold Double.analyzeFootType. rewrite Hl, Hw, Hh. cbn [negb orb].
    unfold gt.
    destruct (2.6 <? length / width) eqn:E1;
      [| destruct (length / width <? 2.2) eqn:E2];
      (destruct (0.25 <? height / length) eqn:E3;
       [| destruct (height / length <? 0.18) eqn:E4]);
      cbn [footType archType description];
      repeat split; intros; try reflexivity; try discriminate; exfalso;
      try (eapply lt_lt_false; [eassumption | eassumption | reflexivity]);
      repeat match goal with
             | H : (_ <=? _) = true |- _ => apply double_le_not_lt in H
             end; congruence.
  - intros length width height H. unfold Double.analyzeFootType.
    destruct H as [-> | [-> | ->]]; cbn [negb orb]; rewrite ?orb_true_r; reflexivity.
  - exact truthy_false_iff.
  - reflexivity.
  - intro m. reflexivity.
Qed.

(** The ratio is the double the division rounds to: 200.2 / 91 is
    2.1999999999999997, below the double 2.2, and the foot is wide; the
    quotient of 260 + 2^-43 by 100 + 3 * 2^-46 is rounded to the double
    2.6 and the foot is normal. *)
Lemma analyzeFootType_rounding :
  (200.2 / 91 = 2.1999999999999997)%float
  /\ footType (Double.analyzeFootType 200.2 91 40) = "Wide Foot Type"
  /\ ((260 + 0x1p-43) / (100 + 0x3p-46) = 2.6)%float
  /\ footType (Double.analyzeFootType (260 + 0x1p-43) (100 + 0x3p-46) 60)
     = "Normal Foot Type".
Proof. repeat split; vm_compute; reflexivity. Qed.

Lemma analyzeFootType_bands_witness :
  footType (Double.analyzeFootType 261 100 60) = "Long Foot Type"
  /\ footType (Double.analyzeFootType 260 100 65) = "Normal Foot Type"
  /\ footType (Double.analyzeFootType 220 100 55) = "Normal Foot Type"
  /\ footType (Double.analyzeFootType 200.2 91 40) = "Wide Foot Type"
  /\ archType (Double.analyzeFootType 200 80 51) = "High Arch"
  /\ archType (Double.analyzeFootType 200 80 50) = "Normal Arch"
  /\ archType (Double.analyzeFootType 200 80 36) = "Normal Arch"
  /\ archType (Double.analyzeFootType 200 80 35) = "Low Arch / Flat Foot"
  /\ Double.analyzeFootType 0 100 60 = analysis_pending
  /\ Double.analyzeFootType 260 nan 60 = analysis_pending.
Proof.
  destruct analyzeFootType_bands as (Hcls & Hpending & _).
  refine (conj _ (conj _ (conj _ (conj _ (conj _ (conj _ (conj _ (conj _ (conj _ _))))))))).
  - destruct (Hcls 261 100 60 eq_refl eq_refl eq_refl) as (H & _). now apply H.
  - destruct (Hcls 260 100 65 eq_refl eq_refl eq_refl) as (_ & _ & _ & H & _). now apply H.
  - destruct (Hcls 220 100 55 eq_refl eq_refl eq_refl) as (_ & _ & _ & H & _). now apply H.
  - destruct (Hcls 200.2 91 40 eq_refl eq_refl eq_refl) as (_ & H & _). now apply H.
  - destruct (Hcls 200 80 51 eq_refl eq_refl eq_refl) as (_ & _ & _ & _ & H & _). now apply H.
  - destruct (Hcls 200 80 50 eq_refl eq_refl eq_refl) as (_ & _ & _ & _ & _ & _ & _ & H).
    now apply H.
  - destruct (Hcls 200 80 36 eq_refl eq_refl eq_refl) as (_ & _ & _ & _ & _ & _ & _ & H).
    now apply H.
  - destruct (Hcls 200 80 35 eq_refl eq_refl eq_refl) as (_ & _ & _ & _ & _ & H & _).
    now apply H.
  - apply Hpending. now left.
  - apply Hpending. right. now left.
Defined.

End DoubleClassifier.

Section DoubleComparison.
Import Double.
Local Open Scope float_scope.

Lemma add_nan_l (a : float) : nan + a = nan.
Proof. apply Prim2SF_inj. rewrite FloatAxioms.add_spec. reflexivity. Qed.

Lemma add_nan_r (a : float) : a + nan = nan.
Proof.
  apply Prim2SF_inj. rewrite FloatAxioms.add_spec.
  change (Prim2SF nan) with S754_nan. now destruct (Prim2SF a).
Qed.

Lemma div_nan_l (a : float) : nan / a = nan.
Proof. apply Prim2SF_inj. rewrite FloatAxioms.div_spec. reflexivity. Qed.

Lemma round_of_nan_sum (a : float) : round (nan / a) = nan.
Proof. rewrite div_nan_l. reflexivity. Qed.

Lemma zero_axis_symmetry (l r : float) :
  (l =? 0) = true -> (r =? 0) = true ->
  (1 - PrimFloat.abs (l - r) / max l r) * 100 = nan.
Proof.
  intros Hl Hr. apply eqb_zero in Hl, Hr.
  destruct Hl as [-> | ->], Hr as [-> | ->]; reflexivity.
Qed.

Lemma max_same (x : float) : notNaN x -> max x x = x.
Proof.
  unfold notNaN, max. intros ->. cbn [orb]. rewrite double_lt_irrefl.
  now destruct (get_sign x).
Qed.

Lemma same_axis_symmetry (x : float) :
  finite x -> truthy x = true ->
  PrimFloat.abs (x - x) = 0 /\ (1 - PrimFloat.abs (x - x) / max x x) * 100 = 100.
Proof.
  intros Hf Ht. rewrite (sub_self x Hf), (max_same x (double_finite_notNaN x Hf)).
  split; [reflexivity|].
  change (PrimFloat.abs 0) with 0.
  assert (Hq : 0 / x = 0 \/ 0 / x = (-0)).
  { apply finite_spec in Hf. destruct Hf as [[s Hs] | (s & m & e & Hs)].
    - pose proof (double_cases x) as C. rewrite Hs in C.
      subst x. destruct s; discriminate.
    - assert (E : Prim2SF (0 / x) = S754_zero s).
      { rewrite FloatAxioms.div_spec, Hs. reflexivity. }
      pose proof (double_cases (0 / x)) as C. rewrite E in C.
      destruct s; auto. }
  destruct Hq as [-> | ->]; reflexivity.
Qed.

Lemma max_cases (a b : float) :
  (PrimFloat.is_nan a || PrimFloat.is_nan b = true -> max a b = nan)
  /\ (notNaN a -> notNaN b ->
      (a <=? max a b) = true /\ (b <=? max a b) = true /\ (max a b = a \/ max a b = b)).
Proof.
  unfold max, notNaN. split.
  - intros ->. reflexivity.
  - intros Ha Hb. rewrite Ha, Hb. cbn [orb].
    destruct (a <? b) eqn:E1.
    { split; [now apply double_lt_le|]. split; [now apply double_le_refl | now right]. }
    destruct (b <? a) eqn:E2.
    { split; [now apply double_le_refl|]. split; [now apply double_lt_le | now left]. }
    destruct (get_sign a).
    + split; [now apply double_not_lt_le|]. split; [now apply double_le_refl | now right].
    + split; [now apply double_le_refl|]. split; [now apply double_not_lt_le | now left].
Qed.

(** C9: the stated guard does not exist.  With both lengths 0 the length
    symmetry is 0 / 0, which is NaN and not 0, and the overall score is
    NaN in both copies. *)
Lemma zero_max_double_counterexample :
  let c := Double.UIController.updateComparisonData (dims 0 100 65) (dims 0 100 65) in
  let c' := Double.ReportGenerator.addComparisonSection (dims 0 100 65) (dims 0 100 65) in
  PrimFloat.is_nan (lengthSymmetry c) = true
  /\ (lengthSymmetry c =? 0) = false
  /\ PrimFloat.is_nan (overallSymmetry c) = true
  /\ PrimFloat.is_nan (lengthSymmetry c') = true
  /\ (lengthSymmetry c' =? 0) = false
  /\ PrimFloat.is_nan (overallSymmetry c') = true.
Proof. repeat split; vm_compute; reflexivity. Qed.

(** C9, amended.  Both copies compute the same numbers on doubles: per
    axis the difference [Math.abs(left - right)] and the symmetry
    [(1 - diff / Math.max(left, right)) * 100], and the overall score
    [Math.round] of the sum of the three symmetries divided by 3, every
    operation rounded to a double.  For two identical records with finite
    non-zero dimensions the differences are 0, the symmetries 100 and the
    score 100.  A zero maximum is not guarded: on whichever axis both
    values are zero, the symmetry of that axis and the overall score are
    NaN.  [Math.max] is NaN when an argument is, and otherwise the one of
    its arguments that the other does not exceed; [Math.round] takes 79.5
    to 80 and the mean 79.499999999999986 of the feet 240 x 100 x 60 and
    218 x 96 x 31 to 79. *)
Theorem comparison_formulas :
  (forall left right : Measurements.t,
     let c := Double.UIController.updateComparisonData left right in
     Double.ReportGenerator.addComparisonSection left right = c
     /\ lengthDiff c
        = PrimFloat.abs (Measurements.length left - Measurements.length right)
     /\ widthDiff c
        = PrimFloat.abs (Measurements.width left - Measurements.width right)
     /\ heightDiff c
        = PrimFloat.abs (Measurements.height left - Measurements.height right)
     /\ lengthSymmetry c
        = (1 - lengthDiff c
               / max (Measurements.length left) (Measurements.length right)) * 100
     /\ widthSymmetry c
        = (1 - widthDiff c
               / max (Measurements.width left) (Measurements.width right)) * 100
     /\ heightSymmetry c
        = (1 - heightDiff c
               / max (Measurements.height left) (Measurements.height right)) * 100
     /\ overallSymmetry c
        = round ((lengthSymmetry c + widthSymmetry c + heightSymmetry c) / 3))
  /\ (forall m : Measurements.t,
        finite (Measurements.length m) -> finite (Measurements.width m) ->
        finite (Measurements.height m) ->
        truthy (Measurements.length m) = true -> truthy (Measurements.width m) = true ->
        truthy (Measurements.height m) = true ->
        let c := Double.UIController.updateComparisonData m m in
        lengthDiff c = 0 /\ widthDiff c = 0 /\ heightDiff c = 0
        /\ lengthSymmetry c = 100 /\ widthSymmetry c = 100 /\ heightSymmetry c = 100
        /\ overallSymmetry c = 100)
  /\ (forall left right : Measurements.t,
        let c := Double.UIController.updateComparisonData left right in
        ((Measurements.length left =? 0) = true ->
         (Measurements.length right =? 0) = true ->
         lengthSymmetry c = nan /\ overallSymmetry c = nan)
        /\ ((Measurements.width left =? 0) = true ->
            (Measurements.width right =? 0) = true ->
            widthSymmetry c = nan /\ overallSymmetry c = nan)
        /\ ((Measurements.height left =? 0) = true ->
            (Measurements.height right =? 0) = true ->
            heightSymmetry c = nan /\ overallSymmetry c = nan))
  /\ (forall a b : float,
        (PrimFloat.is_nan a || PrimFloat.is_nan b = true -> max a b = nan)
        /\ (notNaN a -> notNaN b ->
            (a <=? max a b) = true /\ (b <=? max a b) = true
            /\ (max a b = a \/ max a b = b)))
  /\ round 79.5 = 80 /\ round 79.499999999999986 = 79 /\ round (-0.5) = (-0)
  /\ overallSymmetry
       (Double.UIController.updateComparisonData (dims 240 100 60) (dims 218 96 31)) = 79.
Proof.
  split; [|split; [|split; [|split; [exact max_cases | repeat split; vm_compute; reflexivity]]]].
  - intros left right. cbv zeta. repeat split; reflexivity.
  - intros m Fl Fw Fh Tl Tw Th. cbv zeta.
    unfold Double.UIController.updateComparisonData.
    cbn [lengthDiff widthDiff heightDiff lengthSymmetry widthSymmetry heightSymmetry
         overallSymmetry].
    destruct (same_axis_symmetry _ Fl Tl) as [Dl Sl].
    destruct (same_axis_symmetry _ Fw Tw) as [Dw Sw].
    destruct (same_axis_symmetry _ Fh Th) as [Dh Sh].
    rewrite Sl, Sw, Sh, Dl, Dw, Dh. repeat split; reflexivity.
  - intros left right. cbv zeta.
    unfold Double.UIController.updateComparisonData.
    cbn [lengthDiff widthDiff heightDiff lengthSymmetry widthSymmetry heightSymmetry
         overallSymmetry].
    split; [|split]; intros Hl Hr; rewrite (zero_axis_symmetry _ _ Hl Hr);
      rewrite ?add_nan_l, ?add_nan_r, ?add_nan_l, round_of_nan_sum; split; reflexivity.
Qed.

(** The mean is the double the additions and the division round to: for
    the feet 240 x 100 x 60 and 218 x 96 x 31 it is 79.499999999999986
    and the score is 79.  [Math.round] takes a tie to the larger
    integer. *)
Lemma comparison_rounding :
  let c := Double.UIController.updateComparisonData (dims 240 100 60) (dims 218 96 31) in
  (lengthSymmetry c + widthSymmetry c + heightSymmetry c) / 3 = 79.499999999999986
  /\ overallSymmetry c = 79
  /\ round 79.5 = 80 /\ round 2.5 = 3 /\ round (-2.5) = (-2) /\ round (-0.5) = (-0)
  /\ round 0.49999999999999994 = 0 /\ round (-2.6) = (-3)
  /\ round infinity = infinity /\ round nan = nan /\ round 4503599627370497 = 4503599627370497.
Proof. repeat split; vm_compute; reflexivity. Qed.

Lemma comparison_formulas_witness :
  let c := Double.UIController.updateComparisonData (dims 250 100 65) (dims 250 100 65) in
  let z := Double.UIController.updateComparisonData (dims 250 0 65) (dims 250 (-0) 65) in
  lengthDiff c = 0 /\ overallSymmetry c = 100
  /\ widthSymmetry z = nan /\ overallSymmetry z = nan.
Proof.
  destruct comparison_formulas as (_ & Hsame & Hzero & _).
  destruct (Hsame (dims 250 100 65) eq_refl eq_refl eq_refl eq_refl eq_refl eq_refl)
    as (D & _ & _ & _ & _ & _ & S).
  destruct (Hzero (dims 250 0 65) (dims 250 (-0) 65)) as (_ & Hw & _).
  destruct (Hw eq_refl eq_refl) as (W & O).
  exact (conj D (conj S (conj W O))).
Defined.

End DoubleComparison.
